(** * Seeding pipeline of the candle store: dates, inventory, orders, products

    A shallow embedding of the data-generation modules under
    [app/db/data_generation/] and the properties their design note states.

    Conventions used throughout.
    - A [datetime] is the number of microseconds since 1970-01-01 00:00:00
      (Python's naive datetimes have microsecond resolution); a [timedelta]
      is a number of microseconds.  The year-9999 ceiling of Python's
      datetime is far above every date handled here and is not modelled.
    - The values returned by [random.random], [random.randint] and
      [random.choice] are arguments of the functions that draw them, so a
      statement quantified over these arguments covers every run.
    - [Decimal] amounts are exact rationals ([Q]).
    - ORM rows are records; a table with a unique key is a [gmap] from that
      key, a Python dict is a [gmap] (or an association list where the
      iteration order is observed). *)

From Stdlib Require Import ZArith List Bool Lia QArith Qround Qminmax Qabs Sorted.
From stdpp Require Import base option list gmap.

Local Open Scope Z_scope.

(** ** [utils_datetime.py]: dates *)

Module Fechas.

Abbreviation datetime := Z (only parsing).
Abbreviation timedelta := Z (only parsing).

Definition USEC_POR_SEGUNDO : Z := 1000000.

(** [timedelta(seconds=n)], [timedelta(minutes=n)], ... for an integer [n]. *)
Definition segundos (n : Z) : timedelta := n * USEC_POR_SEGUNDO.
Definition minutos (n : Z) : timedelta := segundos (60 * n).
Definition horas (n : Z) : timedelta := minutos (60 * n).
Definition dias (n : Z) : timedelta := horas (24 * n).

(** Days between 1970-01-01 and the civil date [y]-[m]-[d] (proleptic
    Gregorian calendar, as in Python). *)
Definition dias_desde_civil (y m d : Z) : Z :=
  let y' := if m <=? 2 then y - 1 else y in
  let era := y' / 400 in
  let yoe := y' - era * 400 in
  let doy := (153 * (if 2 <? m then m - 3 else m + 9) + 2) / 5 + d - 1 in
  let doe := yoe * 365 + yoe / 4 - yoe / 100 + doy in
  era * 146097 + doe - 719468.

(** [datetime(y, m, d, h, mi, s)]. *)
Definition mk_datetime (y m d h mi s : Z) : datetime :=
  dias (dias_desde_civil y m d) + horas h + minutos mi + segundos s.

Definition SIMULATION_START_DATE : datetime := mk_datetime 2022 1 15 0 0 0.
Definition SIMULATION_END_DATE : datetime := mk_datetime 2025 4 30 23 59 59.
Definition STORE_OPENING_DATE : datetime := mk_datetime 2022 1 10 0 0 0.
Definition PRODUCTOS_START_DATE_LIMIT : datetime := mk_datetime 2022 1 15 0 0 0.
Definition PRODUCTOS_END_DATE_LIMIT : datetime := mk_datetime 2025 4 15 23 59 59.

(** Exceptions the date helpers raise. *)
Inductive excepcion := ValueError | TypeError.

(** [random.randint(a, b)] returning [r]: an empty range raises. *)
Definition randint (a b r : Z) : excepcion + Z :=
  if a <=? b then inr r else inl ValueError.

(** *** [generar_fecha_secuencial]

    The step is computed in binary64: [total_seconds()], a float
    division, a float product and [timedelta(seconds=<float>)].  These four
    operations of the Python runtime are the section's variables; with one
    element the step is the integer [0] and no float is involved. *)
Section SecuenciaDeFechas.

Variable float : Type.
(** [td.total_seconds()] *)
Variable total_seconds : timedelta -> float.
(** [x / n] for a float [x] and an int [n] *)
Variable float_div : float -> Z -> float.
(** [i * x] for an int [i] and a float [x] *)
Variable float_mul : Z -> float -> float.
(** [timedelta(seconds=x)] for a float [x] *)
Variable timedelta_de_float : float -> timedelta.

(** The value of [paso_segundos]: the int [0] or a float. *)
Inductive numero := Entero (n : Z) | Flotante (x : float).

Definition por (i : Z) (p : numero) : numero :=
  match p with
  | Entero n => Entero (i * n)
  | Flotante x => Flotante (float_mul i x)
  end.

Definition timedelta_seconds (p : numero) : timedelta :=
  match p with
  | Entero n => segundos n
  | Flotante x => timedelta_de_float x
  end.

Definition paso_segundos (fecha_inicio_rango fecha_fin_rango : datetime)
    (total_elementos : Z) : numero :=
  let rango_total_segundos := total_seconds (fecha_fin_rango - fecha_inicio_rango) in
  if total_elementos =? 1 then Entero 0
  else Flotante (float_div rango_total_segundos (total_elementos - 1)).

Definition generar_fecha_secuencial
    (fecha_inicio_rango fecha_fin_rango : datetime)
    (total_elementos indice_actual : Z) : excepcion + datetime :=
  if total_elementos <=? 0 then inl ValueError
  else if negb ((0 <=? indice_actual) && (indice_actual <? total_elementos))
  then inl ValueError
  else if fecha_fin_rango <? fecha_inicio_rango then inl ValueError
  else
    let segundos_a_sumar :=
      por indice_actual
          (paso_segundos fecha_inicio_rango fecha_fin_rango total_elementos) in
    let fecha_generada := fecha_inicio_rango + timedelta_seconds segundos_a_sumar in
    inr (Z.min fecha_generada fecha_fin_rango).

End SecuenciaDeFechas.

Arguments Entero {float} n.
Arguments Flotante {float} x.

(** Exact arithmetic as an instance of the float operations: seconds are
    rationals and [timedelta(seconds=x)] rounds to the nearest microsecond,
    ties to even. *)
Definition redondear_par (x : Q) : Z :=
  let f := Qfloor x in
  let resto := (x - inject_Z f)%Q in
  match (resto ?= 1 # 2)%Q with
  | Lt => f
  | Gt => f + 1
  | Eq => if Z.even f then f else f + 1
  end.

Definition total_seconds_exacto (d : timedelta) : Q := d # 1000000.
Definition div_exacta (x : Q) (n : Z) : Q := (x / inject_Z n)%Q.
Definition mul_exacta (i : Z) (x : Q) : Q := (inject_Z i * x)%Q.
Definition timedelta_exacto (x : Q) : timedelta :=
  redondear_par (x * inject_Z USEC_POR_SEGUNDO)%Q.

Definition generar_fecha_secuencial_exacta :=
  generar_fecha_secuencial Q total_seconds_exacto div_exacta mul_exacta
    timedelta_exacto.

(** *** [get_random_datetime_in_range]

    [random_seconds] is the value of the [random.randint] call of the branch
    taken; [respaldo] is [timedelta(seconds=random.uniform(0, time_diff))]
    of the [except] branch.  [int((max_date - min_date).total_seconds())]
    is the whole number of seconds of a positive span. *)
Definition get_random_datetime_in_range (min_date max_date : datetime)
    (random_seconds : Z) (respaldo : timedelta) : excepcion + datetime :=
  if max_date <=? min_date then
    match randint 1 300 random_seconds with
    | inr s => inr (min_date + segundos s)
    | inl e => inl e
    end
  else
    let time_diff_seconds := (max_date - min_date) / USEC_POR_SEGUNDO in
    match randint 0 time_diff_seconds random_seconds with
    | inr s => inr (min_date + segundos s)
    | inl _ => inr (min_date + respaldo)
    end.

(** *** [get_random_datetime] called with a [base_date_for_delta], and
    [generate_subsequent_update_datetime], its only caller in the order
    life cycle.  [delta] is the value of
    [random.randint(min_delta_seconds, max_delta_seconds)]. *)
Definition get_random_datetime_con_base (min_date max_date base_date_for_delta : datetime)
    (delta : Z) : datetime :=
  let effective_base_date := Z.max base_date_for_delta min_date in
  let candidate_date := effective_base_date + segundos delta in
  Z.min (Z.max candidate_date min_date) max_date.

Definition generate_subsequent_update_datetime
    (previous_update_datetime : datetime) (delta : Z) : datetime :=
  let effective_max_date := SIMULATION_END_DATE in
  let strict_min_date := previous_update_datetime + segundos 1 in
  get_random_datetime_con_base strict_min_date effective_max_date
    previous_update_datetime delta.

End Fechas.

Import Fechas.

(** ** Python built-ins used by several modules *)

Module Python.

(** [sorted(l, key=clave)] with integer keys: stable, ascending. *)
Fixpoint insertar_por {A} (clave : A -> Z) (x : A) (l : list A) : list A :=
  match l with
  | [] => [x]
  | y :: l' => if clave y <=? clave x then y :: insertar_por clave x l' else x :: l
  end.

Definition ordenar_por {A} (clave : A -> Z) (l : list A) : list A :=
  foldl (fun acc x => insertar_por clave x acc) [] l.

(** [sorted(l, key=clave, reverse=True)] with rational keys: stable,
    descending (equal keys keep their order). *)
Fixpoint insertar_desc_por {A} (clave : A -> Q) (x : A) (l : list A) : list A :=
  match l with
  | [] => [x]
  | y :: l' =>
      if Qle_bool (clave x) (clave y) then y :: insertar_desc_por clave x l'
      else x :: l
  end.

Definition ordenar_desc_por {A} (clave : A -> Q) (l : list A) : list A :=
  foldl (fun acc x => insertar_desc_por clave x acc) [] l.

(** [int(x)]: truncation towards zero. *)
Definition int_de_Q (x : Q) : Z := Z.quot (Qnum x) (Z.pos (Qden x)).

End Python.

Import Python.

(** ** [app/models]: the rows the generators read and write *)

Module Modelos.

Inductive EstadoProductoEnum := Activo | Inactivo.

Inductive EstadoPedidoEnum :=
  Pendiente | Procesando | Enviado | Entregado | Cancelado | Reembolsado.

Definition estado_producto_eqb (a b : EstadoProductoEnum) : bool :=
  match a, b with
  | Activo, Activo | Inactivo, Inactivo => true
  | _, _ => false
  end.

Definition estado_pedido_eqb (a b : EstadoPedidoEnum) : bool :=
  match a, b with
  | Pendiente, Pendiente | Procesando, Procesando | Enviado, Enviado
  | Entregado, Entregado | Cancelado, Cancelado | Reembolsado, Reembolsado => true
  | _, _ => false
  end.

Record Proveedor := {
  prov_id : Z;
  prov_fecha_registro : datetime }.

Record Producto := {
  prod_id : Z;
  prod_proveedor_id : Z;
  prod_estado : EstadoProductoEnum;
  prod_precio_venta : Q;
  prod_fecha_registro : datetime;
  prod_fecha_actualizacion : datetime }.

Record Inventario := {
  inv_producto_id : Z;
  cantidad_mano : Z;
  cantidad_disponible : Z;
  inv_fecha_registro : datetime;
  inv_fecha_actualizacion : datetime }.

Record Carrito := {
  car_usuario_id : Z;
  car_producto_id : Z;
  car_cantidad : Z;
  car_fecha_actualizacion : datetime }.

Record DetallePedido := {
  det_pedido_id : Z;
  det_producto_id : Z;
  det_cantidad : Z;
  det_precio_unitario : Q;
  det_subtotal : Q;
  det_fecha_registro : datetime;
  det_fecha_actualizacion : datetime }.

Record Pedido := {
  ped_id : Z;
  ped_usuario_id : Z;
  ped_costo_total : Q;
  estado_pedido : EstadoPedidoEnum;
  ped_fecha_registro : datetime;
  ped_fecha_actualizacion : datetime }.

Record Descuento := {
  desc_id : Z;
  desc_porcentaje : Q;
  desc_fecha_inicio : datetime;
  desc_fecha_fin : datetime }.

Record HistorialDescuento := {
  hist_usuario_id : Z;
  hist_descuento_id : Z;
  hist_fecha_registro : datetime }.

Record LocalizacionPedido := {
  loc_usuario_id : Z;
  loc_fecha_registro : datetime }.

(** The database session together with the module-level dictionary
    [ultimas_reposiciones] of [inventario.py].  [inventario.producto_id] is
    unique, so the inventory table is keyed by it; [pedido.detalles] is the
    relationship loaded from [db_detalles] by [pedido_id]. *)
Record Estado := {
  db_productos : gmap Z Producto;
  db_inventarios : gmap Z Inventario;
  db_detalles : list DetallePedido;
  ultimas_reposiciones : gmap Z datetime }.

Definition con_productos (ps : gmap Z Producto) (st : Estado) : Estado :=
  {| db_productos := ps; db_inventarios := db_inventarios st;
     db_detalles := db_detalles st;
     ultimas_reposiciones := ultimas_reposiciones st |}.

Definition con_inventarios (tabla : gmap Z Inventario) (st : Estado) : Estado :=
  {| db_productos := db_productos st; db_inventarios := tabla;
     db_detalles := db_detalles st;
     ultimas_reposiciones := ultimas_reposiciones st |}.

Definition con_detalles (ds : list DetallePedido) (st : Estado) : Estado :=
  {| db_productos := db_productos st; db_inventarios := db_inventarios st;
     db_detalles := ds;
     ultimas_reposiciones := ultimas_reposiciones st |}.

Definition con_ultimas_reposiciones (us : gmap Z datetime) (st : Estado) : Estado :=
  {| db_productos := db_productos st; db_inventarios := db_inventarios st;
     db_detalles := db_detalles st;
     ultimas_reposiciones := us |}.

(** Writing a mutated ORM object back to its row. *)
Definition guardar_inventario (i : Inventario) (st : Estado) : Estado :=
  con_inventarios (<[inv_producto_id i := i]> (db_inventarios st)) st.

Definition guardar_producto (p : Producto) (st : Estado) : Estado :=
  con_productos (<[prod_id p := p]> (db_productos st)) st.

Definition producto_con_estado (e : EstadoProductoEnum) (f : datetime)
    (p : Producto) : Producto :=
  {| prod_id := prod_id p; prod_proveedor_id := prod_proveedor_id p;
     prod_estado := e; prod_precio_venta := prod_precio_venta p;
     prod_fecha_registro := prod_fecha_registro p;
     prod_fecha_actualizacion := f |}.

Definition inventario_con (mano disponible : Z) (f : datetime)
    (i : Inventario) : Inventario :=
  {| inv_producto_id := inv_producto_id i; cantidad_mano := mano;
     cantidad_disponible := disponible;
     inv_fecha_registro := inv_fecha_registro i;
     inv_fecha_actualizacion := f |}.

Definition pedido_con_estado (e : EstadoPedidoEnum) (f : datetime)
    (p : Pedido) : Pedido :=
  {| ped_id := ped_id p; ped_usuario_id := ped_usuario_id p;
     ped_costo_total := ped_costo_total p; estado_pedido := e;
     ped_fecha_registro := ped_fecha_registro p;
     ped_fecha_actualizacion := f |}.

(** [pedido.detalles] *)
Definition detalles_de (pedido : Pedido) (st : Estado) : list DetallePedido :=
  filter (fun d => det_pedido_id d = ped_id pedido) (db_detalles st).

End Modelos.

Import Modelos.

(** ** [inventario.py] *)

Module Inventarios.

Definition PRODUCTOS_END_DATE_LIMIT : datetime := mk_datetime 2025 5 15 10 0 0.
Definition MIN_SECONDS_AFTER_PREVIOUS_UPDATE : Z := 1.
Definition UMBRAL_REPOSICION : Z := 12.
Definition PERIODO_MINIMO_REPOSICION : Z := 20.

Definition determinar_cantidad_reposicion (nivel_popularidad : Q)
    (ranking_en_categoria : Z) : Z :=
  if Qle_bool 8 nivel_popularidad then
    if ranking_en_categoria =? 1 then 108
    else if ranking_en_categoria <=? 4 then 96
    else 84
  else if Qle_bool 4 nivel_popularidad then
    if ranking_en_categoria =? 1 then 72
    else if ranking_en_categoria <=? 3 then 64
    else 48
  else
    if ranking_en_categoria =? 1 then 36
    else if ranking_en_categoria <=? 3 then 24
    else 12.

(** The results of the six aggregate queries of [calcular_popularidad] for
    one product: they range over tables (orders, comments, carts) outside
    [Estado], so they are inputs.  The maxima are [None] when the query
    returns no row. *)
Record ConsultasPopularidad := {
  ventas : Z;
  comentarios_positivos : Z;
  en_carritos : Z;
  max_ventas : option Z;
  max_comentarios : option Z;
  max_carritos : option Z }.

Definition puntuacion (valor : Z) (maximo : option Z) : Q :=
  let maximo := default 1 maximo in
  if 0 <? maximo then (inject_Z valor / inject_Z maximo * 10)%Q else 0%Q.

Definition calcular_popularidad (c : ConsultasPopularidad) : Q :=
  let peso_ventas := (6 # 10)%Q in
  let peso_comentarios := (3 # 10)%Q in
  let peso_carritos := (1 # 10)%Q in
  let popularidad :=
    (puntuacion (ventas c) (max_ventas c) * peso_ventas
     + puntuacion (comentarios_positivos c) (max_comentarios c) * peso_comentarios
     + puntuacion (en_carritos c) (max_carritos c) * peso_carritos)%Q in
  Qmin 10 (Qmax 0 popularidad).

(** The [for idx, (producto, popularidad) in enumerate(grupo)] search;
    [idx] is the index of the head of [grupo]. *)
Fixpoint buscar_en_grupo (producto_id : Z) (idx : Z) (grupo : list (Producto * Q))
    : option (Q * Z) :=
  match grupo with
  | [] => None
  | (producto, popularidad) :: resto =>
      if prod_id producto =? producto_id then Some (popularidad, idx + 1)
      else buscar_en_grupo producto_id (idx + 1) resto
  end.

Definition es_activo (p : Producto) : bool :=
  estado_producto_eqb (prod_estado p) Activo.

Definition calcular_cantidad_reposicion (st : Estado)
    (consultas : Z -> ConsultasPopularidad) (producto_id : Z) : Z :=
  let productos := List.filter es_activo (map_to_list (db_productos st)).*2 in
  let productos_con_popularidad :=
    map (fun p => (p, calcular_popularidad (consultas (prod_id p)))) productos in
  let productos_populares :=
    List.filter (fun x => Qle_bool 8 (snd x)) productos_con_popularidad in
  let productos_medios :=
    List.filter (fun x => negb (Qle_bool 8 (snd x)) && Qle_bool 4 (snd x))
      productos_con_popularidad in
  let productos_poco_populares :=
    List.filter (fun x => negb (Qle_bool 8 (snd x)) && negb (Qle_bool 4 (snd x)))
      productos_con_popularidad in
  let encontrado :=
    match buscar_en_grupo producto_id 0 (ordenar_desc_por snd productos_populares) with
    | Some r => Some r
    | None =>
        match buscar_en_grupo producto_id 0 (ordenar_desc_por snd productos_medios) with
        | Some r => Some r
        | None => buscar_en_grupo producto_id 0 (ordenar_desc_por snd productos_poco_populares)
        end
    end in
  match encontrado with
  | None => 24
  | Some (nivel_popularidad, ranking_en_categoria) =>
      determinar_cantidad_reposicion nivel_popularidad ranking_en_categoria
  end.

(** What one call of [verificar_reposicion_inventario] takes from outside
    the state: the query results and [random.randint(1, 5)]. *)
Record Reposicion := {
  consultas : Z -> ConsultasPopularidad;
  dias_reposicion : Z }.

(** Draws of one product in [create_inventario_inicial]. *)
Record AzarInventario := {
  segundos_cota : Z;       (* random.randint(10, 300) *)
  ai_random_seconds : Z;   (* inside get_random_datetime_in_range *)
  ai_respaldo : timedelta }.

Definition CANTIDAD_INICIAL : Z := 24.

Definition nuevo_inventario_inicial (producto : Producto) (a : AzarInventario)
    : excepcion + Inventario :=
  let cota_inferior_fecha_reg_inv := prod_fecha_registro producto in
  let cota_superior_fecha_reg_inv :=
    Z.min (prod_fecha_registro producto + segundos (segundos_cota a))
          PRODUCTOS_END_DATE_LIMIT in
  let fecha :=
    if cota_superior_fecha_reg_inv <? cota_inferior_fecha_reg_inv
    then inr cota_inferior_fecha_reg_inv
    else get_random_datetime_in_range cota_inferior_fecha_reg_inv
           cota_superior_fecha_reg_inv (ai_random_seconds a) (ai_respaldo a) in
  match fecha with
  | inl e => inl e
  | inr fecha_registro_inv =>
      inr {| inv_producto_id := prod_id producto;
             cantidad_mano := CANTIDAD_INICIAL;
             cantidad_disponible := CANTIDAD_INICIAL;
             inv_fecha_registro := fecha_registro_inv;
             inv_fecha_actualizacion := fecha_registro_inv |}
  end.

Fixpoint inventarios_iniciales (productos : list (Producto * AzarInventario))
    : excepcion + list Inventario :=
  match productos with
  | [] => inr []
  | (p, a) :: resto =>
      match nuevo_inventario_inicial p a with
      | inl e => inl e
      | inr i =>
          match inventarios_iniciales resto with
          | inl e => inl e
          | inr creados => inr (i :: creados)
          end
      end
  end.

(** [db.add_all(inventarios_creados); db.commit()]: a product that already
    has an inventory row, or that occurs twice, violates the unique key;
    the whole insertion is then rolled back. *)
Fixpoint insertar_inventarios (nuevos : list Inventario) (tabla : gmap Z Inventario)
    : option (gmap Z Inventario) :=
  match nuevos with
  | [] => Some tabla
  | i :: resto =>
      match tabla !! inv_producto_id i with
      | Some _ => None
      | None => insertar_inventarios resto (<[inv_producto_id i := i]> tabla)
      end
  end.

Definition create_inventario_inicial (st : Estado)
    (productos : list (Producto * AzarInventario))
    : excepcion + (list Inventario * Estado) :=
  match inventarios_iniciales productos with
  | inl e => inl e
  | inr inventarios_creados =>
      match insertar_inventarios inventarios_creados (db_inventarios st) with
      | Some tabla => inr (inventarios_creados, con_inventarios tabla st)
      | None => inr (inventarios_creados, st)
      end
  end.

Definition verificar_reposicion_inventario (st : Estado) (inventario : Inventario)
    (fecha_operacion : datetime) (env : Reposicion)
    : bool * Estado * Inventario :=
  let producto_id := inv_producto_id inventario in
  if cantidad_disponible inventario <? UMBRAL_REPOSICION then
    let en_espera :=
      match ultimas_reposiciones st !! producto_id with
      | Some ultima_reposicion =>
          let fecha_minima_reposicion :=
            ultima_reposicion + dias PERIODO_MINIMO_REPOSICION in
          fecha_operacion <? fecha_minima_reposicion
      | None => false
      end in
    if en_espera then (false, st, inventario)
    else
      let cantidad_repuesta :=
        calcular_cantidad_reposicion st (consultas env) producto_id in
      let fecha_reposicion_calculada :=
        fecha_operacion + dias (dias_reposicion env) in
      let fecha_reposicion_calculada :=
        if PRODUCTOS_END_DATE_LIMIT <? fecha_reposicion_calculada
        then PRODUCTOS_END_DATE_LIMIT else fecha_reposicion_calculada in
      let fecha_actualizacion_inventario_previa :=
        inv_fecha_actualizacion inventario in
      let nueva_fecha :=
        if fecha_reposicion_calculada <=? fecha_actualizacion_inventario_previa
        then fecha_actualizacion_inventario_previa
             + segundos MIN_SECONDS_AFTER_PREVIOUS_UPDATE
        else fecha_reposicion_calculada in
      let inventario' :=
        inventario_con (cantidad_mano inventario + cantidad_repuesta)
          (cantidad_disponible inventario + cantidad_repuesta)
          nueva_fecha inventario in
      let st1 := guardar_inventario inventario' st in
      let st2 :=
        con_ultimas_reposiciones
          (<[producto_id := nueva_fecha]> (ultimas_reposiciones st1)) st1 in
      let st3 :=
        match db_productos st2 !! producto_id with
        | Some producto =>
            if estado_producto_eqb (prod_estado producto) Inactivo then
              let fecha_actualizacion_producto_previa :=
                prod_fecha_actualizacion producto in
              let fecha_reactivacion_producto := nueva_fecha in
              let f :=
                if fecha_reactivacion_producto <=? fecha_actualizacion_producto_previa
                then fecha_actualizacion_producto_previa
                     + segundos MIN_SECONDS_AFTER_PREVIOUS_UPDATE
                else fecha_reactivacion_producto in
              guardar_producto (producto_con_estado Activo f producto) st2
            else st2
        | None => st2
        end in
      (true, st3, inventario')
  else (false, st, inventario).

Definition actualizar_inventario_por_pedido (st : Estado)
    (detalle_pedido : DetallePedido) (fecha_operacion : datetime)
    (env : Reposicion) : bool * option Inventario * Estado :=
  match db_inventarios st !! det_producto_id detalle_pedido with
  | None => (false, None, st)
  | Some inventario =>
      let cantidad_solicitada := det_cantidad detalle_pedido in
      if cantidad_disponible inventario <? cantidad_solicitada
      then (false, Some inventario, st)
      else
        let inventario1 :=
          inventario_con (cantidad_mano inventario - cantidad_solicitada)
            (cantidad_disponible inventario - cantidad_solicitada)
            fecha_operacion inventario in
        let st1 := guardar_inventario inventario1 st in
        let st2 :=
          if cantidad_disponible inventario1 =? 0 then
            match db_productos st1 !! det_producto_id detalle_pedido with
            | Some producto =>
                if negb (estado_producto_eqb (prod_estado producto) Inactivo)
                then guardar_producto
                       (producto_con_estado Inactivo fecha_operacion producto) st1
                else st1
            | None => st1
            end
          else st1 in
        let '(_, st3, inventario2) :=
          verificar_reposicion_inventario st2 inventario1 fecha_operacion env in
        (true, Some inventario2, st3)
  end.

Definition reponer_stock_tras_cancelacion (st : Estado) (producto_id : Z)
    (cantidad_repuesta : Z) (fecha_operacion : datetime)
    : bool * option Inventario * Estado :=
  match db_inventarios st !! producto_id with
  | None => (false, None, st)
  | Some inventario =>
      let cantidad_anterior_disponible := cantidad_disponible inventario in
      let inventario' :=
        inventario_con (cantidad_mano inventario + cantidad_repuesta)
          (cantidad_disponible inventario + cantidad_repuesta)
          fecha_operacion inventario in
      let st1 := guardar_inventario inventario' st in
      let st2 :=
        if (cantidad_anterior_disponible <=? 0)
           && (0 <? cantidad_disponible inventario')
        then
          match db_productos st1 !! producto_id with
          | Some producto =>
              if estado_producto_eqb (prod_estado producto) Inactivo
              then guardar_producto
                     (producto_con_estado Activo fecha_operacion producto) st1
              else st1
          | None => st1
          end
        else st1 in
      (true, Some inventario', st2)
  end.

End Inventarios.

Import Inventarios.

(** ** [detalle_pedido.py]: order lines and the order life cycle *)

Module DetallesPedido.

Definition PORCENTAJE_CANCELACION_DETALLE : Q := 5 # 100.
Definition PORCENTAJE_REEMBOLSO_DESDE_ENTREGADO_DETALLE : Q := 3 # 100.
Definition PORCENTAJE_REEMBOLSO_DESDE_CANCELADO_DETALLE : Q := 1 # 100.

(** [x < y] on [random.random()] values and thresholds. *)
Definition Qlt_bool (x y : Q) : bool := negb (Qle_bool y x).

Definition _calcular_fecha_procesando_simulacion (fecha_creacion_pedido : datetime)
    (minutos_delta : Z) : datetime :=
  let fecha_procesando := fecha_creacion_pedido + minutos minutos_delta in
  Z.min fecha_procesando SIMULATION_END_DATE.

Definition _calcular_fecha_envio_simulacion
    (fecha_creacion_pedido fecha_referencia_anterior : datetime)
    (delta_dias delta_segundos_adicionales : Z) : datetime :=
  let fecha_envio :=
    fecha_creacion_pedido + (dias delta_dias + segundos delta_segundos_adicionales) in
  let fecha_envio := Z.max fecha_envio (fecha_referencia_anterior + segundos 1) in
  Z.min fecha_envio SIMULATION_END_DATE.

Definition _calcular_fecha_entrega_simulacion
    (fecha_creacion_pedido fecha_referencia_anterior : datetime)
    (delta_dias delta_segundos_adicionales : Z) : datetime :=
  let fecha_entrega :=
    fecha_creacion_pedido + (dias delta_dias + segundos delta_segundos_adicionales) in
  let fecha_entrega := Z.max fecha_entrega (fecha_referencia_anterior + segundos 1) in
  Z.min fecha_entrega SIMULATION_END_DATE.

(** The guard shared by the five [update_pedido_a_*] functions:
    [pedido.estado_pedido in origenes and
     pedido.fecha_actualizacion < fecha <= SIMULATION_END_DATE]. *)
Definition puede_transicionar (origenes : list EstadoPedidoEnum) (pedido : Pedido)
    (fecha : datetime) : bool :=
  existsb (estado_pedido_eqb (estado_pedido pedido)) origenes
  && (ped_fecha_actualizacion pedido <? fecha)
  && (fecha <=? SIMULATION_END_DATE).

(** [commit_directo] only chooses between [db.commit()] and [db.flush()]
    and is left out. *)
Definition update_pedido_a_procesando (pedido : Pedido) (fecha_procesando : datetime)
    : bool * Pedido :=
  if puede_transicionar [Pendiente] pedido fecha_procesando
  then (true, pedido_con_estado Procesando fecha_procesando pedido)
  else (false, pedido).

(** The [for detalle_item in pedido.detalles] loop of the cancellation. *)
Fixpoint reponer_detalles (st : Estado) (detalles : list DetallePedido)
    (fecha_cancelacion : datetime) : Estado :=
  match detalles with
  | [] => st
  | detalle_item :: resto =>
      let '(_, _, st') :=
        reponer_stock_tras_cancelacion st (det_producto_id detalle_item)
          (det_cantidad detalle_item) fecha_cancelacion in
      reponer_detalles st' resto fecha_cancelacion
  end.

Definition update_pedido_a_cancelado (st : Estado) (pedido : Pedido)
    (fecha_cancelacion : datetime) : bool * Pedido * Estado :=
  if puede_transicionar [Pendiente] pedido fecha_cancelacion then
    let pedido' := pedido_con_estado Cancelado fecha_cancelacion pedido in
    (true, pedido', reponer_detalles st (detalles_de pedido' st) fecha_cancelacion)
  else (false, pedido, st).

Definition update_pedido_a_enviado (pedido : Pedido) (fecha_envio : datetime)
    : bool * Pedido :=
  if puede_transicionar [Procesando] pedido fecha_envio
  then (true, pedido_con_estado Enviado fecha_envio pedido)
  else (false, pedido).

Definition update_pedido_a_entregado (pedido : Pedido) (fecha_entrega : datetime)
    : bool * Pedido :=
  if puede_transicionar [Enviado] pedido fecha_entrega
  then (true, pedido_con_estado Entregado fecha_entrega pedido)
  else (false, pedido).

Definition update_pedido_a_reembolsado (pedido : Pedido) (fecha_reembolso : datetime)
    : bool * Pedido :=
  if puede_transicionar [Entregado; Cancelado] pedido fecha_reembolso
  then (true, pedido_con_estado Reembolsado fecha_reembolso pedido)
  else (false, pedido).

(** The body of the first loop of [create_detalles_for_pedido] for one cart
    row: [None] where the source [continue]s. *)
Definition detalle_de_carrito (st : Estado) (pedido : Pedido)
    (fecha_creacion : datetime) (carrito : Carrito) : option DetallePedido :=
  match db_productos st !! car_producto_id carrito with
  | None => None
  | Some producto =>
      if fecha_creacion <? prod_fecha_registro producto then None
      else
        match db_inventarios st !! prod_id producto with
        | None => None
        | Some inventario =>
            let cantidad_solicitada := car_cantidad carrito in
            let cantidad_disponible := cantidad_disponible inventario in
            if cantidad_disponible <=? 0 then None
            else
              let cantidad :=
                if cantidad_disponible <? cantidad_solicitada
                then cantidad_disponible else cantidad_solicitada in
              let precio_unitario := prod_precio_venta producto in
              let subtotal := (inject_Z cantidad * precio_unitario)%Q in
              Some {| det_pedido_id := ped_id pedido;
                      det_producto_id := prod_id producto;
                      det_cantidad := cantidad;
                      det_precio_unitario := precio_unitario;
                      det_subtotal := subtotal;
                      det_fecha_registro := fecha_creacion;
                      det_fecha_actualizacion := fecha_creacion |}
        end
  end.

Definition armar_detalles (st : Estado) (pedido : Pedido)
    (fecha_creacion : datetime) (carritos_usuario : list Carrito)
    : list DetallePedido :=
  omap (detalle_de_carrito st pedido fecha_creacion) carritos_usuario.

Definition costo_bruto (detalles : list DetallePedido) : Q :=
  foldl (fun acc d => (acc + det_subtotal d)%Q) 0%Q detalles.

(** Draws of the life-cycle simulation of one order. *)
Record AzarCiclo := {
  u_cancelacion : Q;          (* random.random() *)
  minutos_cancelacion : Z;    (* random.randint(1, 29) *)
  minutos_procesando : Z;     (* random.randint(30, 60) *)
  dias_envio : Z;             (* random.randint(1, 2) *)
  segundos_envio : Z;         (* random.randint(0, 86399) *)
  dias_entrega : Z;           (* random.randint(4, 10) *)
  segundos_entrega : Z;       (* random.randint(0, 86399) *)
  u_reembolso : Q;            (* random.random() *)
  delta_reembolso : Z;        (* random.randint(60, 7200) *)
  reposiciones : nat -> Reposicion  (* for the debit of the n-th line *) }.

(** Lines 189-324: the simulated life cycle, one definition per numbered
    step of the source.  Each step takes and returns
    [fecha_actual_del_pedido] and the order; the first also returns
    [pedido_fue_cancelado_simulado] and the state.  [update_envio] and
    [create_comentario] write shipment and comment rows only, which
    [Estado] does not carry. *)

(** 1. cancellation attempt *)
Definition paso_cancelacion (st : Estado) (pedido : Pedido) (a : AzarCiclo)
    : bool * datetime * Pedido * Estado :=
  let fecha_actual_del_pedido := ped_fecha_actualizacion pedido in
  if Qlt_bool (u_cancelacion a) PORCENTAJE_CANCELACION_DETALLE then
    let fecha_cancelacion_propuesta :=
      ped_fecha_registro pedido + minutos (minutos_cancelacion a) in
    let fecha_cancelacion_simulada :=
      Z.min fecha_cancelacion_propuesta SIMULATION_END_DATE in
    if fecha_actual_del_pedido <? fecha_cancelacion_simulada then
      let '(ok, pedido', st') :=
        update_pedido_a_cancelado st pedido fecha_cancelacion_simulada in
      if ok then (true, ped_fecha_actualizacion pedido', pedido', st')
      else (false, fecha_actual_del_pedido, pedido', st')
    else (false, fecha_actual_del_pedido, pedido, st)
  else (false, fecha_actual_del_pedido, pedido, st).

(** The shape shared by steps 2 to 5: propose a date, and if it is after
    [fecha_actual_del_pedido] call the update function. *)
Definition avanzar (update : Pedido -> datetime -> bool * Pedido)
    (fecha_propuesta : datetime) (fecha_actual_del_pedido : datetime)
    (pedido : Pedido) : datetime * Pedido :=
  if fecha_actual_del_pedido <? fecha_propuesta then
    let '(ok, pedido') := update pedido fecha_propuesta in
    if ok then (ped_fecha_actualizacion pedido', pedido')
    else (fecha_actual_del_pedido, pedido')
  else (fecha_actual_del_pedido, pedido).

(** 2. Pendiente -> Procesando *)
Definition paso_procesando (pedido_fue_cancelado_simulado : bool) (a : AzarCiclo)
    (x : datetime * Pedido) : datetime * Pedido :=
  let '(fecha_actual_del_pedido, pedido) := x in
  if negb pedido_fue_cancelado_simulado
     && estado_pedido_eqb (estado_pedido pedido) Pendiente
  then
    avanzar update_pedido_a_procesando
      (_calcular_fecha_procesando_simulacion (ped_fecha_registro pedido)
         (minutos_procesando a))
      fecha_actual_del_pedido pedido
  else x.

(** 3. Procesando -> Enviado *)
Definition paso_enviado (a : AzarCiclo) (x : datetime * Pedido) : datetime * Pedido :=
  let '(fecha_actual_del_pedido, pedido) := x in
  if estado_pedido_eqb (estado_pedido pedido) Procesando then
    avanzar update_pedido_a_enviado
      (_calcular_fecha_envio_simulacion (ped_fecha_registro pedido)
         fecha_actual_del_pedido (dias_envio a) (segundos_envio a))
      fecha_actual_del_pedido pedido
  else x.

(** 4. Enviado -> Entregado *)
Definition paso_entregado (a : AzarCiclo) (x : datetime * Pedido) : datetime * Pedido :=
  let '(fecha_actual_del_pedido, pedido) := x in
  if estado_pedido_eqb (estado_pedido pedido) Enviado then
    avanzar update_pedido_a_entregado
      (_calcular_fecha_entrega_simulacion (ped_fecha_registro pedido)
         fecha_actual_del_pedido (dias_entrega a) (segundos_entrega a))
      fecha_actual_del_pedido pedido
  else x.

(** 5. refund, from Entregado ([if]) or from Cancelado ([elif]) *)
Definition paso_reembolso (a : AzarCiclo) (x : datetime * Pedido) : datetime * Pedido :=
  let '(fecha_actual_del_pedido, pedido) := x in
  if (estado_pedido_eqb (estado_pedido pedido) Entregado
      && Qlt_bool (u_reembolso a) PORCENTAJE_REEMBOLSO_DESDE_ENTREGADO_DETALLE)
     || (estado_pedido_eqb (estado_pedido pedido) Cancelado
         && Qlt_bool (u_reembolso a) PORCENTAJE_REEMBOLSO_DESDE_CANCELADO_DETALLE)
  then
    avanzar update_pedido_a_reembolsado
      (generate_subsequent_update_datetime fecha_actual_del_pedido
         (delta_reembolso a))
      fecha_actual_del_pedido pedido
  else x.

Definition simular_ciclo_de_vida (st : Estado) (pedido : Pedido) (a : AzarCiclo)
    : bool * datetime * Pedido * Estado :=
  let '(pedido_fue_cancelado_simulado, fecha_actual_del_pedido, pedido, st) :=
    paso_cancelacion st pedido a in
  let '(fecha_actual_del_pedido, pedido) :=
    paso_reembolso a
      (paso_entregado a
         (paso_enviado a
            (paso_procesando pedido_fue_cancelado_simulado a
               (fecha_actual_del_pedido, pedido)))) in
  (pedido_fue_cancelado_simulado, fecha_actual_del_pedido, pedido, st).

(** Lines 330-358: the inventory debit of the [n]-th created line. *)
Definition descontar_detalle (st : Estado) (pedido_fue_cancelado_simulado : bool)
    (fecha_creacion fecha_actual_del_pedido : datetime)
    (detalle_item : DetallePedido) (env : Reposicion) : Estado :=
  if pedido_fue_cancelado_simulado then st
  else
    let '(exito, inventario_actualizado, st') :=
      actualizar_inventario_por_pedido st detalle_item fecha_creacion env in
    if negb exito then st'
    else
      match inventario_actualizado with
      | Some inventario =>
          if cantidad_disponible inventario =? 0 then
            match db_productos st' !! det_producto_id detalle_item with
            | Some producto_inv =>
                if negb (estado_producto_eqb (prod_estado producto_inv) Inactivo)
                then guardar_producto
                       (producto_con_estado Inactivo
                          (Z.max fecha_creacion fecha_actual_del_pedido)
                          producto_inv) st'
                else st'
            | None => st'
            end
          else st'
      | None => st'
      end.

Fixpoint descontar_detalles (st : Estado) (cancelado : bool)
    (fecha_creacion fecha_actual_del_pedido : datetime)
    (detalles : list DetallePedido) (n : nat) (envs : nat -> Reposicion) : Estado :=
  match detalles with
  | [] => st
  | detalle_item :: resto =>
      descontar_detalles
        (descontar_detalle st cancelado fecha_creacion fecha_actual_del_pedido
           detalle_item (envs n))
        cancelado fecha_creacion fecha_actual_del_pedido resto (S n) envs
  end.

Definition create_detalles_for_pedido (st : Estado) (pedido : Pedido)
    (carritos_usuario : list Carrito) (fecha_creacion : datetime) (a : AzarCiclo)
    : Q * Pedido * Estado :=
  let detalles_creados := armar_detalles st pedido fecha_creacion carritos_usuario in
  let costo_total_bruto := costo_bruto detalles_creados in
  match detalles_creados with
  | [] => (costo_total_bruto, pedido, st)
  | _ :: _ =>
      (* db.add_all(detalles_creados); db.flush() *)
      let st := con_detalles (db_detalles st ++ detalles_creados) st in
      let '(cancelado, fecha_actual_del_pedido, pedido, st) :=
        simular_ciclo_de_vida st pedido a in
      let st :=
        descontar_detalles st cancelado fecha_creacion fecha_actual_del_pedido
          detalles_creados 0 (reposiciones a) in
      (costo_total_bruto, pedido, st)
  end.

End DetallesPedido.

Import DetallesPedido.

(** ** [localizacion_pedido.py] and [pedidos.py]: from cart rows to orders *)

Module Pedidos.

(** The tables [create_pedidos] touches besides those of [Estado]:
    users (id to [fecha_registro]), delivery locations and the uses of
    discounts. *)
Record Tienda := {
  estado : Estado;
  usuarios : gmap Z datetime;
  localizaciones : list LocalizacionPedido;
  historial_descuentos : list HistorialDescuento }.

Definition con_estado (e : Estado) (t : Tienda) : Tienda :=
  {| estado := e; usuarios := usuarios t; localizaciones := localizaciones t;
     historial_descuentos := historial_descuentos t |}.

Definition con_localizaciones (l : list LocalizacionPedido) (t : Tienda) : Tienda :=
  {| estado := estado t; usuarios := usuarios t; localizaciones := l;
     historial_descuentos := historial_descuentos t |}.

Definition con_historial (h : list HistorialDescuento) (t : Tienda) : Tienda :=
  {| estado := estado t; usuarios := usuarios t;
     localizaciones := localizaciones t; historial_descuentos := h |}.

(** [db.rollback()]: the tables return to the last commit [t0]; the
    dictionary [ultimas_reposiciones] is a Python object and keeps what
    the aborted work wrote. *)
Definition rollback (t0 : Tienda) (actual : Estado) : Tienda :=
  con_estado (con_ultimas_reposiciones (ultimas_reposiciones actual) (estado t0)) t0.

(** [carritos_por_usuario]: a dict, iterated in insertion order. *)
Fixpoint anotar_carrito (c : Carrito) (d : list (Z * list Carrito))
    : list (Z * list Carrito) :=
  match d with
  | [] => [(car_usuario_id c, [c])]
  | (u, cs) :: d' =>
      if u =? car_usuario_id c then (u, cs ++ [c]) :: d'
      else (u, cs) :: anotar_carrito c d'
  end.

Definition agrupar_por_usuario (carritos : list Carrito) : list (Z * list Carrito) :=
  foldl (fun d c => anotar_carrito c d) [] carritos.

(** The 15-minute split of one user's rows (lines 90-111): [grupo_actual]
    is the open group, the result the groups appended to [sesiones_compra].
    The interval test is on exact microseconds. *)
Fixpoint partir_en_sesiones (grupo_actual : list Carrito) (carritos_usuario : list Carrito)
    : list (list Carrito) :=
  match carritos_usuario with
  | [] => []
  | carrito :: resto =>
      let '(cerradas, grupo_actual) :=
        match last grupo_actual with
        | None => ([], [carrito])
        | Some ultimo_carrito =>
            if car_fecha_actualizacion carrito - car_fecha_actualizacion ultimo_carrito
               <=? minutos 15
            then ([], grupo_actual ++ [carrito])
            else ([grupo_actual], [carrito])
        end in
      match resto with
      | [] => cerradas ++ [grupo_actual]
      | _ :: _ => cerradas ++ partir_en_sesiones grupo_actual resto
      end
  end.

Definition fecha_maxima (grupo : list Carrito) : Z :=
  match grupo with
  | [] => 0
  | c :: resto =>
      foldl (fun m c' => Z.max m (car_fecha_actualizacion c'))
        (car_fecha_actualizacion c) resto
  end.

Definition sesiones_compra (carritos : list Carrito) : list (list Carrito) :=
  let carritos_ordenados := ordenar_por car_fecha_actualizacion carritos in
  let carritos_por_usuario := agrupar_por_usuario carritos_ordenados in
  let sesiones :=
    concat (map (fun '(_, carritos_usuario) =>
                   partir_en_sesiones []
                     (ordenar_por car_fecha_actualizacion carritos_usuario))
                carritos_por_usuario) in
  ordenar_por fecha_maxima sesiones.

Definition num_sesiones_a_convertir (num_sesiones : Z) (porcentaje_conversion : Q) : Z :=
  Z.max 1 (int_de_Q (inject_Z num_sesiones * porcentaje_conversion)%Q).

(** Draws and outside answers of [create_localizacion_for_user]. *)
Record AzarLocalizacion := {
  al_random_seconds : Z;
  al_respaldo : timedelta;
  al_error : bool  (* the insertion raises *) }.

Definition ultima_localizacion (t : Tienda) (usuario_id : Z) : option datetime :=
  match List.filter (fun l => loc_usuario_id l =? usuario_id) (localizaciones t) with
  | [] => None
  | l :: ls => Some (foldl (fun m l' => Z.max m (loc_fecha_registro l'))
                       (loc_fecha_registro l) ls)
  end.

Definition create_localizacion_for_user (t : Tienda) (usuario_id : Z)
    (usuario_fecha_registro : datetime) (max_allowable_date : datetime)
    (fecha_minima : option datetime) (a : AzarLocalizacion)
    : option (LocalizacionPedido * Tienda) :=
  let ultima := ultima_localizacion t usuario_id in
  let min_possible_date :=
    match fecha_minima with
    | None =>
        let m := usuario_fecha_registro in
        let m := match ultima with
                 | Some f => Z.max m (f + segundos 1)
                 | None => m
                 end in
        m + dias 1
    | Some fecha_minima =>
        match ultima with
        | Some f => if fecha_minima <=? f then f + segundos 1 else fecha_minima
        | None => fecha_minima
        end
    end in
  if max_allowable_date <? min_possible_date then None
  else
    match get_random_datetime_in_range min_possible_date max_allowable_date
            (al_random_seconds a) (al_respaldo a) with
    | inl _ => None
    | inr fecha_registro =>
        if al_error a then None
        else
          let nueva_localizacion :=
            {| loc_usuario_id := usuario_id; loc_fecha_registro := fecha_registro |} in
          Some (nueva_localizacion,
                con_localizaciones (localizaciones t ++ [nueva_localizacion]) t)
    end.

(** Draws and outside answers of one pass through the [try] block. *)
Record AzarPedido := {
  localizacion : AzarLocalizacion;
  ap_random_seconds : Z;       (* date of the order *)
  ap_respaldo : timedelta;
  u_descuento : Q;             (* random.random() *)
  umbral_descuento : Q;        (* random.uniform(0.75, 0.95) *)
  eleccion_descuento : nat;    (* index taken by random.choice *)
  id_pedido : Z;               (* primary key given by the database *)
  costo_envio : Z;             (* random.randint(5000, 20000) *)
  error_envio : bool;          (* create_envio_for_pedido raises *)
  ciclo : AzarCiclo;
  segundos_actualizacion : Z;  (* random.randint(10, 60) *)
  error_commit : bool          (* the final commit raises *) }.

Definition random_choice {A} (l : list A) (k : nat) : option A :=
  l !! (k `mod` length l)%nat.

Definition descuento_usado (t : Tienda) (usuario_id : Z) (d : Descuento) : bool :=
  existsb (fun h => (hist_usuario_id h =? usuario_id) && (hist_descuento_id h =? desc_id d))
    (historial_descuentos t).

(** Step 3 (lines 202-229). *)
Definition elegir_descuento (t : Tienda) (todos_los_descuentos : list Descuento)
    (usuario_id : Z) (fecha_pedido_definitiva : datetime) (a : AzarPedido)
    : option Descuento :=
  let descuentos_validos :=
    List.filter (fun d => (desc_fecha_inicio d <=? fecha_pedido_definitiva)
                          && (fecha_pedido_definitiva <=? desc_fecha_fin d))
      todos_los_descuentos in
  let descuentos_no_usados :=
    List.filter (fun d => negb (descuento_usado t usuario_id d)) descuentos_validos in
  match descuentos_no_usados with
  | [] => None
  | _ :: _ =>
      if Qlt_bool (u_descuento a) (umbral_descuento a)
      then random_choice descuentos_no_usados (eleccion_descuento a)
      else None
  end.

(** What a created order leaves behind: the order, the discount attached
    to it ([descuento_aplicado_al_pedido]) and the gross total of its
    lines. *)
Record PedidoCreado := {
  pedido : Pedido;
  descuento_aplicado : option Descuento;
  bruto : Q }.

(** The row of [historial_descuentos] an order with a discount leaves. *)
Definition fila_historial (r : PedidoCreado) (d : Descuento) : HistorialDescuento :=
  {| hist_usuario_id := ped_usuario_id (pedido r); hist_descuento_id := desc_id d;
     hist_fecha_registro := ped_fecha_registro (pedido r) |}.

(** What holds of a created order to which a discount was attached. *)
Definition descuento_en_vigor (descs : list Descuento) (t' : Tienda)
    (r : PedidoCreado) : Prop :=
  forall d, descuento_aplicado r = Some d ->
    In d descs
    /\ desc_fecha_inicio d <= ped_fecha_registro (pedido r) <= desc_fecha_fin d
    /\ In (fila_historial r d) (historial_descuentos t')
    /\ exists costo_envio : Z,
         ped_costo_total (pedido r)
         = (bruto r - bruto r * (desc_porcentaje d / 100) + inject_Z costo_envio)%Q.

(** The [try] block of [create_pedidos] (lines 147-306) for one accepted
    session, from the last commit [t]. *)
Definition intentar_pedido (t : Tienda) (todos_los_descuentos : list Descuento)
    (grupo_carritos : list Carrito) (a : AzarPedido)
    : option PedidoCreado * Tienda :=
  match grupo_carritos, last grupo_carritos with
  | primer_carrito :: _, Some ultimo_carrito =>
      let usuario_id := car_usuario_id primer_carrito in
      match usuarios t !! usuario_id with
      | None => (None, t)
      | Some usuario_fecha_registro =>
          let ultima_fecha_carrito := car_fecha_actualizacion ultimo_carrito in
          let min_fecha_localizacion := ultima_fecha_carrito + minutos 1 in
          let max_fecha_localizacion := ultima_fecha_carrito + minutos 3 in
          let limite := SIMULATION_END_DATE <=? max_fecha_localizacion in
          let max_fecha_localizacion :=
            if limite then SIMULATION_END_DATE - minutos 10
            else max_fecha_localizacion in
          if limite && (max_fecha_localizacion <=? min_fecha_localizacion)
          then (None, t)
          else
            match create_localizacion_for_user t usuario_id usuario_fecha_registro
                    max_fecha_localizacion (Some min_fecha_localizacion)
                    (localizacion a) with
            | None => (None, t)
            | Some (localizacion_creada, t1) =>
                let min_fecha_pedido :=
                  loc_fecha_registro localizacion_creada + minutos 1 in
                let max_fecha_pedido :=
                  loc_fecha_registro localizacion_creada + minutos 3 in
                let limite := SIMULATION_END_DATE <=? max_fecha_pedido in
                let max_fecha_pedido :=
                  if limite then SIMULATION_END_DATE - minutos 5
                  else max_fecha_pedido in
                if limite && (max_fecha_pedido <=? min_fecha_pedido)
                then (None, t)
                else
                  match get_random_datetime_in_range min_fecha_pedido max_fecha_pedido
                          (ap_random_seconds a) (ap_respaldo a) with
                  | inl _ => (None, t)
                  | inr fecha_pedido_definitiva =>
                      let descuento_aplicado_al_pedido :=
                        elegir_descuento t1 todos_los_descuentos usuario_id
                          fecha_pedido_definitiva a in
                      let nuevo_pedido :=
                        {| ped_id := id_pedido a; ped_usuario_id := usuario_id;
                           ped_costo_total := 0; estado_pedido := Pendiente;
                           ped_fecha_registro := fecha_pedido_definitiva;
                           ped_fecha_actualizacion := fecha_pedido_definitiva |} in
                      if error_envio a then (None, t)
                      else
                        let '(costo_total_bruto, nuevo_pedido, e) :=
                          create_detalles_for_pedido (estado t1) nuevo_pedido
                            grupo_carritos fecha_pedido_definitiva (ciclo a) in
                        if Qeq_bool costo_total_bruto 0 then (None, rollback t e)
                        else
                          let costo_final_pedido :=
                            match descuento_aplicado_al_pedido with
                            | Some d =>
                                let monto_descuento :=
                                  (costo_total_bruto * (desc_porcentaje d / 100))%Q in
                                (costo_total_bruto - monto_descuento
                                 + inject_Z (costo_envio a))%Q
                            | None =>
                                (costo_total_bruto + inject_Z (costo_envio a))%Q
                            end in
                          let historial :=
                            match descuento_aplicado_al_pedido with
                            | Some d =>
                                historial_descuentos t1
                                ++ [{| hist_usuario_id := usuario_id;
                                       hist_descuento_id := desc_id d;
                                       hist_fecha_registro := fecha_pedido_definitiva |}]
                            | None => historial_descuentos t1
                            end in
                          let nuevo_pedido :=
                            {| ped_id := ped_id nuevo_pedido;
                               ped_usuario_id := ped_usuario_id nuevo_pedido;
                               ped_costo_total := costo_final_pedido;
                               estado_pedido := estado_pedido nuevo_pedido;
                               ped_fecha_registro := ped_fecha_registro nuevo_pedido;
                               ped_fecha_actualizacion :=
                                 fecha_pedido_definitiva
                                 + segundos (segundos_actualizacion a) |} in
                          if error_commit a then (None, rollback t e)
                          else
                            (Some {| pedido := nuevo_pedido;
                                     descuento_aplicado := descuento_aplicado_al_pedido;
                                     bruto := costo_total_bruto |},
                             con_historial historial (con_estado e t1))
                  end
            end
      end
  | _, _ => (None, t)
  end.

(** What became of a session in the main loop. *)
Inductive Suceso := Abandonada | Creado | Fallida | NoEvaluada.

(** The main loop (lines 125-321) over the sessions still to visit;
    [azar n] holds the draws for the [n]-th session: the [random.random()]
    of the acceptance decision and those of the [try] block. *)
Section Bucle.

Variable todos_los_descuentos : list Descuento.
Variable total_sesiones : Z.
Variable objetivo : Z.
Variable azar : nat -> Q * AzarPedido.

Fixpoint bucle_sesiones (sesiones : list (list Carrito)) (n : nat)
    (contador_procesados : Z) (pedidos_creados_list : list PedidoCreado)
    (t : Tienda) : list PedidoCreado * list Suceso * Tienda :=
  match sesiones with
  | [] => (pedidos_creados_list, [], t)
  | grupo_carritos :: resto =>
      let contador_procesados := contador_procesados + 1 in
      let sesiones_restantes := total_sesiones - contador_procesados in
      let pedidos_restantes := objetivo - Z.of_nat (length pedidos_creados_list) in
      if pedidos_restantes <=? 0
      then (pedidos_creados_list, map (fun _ => NoEvaluada) sesiones, t)
      else
        let probabilidad_conversion :=
          if 0 <? sesiones_restantes
          then (inject_Z pedidos_restantes / inject_Z sesiones_restantes)%Q
          else 1%Q in
        let '(u, a) := azar n in
        if Qlt_bool probabilidad_conversion u then
          let '(l, s, t') :=
            bucle_sesiones resto (S n) contador_procesados pedidos_creados_list t in
          (l, Abandonada :: s, t')
        else
          match intentar_pedido t todos_los_descuentos grupo_carritos a with
          | (Some r, t') =>
              let '(l, s, t'') :=
                bucle_sesiones resto (S n) contador_procesados
                  (pedidos_creados_list ++ [r]) t' in
              (l, Creado :: s, t'')
          | (None, t') =>
              let '(l, s, t'') :=
                bucle_sesiones resto (S n) contador_procesados
                  pedidos_creados_list t' in
              (l, Fallida :: s, t'')
          end
  end.

End Bucle.

Definition create_pedidos (t : Tienda) (todos_los_descuentos : list Descuento)
    (carritos : list Carrito) (porcentaje_conversion : Q)
    (azar : nat -> Q * AzarPedido) : list PedidoCreado * list Suceso * Tienda :=
  match carritos with
  | [] => ([], [], t)
  | _ :: _ =>
      let sesiones := sesiones_compra carritos in
      let total := Z.of_nat (length sesiones) in
      bucle_sesiones todos_los_descuentos total
        (num_sesiones_a_convertir total porcentaje_conversion) azar
        sesiones 0 0 [] t
  end.

End Pedidos.

(** ** [productos.py]: distribution over suppliers and the global clock *)

Module Productos.

(** [productos_por_proveedor[k] += d] *)
Definition incrementar (k d : Z) (m : gmap Z Z) : gmap Z Z :=
  <[k := default 0 (m !! k) + d]> m.

(** [sum(m.values())] *)
Definition suma_valores (m : gmap Z Z) : Z :=
  map_fold (fun _ v acc => v + acc) 0 m.

(** [for i in range(veces): m[l[i % num].id] += 1], from index [i]. *)
Fixpoint repartir_ciclico (l : list Proveedor) (veces : nat) (i : nat)
    (m : gmap Z Z) : gmap Z Z :=
  match veces with
  | O => m
  | S v =>
      match l !! (i `mod` length l)%nat with
      | Some p => repartir_ciclico l v (S i) (incrementar (prov_id p) 1 m)
      | None => m
      end
  end.

(** [max(1, (PRODUCTOS_END_DATE_LIMIT - p.fecha_registro).days)] *)
Definition dias_disponibles (p : Proveedor) : Z :=
  Z.max 1 ((Fechas.PRODUCTOS_END_DATE_LIMIT - prov_fecha_registro p) / dias 1).

(** [dias_disponibles_por_proveedor[p.id] / total_dias_ponderados
     * productos_restantes_para_distribuir], in exact arithmetic (the
    source computes it in binary64; the two agree when the quotient is 1). *)
Definition asignacion_exacta (dias_disponibles_por_proveedor : gmap Z Z)
    (total_dias_ponderados restantes : Z) (p : Proveedor) : Q :=
  (inject_Z (default 0%Z (dias_disponibles_por_proveedor !! prov_id p))
   / inject_Z total_dias_ponderados * inject_Z restantes)%Q.

(** The removal loop of the final adjustment (lines 147-166). *)
Fixpoint quitar_sobrantes (proveedores_ordenados : list Proveedor) (count : Z)
    (veces : nat) (i : nat) (m : gmap Z Z) : gmap Z Z :=
  match veces with
  | O => m
  | S v =>
      let num_proveedores := length proveedores_ordenados in
      let por_carga :=
        ordenar_desc_por (fun p => inject_Z (default 0 (m !! prov_id p)))
          proveedores_ordenados in
      match por_carga !! (i `mod` num_proveedores)%nat, proveedores_ordenados with
      | Some proveedor_a_quitar, primero :: _ =>
          let actuales := default 0 (m !! prov_id proveedor_a_quitar) in
          let min_productos_este_proveedor :=
            if (Z.of_nat num_proveedores <=? count) && (0 <? actuales)
            then 1 else 0 in
          let m' :=
            if min_productos_este_proveedor <? actuales
            then incrementar (prov_id proveedor_a_quitar) (-1) m
            else incrementar (prov_id primero) (-1) m in
          quitar_sobrantes proveedores_ordenados count v (S i) m'
      | _, _ => m
      end
  end.

(** Lines 64-166: how many products each supplier is planned to get.  The
    three dictionaries are keyed by supplier id. *)
Definition distribuir_productos (count : Z) (proveedores_ordenados : list Proveedor)
    : gmap Z Z :=
  let num_proveedores := Z.of_nat (length proveedores_ordenados) in
  let productos_por_proveedor : gmap Z Z :=
    foldl (fun m p => <[prov_id p := 0]> m) ∅ proveedores_ordenados in
  (* step 1: one product each, or one to each of the oldest *)
  let '(productos_por_proveedor, productos_asignados_base) :=
    if num_proveedores <=? count
    then ((fun _ => 1) <$> productos_por_proveedor, num_proveedores)
    else (foldl (fun m p => <[prov_id p := 1]> m) productos_por_proveedor
            (take (Z.to_nat count) proveedores_ordenados), count) in
  let productos_restantes_para_distribuir := count - productos_asignados_base in
  (* step 2: the rest in proportion to the available days *)
  let productos_por_proveedor :=
    if 0 <? productos_restantes_para_distribuir then
      let dias_disponibles_por_proveedor : gmap Z Z :=
        foldl (fun m p => <[prov_id p := dias_disponibles p]> m) ∅
          proveedores_ordenados in
      let total_dias_ponderados := suma_valores dias_disponibles_por_proveedor in
      if 0 <? total_dias_ponderados then
        let temp_asignaciones_proporcionales : gmap Z Q :=
          foldl (fun m p =>
                   <[prov_id p :=
                       asignacion_exacta dias_disponibles_por_proveedor
                         total_dias_ponderados
                         productos_restantes_para_distribuir p]> m)
            ∅ proveedores_ordenados in
        let m :=
          map_fold (fun p_id asignacion m => incrementar p_id (int_de_Q asignacion) m)
            productos_por_proveedor temp_asignaciones_proporcionales in
        let productos_aun_restantes_redondeo := count - suma_valores m in
        if 0 <? productos_aun_restantes_redondeo then
          let proveedores_ordenados_por_fraccion :=
            ordenar_desc_por
              (fun prov =>
                 let x := default 0%Q
                            (temp_asignaciones_proporcionales !! prov_id prov) in
                 (x - inject_Z (int_de_Q x))%Q)
              proveedores_ordenados in
          repartir_ciclico proveedores_ordenados_por_fraccion
            (Z.to_nat productos_aun_restantes_redondeo) 0 m
        else m
      else
        repartir_ciclico proveedores_ordenados
          (Z.to_nat productos_restantes_para_distribuir) 0 productos_por_proveedor
    else productos_por_proveedor in
  (* final adjustment *)
  let diferencia_final_ajuste := count - suma_valores productos_por_proveedor in
  if 0 <? diferencia_final_ajuste then
    repartir_ciclico proveedores_ordenados (Z.to_nat diferencia_final_ajuste) 0
      productos_por_proveedor
  else if diferencia_final_ajuste <? 0 then
    quitar_sobrantes proveedores_ordenados count
      (Z.to_nat (- diferencia_final_ajuste)) 0 productos_por_proveedor
  else productos_por_proveedor.

(** Draws and outside answers for one product. *)
Record AzarProducto := {
  horas_proveedor : Z;       (* random.randint(1, 12) *)
  minutos_proveedor : Z;     (* random.randint(0, 59) *)
  dias_inc : Z;              (* random.randint(0, 1) *)
  horas_inc : Z;             (* random.randint(0, 8) *)
  minutos_inc : Z;           (* random.randint(1, 59) *)
  segundos_inc : Z;          (* random.randint(0, 59) *)
  segundos_apretado : Z;     (* random.randint(1, 300) *)
  minutos_actualizacion : Z; (* random.randint(1, 30) *)
  precio_venta : Q;
  id_producto : Z;           (* primary key given by the database *)
  error_bd : bool            (* the [try] block of the product raises *) }.

(** The draws lie in the ranges asked of [random.randint]. *)
Definition azar_en_rango (a : AzarProducto) : Prop :=
  1 <= horas_proveedor a <= 12 /\ 0 <= minutos_proveedor a <= 59
  /\ 0 <= dias_inc a <= 1 /\ 0 <= horas_inc a <= 8
  /\ 1 <= minutos_inc a <= 59 /\ 0 <= segundos_inc a <= 59
  /\ 1 <= segundos_apretado a <= 300.

(** Registration dates strictly increasing along the list. *)
Definition fechas_crecientes (l : list Producto) : Prop :=
  StronglySorted Z.lt (map prod_fecha_registro l).

(** The product was registered strictly after a supplier of the list
    that it names as its own. *)
Definition posterior_a_su_proveedor (proveedores : list Proveedor) (p : Producto)
    : Prop :=
  exists proveedor,
    In proveedor proveedores
    /\ prod_proveedor_id p = prov_id proveedor
    /\ prov_fecha_registro proveedor < prod_fecha_registro p.

(** The clock is strictly increasing along the products created so far
    and has not gone back since the last of them. *)
Definition reloj (ultima_fecha_registro_global : datetime) (l : list Producto) : Prop :=
  fechas_crecientes l
  /\ Forall (fun p => prod_fecha_registro p <= ultima_fecha_registro_global) l.

(** Lines 235-293: the registration date of the next product, [None] when
    even the tight increment reaches the ceiling. *)
Definition fecha_de_registro (proveedor_actual : Proveedor)
    (i_prod_proveedor : nat) (ultima_fecha_registro_global : datetime)
    (fecha_limite_absoluta_productos : datetime) (a : AzarProducto)
    : option datetime :=
  let fecha_min_por_proveedor :=
    match i_prod_proveedor with
    | O => prov_fecha_registro proveedor_actual
           + (horas (horas_proveedor a) + minutos (minutos_proveedor a))
    | S _ => prov_fecha_registro proveedor_actual
    end in
  let minutos_inc :=
    if (dias_inc a =? 0) && (horas_inc a =? 0) && (minutos_inc a =? 0)
    then 1 else minutos_inc a in
  let incremento_secuencial :=
    dias (dias_inc a) + horas (horas_inc a) + minutos minutos_inc
    + segundos (segundos_inc a) in
  let fecha_min_por_secuencia := ultima_fecha_registro_global + incremento_secuencial in
  let fecha_registro_propuesta := Z.max fecha_min_por_proveedor fecha_min_por_secuencia in
  if fecha_limite_absoluta_productos <=? fecha_registro_propuesta then
    let incremento_secuencial_minimo := segundos (segundos_apretado a) in
    let fecha_min_por_secuencia_apretada :=
      ultima_fecha_registro_global + incremento_secuencial_minimo in
    let fecha_registro_apretada :=
      Z.max fecha_min_por_proveedor fecha_min_por_secuencia_apretada in
    if fecha_limite_absoluta_productos <=? fecha_registro_apretada then None
    else Some fecha_registro_apretada
  else Some fecha_registro_propuesta.

Definition nuevo_producto (proveedor_actual : Proveedor) (fecha_registro : datetime)
    (fecha_limite_absoluta_productos : datetime) (a : AzarProducto) : Producto :=
  let fecha_actualizacion := fecha_registro + minutos (minutos_actualizacion a) in
  let fecha_actualizacion :=
    if fecha_limite_absoluta_productos <=? fecha_actualizacion
    then fecha_limite_absoluta_productos - segundos 1 else fecha_actualizacion in
  let fecha_actualizacion :=
    if fecha_actualizacion <=? fecha_registro
    then fecha_registro + segundos 1 else fecha_actualizacion in
  {| prod_id := id_producto a; prod_proveedor_id := prov_id proveedor_actual;
     prod_estado := Activo; prod_precio_venta := precio_venta a;
     prod_fecha_registro := fecha_registro;
     prod_fecha_actualizacion := fecha_actualizacion |}.

(** What the generator logs about the clock: the supplier skipped by the
    pre-check (line 222), the halt at the ceiling (line 278) and a product
    whose creation raised (lines 463, 468). *)
Inductive Aviso := SinVentana | Detenida | ErrorAlCrear.

(** The inner loop, [for i_prod_proveedor in range(num)], from index [i]
    with [pendientes] iterations left.  Returns [detener_creacion_total],
    the clock, the products created so far and the log. *)
Fixpoint productos_de_proveedor (proveedor_actual : Proveedor)
    (fecha_limite_absoluta_productos : datetime) (azar : nat -> AzarProducto)
    (pendientes : nat) (i : nat) (ultima_fecha_registro_global : datetime)
    (productos_creados : list Producto) (avisos : list Aviso)
    : bool * datetime * list Producto * list Aviso :=
  match pendientes with
  | O => (false, ultima_fecha_registro_global, productos_creados, avisos)
  | S k =>
      match fecha_de_registro proveedor_actual i ultima_fecha_registro_global
              fecha_limite_absoluta_productos (azar i) with
      | None =>
          (true, ultima_fecha_registro_global, productos_creados,
           avisos ++ [Detenida])
      | Some fecha_registro =>
          if error_bd (azar i) then
            (* except: db.rollback(); the loop goes on, the clock stays *)
            productos_de_proveedor proveedor_actual fecha_limite_absoluta_productos
              azar k (S i) ultima_fecha_registro_global productos_creados
              (avisos ++ [ErrorAlCrear])
          else
            productos_de_proveedor proveedor_actual fecha_limite_absoluta_productos
              azar k (S i) fecha_registro
              (productos_creados
               ++ [nuevo_producto proveedor_actual fecha_registro
                     fecha_limite_absoluta_productos (azar i)])
              avisos
      end
  end.

(** The outer loop, [for proveedor_actual in proveedores_ordenados], from
    the [j]-th supplier. *)
Fixpoint productos_de_proveedores (productos_por_proveedor : gmap Z Z)
    (fecha_limite_absoluta_productos : datetime) (azar : nat -> nat -> AzarProducto)
    (proveedores : list Proveedor) (j : nat) (ultima_fecha_registro_global : datetime)
    (productos_creados : list Producto) (avisos : list Aviso)
    : list Producto * list Aviso :=
  match proveedores with
  | [] => (productos_creados, avisos)
  | proveedor_actual :: resto =>
      let num_productos_para_este_proveedor :=
        default 0 (productos_por_proveedor !! prov_id proveedor_actual) in
      if num_productos_para_este_proveedor =? 0 then
        productos_de_proveedores productos_por_proveedor
          fecha_limite_absoluta_productos azar resto (S j)
          ultima_fecha_registro_global productos_creados avisos
      else
        let earliest_datetime_for_this_provider :=
          prov_fecha_registro proveedor_actual + horas 1 in
        let next_possible_global_datetime :=
          ultima_fecha_registro_global + segundos 1 in
        let candidate_start_datetime :=
          Z.max earliest_datetime_for_this_provider next_possible_global_datetime in
        if fecha_limite_absoluta_productos <=? candidate_start_datetime then
          productos_de_proveedores productos_por_proveedor
            fecha_limite_absoluta_productos azar resto (S j)
            ultima_fecha_registro_global productos_creados
            (avisos ++ [SinVentana])
        else
          let '(detener_creacion_total, ultima, creados, avisos) :=
            productos_de_proveedor proveedor_actual
              fecha_limite_absoluta_productos (azar j)
              (Z.to_nat num_productos_para_este_proveedor) 0
              ultima_fecha_registro_global productos_creados avisos in
          if detener_creacion_total then (creados, avisos)
          else
            productos_de_proveedores productos_por_proveedor
              fecha_limite_absoluta_productos azar resto (S j) ultima creados
              avisos
  end.

(** [create_productos(db, count, proveedores)]; [ahora] is
    [datetime.now()], [azar j i] the draws for the [i]-th product of the
    [j]-th supplier in registration order.  The result is the returned
    list [productos_creados] and the log. *)
Definition create_productos (count : Z) (proveedores : list Proveedor)
    (ahora : datetime) (azar : nat -> nat -> AzarProducto)
    : list Producto * list Aviso :=
  match ordenar_por prov_fecha_registro proveedores with
  | [] => ([], [])
  | (primero :: _) as proveedores_ordenados =>
      let productos_por_proveedor := distribuir_productos count proveedores_ordenados in
      let start_date_ref := prov_fecha_registro primero - segundos 1 in
      let ultima_fecha_registro_global :=
        Z.max PRODUCTOS_START_DATE_LIMIT start_date_ref in
      let fecha_limite_absoluta_productos :=
        Z.min Fechas.PRODUCTOS_END_DATE_LIMIT ahora in
      productos_de_proveedores productos_por_proveedor
        fecha_limite_absoluta_productos azar proveedores_ordenados 0
        ultima_fecha_registro_global [] []
  end.

End Productos.

(** ** The order life cycle as a state machine *)

Module CicloDeVida.

(** The five transitions a caller can attempt. *)
Inductive Intento := AProcesando | ACancelado | AEnviado | AEntregado | AReembolsado.

Definition origenes (i : Intento) : list EstadoPedidoEnum :=
  match i with
  | AProcesando | ACancelado => [Pendiente]
  | AEnviado => [Procesando]
  | AEntregado => [Enviado]
  | AReembolsado => [Entregado; Cancelado]
  end.

Definition destino (i : Intento) : EstadoPedidoEnum :=
  match i with
  | AProcesando => Procesando
  | ACancelado => Cancelado
  | AEnviado => Enviado
  | AEntregado => Entregado
  | AReembolsado => Reembolsado
  end.

(** One call of the [update_pedido_a_*] function of the attempt. *)
Definition intentar (st : Estado) (pedido : Pedido) (i : Intento) (fecha : datetime)
    : bool * Pedido * Estado :=
  match i with
  | AProcesando => (update_pedido_a_procesando pedido fecha, st)
  | ACancelado => update_pedido_a_cancelado st pedido fecha
  | AEnviado => (update_pedido_a_enviado pedido fecha, st)
  | AEntregado => (update_pedido_a_entregado pedido fecha, st)
  | AReembolsado => (update_pedido_a_reembolsado pedido fecha, st)
  end.

(** The edges of the state machine of the design note. *)
Inductive permitida : EstadoPedidoEnum -> EstadoPedidoEnum -> Prop :=
  | pendiente_procesando : permitida Pendiente Procesando
  | pendiente_cancelado : permitida Pendiente Cancelado
  | procesando_enviado : permitida Procesando Enviado
  | enviado_entregado : permitida Enviado Entregado
  | entregado_reembolsado : permitida Entregado Reembolsado
  | cancelado_reembolsado : permitida Cancelado Reembolsado.

(** The state and date of the order after each attempt that was applied,
    for any sequence of attempts. *)
Fixpoint historial (st : Estado) (pedido : Pedido)
    (intentos : list (Intento * datetime)) : list (EstadoPedidoEnum * datetime) :=
  match intentos with
  | [] => []
  | (i, fecha) :: resto =>
      let '(ok, pedido', st') := intentar st pedido i fecha in
      if ok
      then (estado_pedido pedido', ped_fecha_actualizacion pedido')
           :: historial st' pedido' resto
      else historial st' pedido' resto
  end.

(** A history that follows the edges with strictly increasing dates, none
    after the end of the simulation. *)
Inductive traza_valida
    : EstadoPedidoEnum * datetime -> list (EstadoPedidoEnum * datetime) -> Prop :=
  | traza_fin e : traza_valida e []
  | traza_paso e f e' f' l :
      permitida e e' -> f < f' <= SIMULATION_END_DATE ->
      traza_valida (e', f') l -> traza_valida (e, f) ((e', f') :: l).

End CicloDeVida.

(** ** Invariants of the inventory table *)

Module Invariantes.

(** Every inventory row of the database satisfies [P]. *)
Definition todos (P : Inventario -> Prop) (st : Estado) : Prop :=
  map_Forall (fun _ i => P i) (db_inventarios st).

(** [0 <= cantidad_disponible <= cantidad_mano] *)
Definition acotado (i : Inventario) : Prop :=
  0 <= cantidad_disponible i <= cantidad_mano i.

(** [cantidad_disponible == cantidad_mano] *)
Definition iguales (i : Inventario) : Prop :=
  cantidad_disponible i = cantidad_mano i.

End Invariantes.

(** ** A small shop used in the examples *)

Module Ejemplo.

Definition T0 : datetime := mk_datetime 2024 1 1 0 0 0.
Definition T1 : datetime := mk_datetime 2024 3 1 12 0 0.

Definition vela : Producto :=
  {| prod_id := 1; prod_proveedor_id := 1; prod_estado := Activo;
     prod_precio_venta := 100; prod_fecha_registro := T0;
     prod_fecha_actualizacion := T0 |}.

Definition inventario_vela : Inventario :=
  {| inv_producto_id := 1; cantidad_mano := 24; cantidad_disponible := 24;
     inv_fecha_registro := T0; inv_fecha_actualizacion := T0 |}.

Definition tienda_inicial : Estado :=
  {| db_productos := {[ 1 := vela ]};
     db_inventarios := {[ 1 := inventario_vela ]};
     db_detalles := [];
     ultimas_reposiciones := ∅ |}.

(** A pending order created at [T1] from a cart row asking for 2 candles. *)
Definition pedido_pendiente : Pedido :=
  {| ped_id := 7; ped_usuario_id := 3; ped_costo_total := 0;
     estado_pedido := Pendiente; ped_fecha_registro := T1;
     ped_fecha_actualizacion := T1 |}.

Definition carrito_vela (cantidad : Z) : Carrito :=
  {| car_usuario_id := 3; car_producto_id := 1; car_cantidad := cantidad;
     car_fecha_actualizacion := T1 - minutos 5 |}.

Definition sin_consultas (_ : Z) : ConsultasPopularidad :=
  {| ventas := 0; comentarios_positivos := 0; en_carritos := 0;
     max_ventas := None; max_comentarios := None; max_carritos := None |}.

Definition reposicion_en (d : Z) : Reposicion :=
  {| consultas := sin_consultas; dias_reposicion := d |}.

(** Draws with [random.random()] equal to [u] at the cancellation test;
    a cancellation, if any, comes 10 minutes after creation. *)
Definition azar_ciclo (u : Q) : AzarCiclo :=
  {| u_cancelacion := u; minutos_cancelacion := 10; minutos_procesando := 30;
     dias_envio := 1; segundos_envio := 0; dias_entrega := 4;
     segundos_entrega := 0; u_reembolso := 1 # 2; delta_reembolso := 60;
     reposiciones := fun _ => reposicion_en 1 |}.

Definition disponible_y_mano (st : Estado) (producto_id : Z) : option (Z * Z) :=
  (fun i => (cantidad_disponible i, cantidad_mano i)) <$> db_inventarios st !! producto_id.

(** Two suppliers and draws that take the smallest increments; with
    [falla j i] the creation of the [i]-th product of the [j]-th supplier
    raises. *)
Definition proveedor_a : Proveedor :=
  {| prov_id := 5; prov_fecha_registro := mk_datetime 2023 1 1 0 0 0 |}.
Definition proveedor_b : Proveedor :=
  {| prov_id := 6; prov_fecha_registro := mk_datetime 2023 6 1 0 0 0 |}.

Definition ahora : datetime := mk_datetime 2026 1 1 0 0 0.

Definition azar_producto (falla : bool) : Productos.AzarProducto :=
  {| Productos.horas_proveedor := 1; Productos.minutos_proveedor := 0;
     Productos.dias_inc := 0; Productos.horas_inc := 0;
     Productos.minutos_inc := 1; Productos.segundos_inc := 0;
     Productos.segundos_apretado := 1; Productos.minutos_actualizacion := 1;
     Productos.precio_venta := 1000; Productos.id_producto := 0;
     Productos.error_bd := falla |}.

Definition sin_errores (j i : nat) : Productos.AzarProducto := azar_producto false.

Definition falla_el_primero_de_b (j i : nat) : Productos.AzarProducto :=
  azar_producto (Nat.eqb j 1 && Nat.eqb i 0).

(** A shop whose candle is nearly sold out. *)
Definition inventario_bajo : Inventario :=
  {| inv_producto_id := 1; cantidad_mano := 5; cantidad_disponible := 5;
     inv_fecha_registro := T0; inv_fecha_actualizacion := T0 |}.

Definition tienda_baja : Estado :=
  {| db_productos := {[ 1 := vela ]};
     db_inventarios := {[ 1 := inventario_bajo ]};
     db_detalles := [];
     ultimas_reposiciones := ∅ |}.

(** Three clients with one cart row each, twenty minutes apart, and a
    discount valid during 2024. *)
Definition tienda_con_clientes : Pedidos.Tienda :=
  {| Pedidos.estado := tienda_inicial;
     Pedidos.usuarios := {[ 3 := T0; 4 := T0; 5 := T0 ]};
     Pedidos.localizaciones := [];
     Pedidos.historial_descuentos := [] |}.

Definition carrito_de (usuario minutos_antes : Z) : Carrito :=
  {| car_usuario_id := usuario; car_producto_id := 1; car_cantidad := 2;
     car_fecha_actualizacion := T1 - minutos minutos_antes |}.

Definition tres_carritos : list Carrito :=
  [carrito_de 3 60; carrito_de 4 40; carrito_de 5 20].

Definition promocion : Descuento :=
  {| desc_id := 1; desc_porcentaje := 10;
     desc_fecha_inicio := mk_datetime 2024 1 1 0 0 0;
     desc_fecha_fin := mk_datetime 2024 12 31 23 59 59 |}.

Definition azar_pedido : Pedidos.AzarPedido :=
  {| Pedidos.localizacion :=
       {| Pedidos.al_random_seconds := 0; Pedidos.al_respaldo := 0;
          Pedidos.al_error := false |};
     Pedidos.ap_random_seconds := 0; Pedidos.ap_respaldo := 0;
     Pedidos.u_descuento := 0; Pedidos.umbral_descuento := 8 # 10;
     Pedidos.eleccion_descuento := 0; Pedidos.id_pedido := 7;
     Pedidos.costo_envio := 5000; Pedidos.error_envio := false;
     Pedidos.ciclo := azar_ciclo (1 # 2);
     Pedidos.segundos_actualizacion := 10; Pedidos.error_commit := false |}.

(** The first session draws 0.9 and is abandoned; the others draw 0. *)
Definition azar_sesiones (n : nat) : Q * Pedidos.AzarPedido :=
  (match n with O => 9 # 10 | S _ => 0%Q end, azar_pedido).

Definition corrida :=
  Pedidos.create_pedidos tienda_con_clientes [promocion] tres_carritos (4 # 10)
    azar_sesiones.



Definition pedido_con_descuento : Pedidos.PedidoCreado :=
  hd {| Pedidos.pedido := pedido_pendiente; Pedidos.descuento_aplicado := None;
        Pedidos.bruto := 0 |}
     (fst (fst corrida)).

(** The restock of the nearly sold-out candle on [T1]. *)
Definition reposicion_hecha : bool * Estado * Inventario :=
  verificar_reposicion_inventario tienda_baja inventario_bajo T1 (reposicion_en 1).

(** Attempts on the pending order: a shipment (refused, the order is not
    being processed), processing after 30 minutes, processing again
    (refused), shipment the next day. *)
Definition intentos_de_ejemplo : list (CicloDeVida.Intento * datetime) :=
  [(CicloDeVida.AEnviado, T1 + minutos 10);
   (CicloDeVida.AProcesando, T1 + minutos 30);
   (CicloDeVida.AProcesando, T1 + minutos 40);
   (CicloDeVida.AEnviado, T1 + dias 1)].

(** One supplier whose first product fails to be created. *)
Definition falla_el_primero (j i : nat) : Productos.AzarProducto :=
  azar_producto (Nat.eqb i 0).

End Ejemplo.

(** ** [inventario.py]: the stock queries, and what the draws of the
    initial inventory may be *)

Module Existencias.

(** The [except SQLAlchemyError] branches answer [False] and [0]; the
    queries are taken not to fail. *)
Definition validar_disponibilidad_producto (st : Estado) (producto_id : Z)
    (cantidad_requerida : Z) : bool :=
  match db_productos st !! producto_id with
  | None => false
  | Some producto =>
      if negb (estado_producto_eqb (prod_estado producto) Activo) then false
      else
        match db_inventarios st !! producto_id with
        | None => false
        | Some inventario =>
            if cantidad_disponible inventario <? cantidad_requerida then false
            else true
        end
  end.

Definition obtener_cantidad_disponible (st : Estado) (producto_id : Z) : Z :=
  match db_inventarios st !! producto_id with
  | Some inventario => cantidad_disponible inventario
  | None => 0
  end.

(** Every product row is stored under its primary key. *)
Definition claves_de_productos (st : Estado) : Prop :=
  forall k p, db_productos st !! k = Some p -> prod_id p = k.

(** [random.randint(10, 300)] and the seconds drawn inside
    [get_random_datetime_in_range], which the window keeps at or below
    [segundos_cota]. *)
Definition azar_inventario_en_rango (a : AzarInventario) : Prop :=
  10 <= segundos_cota a <= 300 /\ 0 <= ai_random_seconds a <= 300.

(** What [create_inventario_inicial] promises of the row made for a
    product. *)
Definition inventario_inicial_de (pa : Producto * AzarInventario) (i : Inventario)
    : Prop :=
  inv_producto_id i = prod_id (fst pa)
  /\ cantidad_mano i = 24 /\ cantidad_disponible i = 24
  /\ prod_fecha_registro (fst pa) <= inv_fecha_registro i
     <= prod_fecha_registro (fst pa) + segundos 300
  /\ inv_fecha_actualizacion i = inv_fecha_registro i.

End Existencias.

(** ** [utils_datetime.py]: [get_random_datetime] in full

    [draw] is the value of the one [random.randint] call of the branch
    taken.  Without a base date the function goes through POSIX
    timestamps of the local time zone: [timestamp d] is
    [int(d.timestamp())] and [fromtimestamp n] is
    [datetime.fromtimestamp(n)]. *)

Module UtilsDatetime.

Section ZonaHoraria.

Variable timestamp : datetime -> Z.
Variable fromtimestamp : Z -> datetime.

Definition get_random_datetime (min_date : datetime) (max_date : option datetime)
    (base_date_for_delta : option datetime)
    (min_delta_seconds max_delta_seconds : Z) (draw : Z) : excepcion + datetime :=
  let max_date := default SIMULATION_END_DATE max_date in
  if (max_date <? min_date) && bool_decide (base_date_for_delta = None) then
    match randint 1 (if 0 <? max_delta_seconds then max_delta_seconds else 300) draw with
    | inl e => inl e
    | inr random_seconds_increment =>
        let candidate := min_date + segundos random_seconds_increment in
        inr (Z.min candidate SIMULATION_END_DATE)
    end
  else
    match base_date_for_delta with
    | Some base_date_for_delta =>
        let effective_base_date := Z.max base_date_for_delta min_date in
        match randint min_delta_seconds max_delta_seconds draw with
        | inl e => inl e
        | inr delta =>
            let candidate_date := effective_base_date + segundos delta in
            inr (Z.min (Z.max candidate_date min_date) max_date)
        end
    | None =>
        let min_ts := timestamp min_date in
        let max_ts := timestamp max_date in
        if max_ts <? min_ts then inr min_date
        else
          match randint min_ts max_ts draw with
          | inr random_timestamp => inr (fromtimestamp random_timestamp)
          | inl _ => inr (Z.min min_date max_date)
          end
    end.

Definition generate_subsequent_update_datetime (previous_update_datetime : datetime)
    (min_delta_seconds max_delta_seconds : Z) (max_date_override : option datetime)
    (draw : Z) : excepcion + datetime :=
  let effective_max_date := default SIMULATION_END_DATE max_date_override in
  let strict_min_date := previous_update_datetime + segundos 1 in
  get_random_datetime strict_min_date (Some effective_max_date)
    (Some previous_update_datetime)
    (if 0 <? min_delta_seconds then min_delta_seconds else 1)
    max_delta_seconds draw.

End ZonaHoraria.

End UtilsDatetime.

(** ** [detalle_pedido.py]: the ranges of the draws of the life cycle *)

Module Sorteos.


End Sorteos.

(** ** [pedidos.py]: what a purchase session is *)

Module Sesiones.

(** Two rows in date order and at most 15 minutes apart. *)
Definition seguidos (c1 c2 : Carrito) : Prop :=
  0 <= car_fecha_actualizacion c2 - car_fecha_actualizacion c1 <= minutos 15.

(** A session has at least one row, all its rows belong to one user and
    each row follows the one before within 15 minutes. *)
Definition sesion_bien_formada (s : list Carrito) : Prop :=
  s <> []
  /\ (exists u, Forall (fun c => car_usuario_id c = u) s)
  /\ Sorted seguidos s.

(** The unique keys [uq_usuario_producto] of the cart table and
    [uq_pedido_producto] of the order lines. *)
Definition uq_usuario_producto (carritos : list Carrito) : Prop :=
  NoDup (map (fun c => (car_usuario_id c, car_producto_id c)) carritos).

Definition uq_pedido_producto (detalles : list DetallePedido) : Prop :=
  NoDup (map (fun d => (det_pedido_id d, det_producto_id d)) detalles).

(** The pairs (user, discount) recorded as used. *)
Definition usos (h : list HistorialDescuento) : list (Z * Z) :=
  map (fun x => (hist_usuario_id x, hist_descuento_id x)) h.



End Sesiones.

(** ** [pedidos.py]: what a created order owes to its session *)

Module PedidosDeSesion.

Import Pedidos.

(** The order [r] was made for the session [grupo] with the draws [a]: it
    belongs to the user of the session's first row, who is registered; it
    was registered at least two minutes after the session's last row; its
    update date is its registration date plus the seconds drawn at the end
    of the [try] block; its lines are worth something and its total is the
    gross total less the discount plus the shipping cost. *)
Definition pedido_de_sesion (usuarios_registrados : gmap Z datetime)
    (grupo : list Carrito) (a : AzarPedido) (r : PedidoCreado) : Prop :=
  exists primer_carrito ultimo_carrito,
    head grupo = Some primer_carrito /\ last grupo = Some ultimo_carrito
    /\ ped_usuario_id (pedido r) = car_usuario_id primer_carrito
    /\ is_Some (usuarios_registrados !! car_usuario_id primer_carrito)
    /\ car_fecha_actualizacion ultimo_carrito + minutos 2
       <= ped_fecha_registro (pedido r)
    /\ ped_fecha_actualizacion (pedido r)
       = ped_fecha_registro (pedido r) + segundos (segundos_actualizacion a)
    /\ ~ (bruto r == 0)%Q
    /\ ped_costo_total (pedido r)
       = match descuento_aplicado r with
         | Some d =>
             (bruto r - bruto r * (desc_porcentaje d / 100)
              + inject_Z (costo_envio a))%Q
         | None => (bruto r + inject_Z (costo_envio a))%Q
         end.

(** The seconds drawn for the dates of the location and of the order are
    not negative. *)
Definition segundos_no_negativos (a : AzarPedido) : Prop :=
  0 <= al_random_seconds (localizacion a) /\ 0 <= ap_random_seconds a.

End PedidosDeSesion.

(** ** [envios.py] and [update_envio] of [detalle_pedido.py] *)

Module Envios.

Inductive EstadoEnvioEnum := Pendiente | En_transito | Entregado | Devuelto | Incidencia.

Definition estado_envio_eqb (a b : EstadoEnvioEnum) : bool :=
  match a, b with
  | Pendiente, Pendiente | En_transito, En_transito | Entregado, Entregado
  | Devuelto, Devuelto | Incidencia, Incidencia => true
  | _, _ => false
  end.

(** [numero_guia] is the number after ["GUIA-"]. *)
Record Envio := {
  env_pedido_id : Z;
  numero_guia : Z;
  env_costo_envio : Z;
  fecha_envio : option datetime;
  fecha_entrega_estimada : option datetime;
  fecha_entrega_real : option datetime;
  estado_envio : EstadoEnvioEnum;
  env_fecha_registro : datetime;
  env_fecha_actualizacion : datetime }.

Record HistorialMetodosEnvio := {
  hme_usuario_id : Z;
  hme_costo_envio : Z;
  hme_fecha_registro : datetime;
  hme_fecha_actualizacion : datetime }.

Record AzarEnvio := {
  segundos_despacho : Z;   (* random.randint(30, 120) *)
  dias_estimados : Z;      (* random.randint(2, 14) *)
  costo : Z;               (* random.randint(5000, 20000) *)
  guia : Z;                (* random.randint(1000000, 9999999) *)
  error_flush : bool       (* a db.flush() raises for another reason *) }.

Definition azar_envio_en_rango (a : AzarEnvio) : Prop :=
  30 <= segundos_despacho a <= 120 /\ 2 <= dias_estimados a <= 14
  /\ 5000 <= costo a <= 20000 /\ 1000000 <= guia a <= 9999999.

(** [pedido_id] and [numero_guia] are unique in the table: the first
    [db.flush()] raises when either is taken.  Whatever a flush raises, the
    function logs it and raises it again ([None]). *)
Definition create_envio_for_pedido (envios : list Envio) (pedido_id : Z)
    (fecha_pedido : datetime) (usuario_id : Z) (a : AzarEnvio)
    : option (Envio * HistorialMetodosEnvio * list Envio) :=
  let fecha_envio := fecha_pedido + segundos (segundos_despacho a) in
  let fecha_entrega_estimada := fecha_envio + dias (dias_estimados a) in
  let costo_envio := costo a in
  let nuevo_envio :=
    {| env_pedido_id := pedido_id; numero_guia := guia a;
       env_costo_envio := costo_envio; fecha_envio := Some fecha_envio;
       fecha_entrega_estimada := Some fecha_entrega_estimada;
       fecha_entrega_real := None; estado_envio := Pendiente;
       env_fecha_registro := fecha_envio; env_fecha_actualizacion := fecha_envio |} in
  if existsb (fun e => (env_pedido_id e =? pedido_id) || (numero_guia e =? guia a)) envios
     || error_flush a
  then None
  else
    let nuevo_historial_envio :=
      {| hme_usuario_id := usuario_id; hme_costo_envio := costo_envio;
         hme_fecha_registro := fecha_envio; hme_fecha_actualizacion := fecha_envio |} in
    Some (nuevo_envio, nuevo_historial_envio, envios ++ [nuevo_envio]).

Definition update_envio_estado_y_fecha (envio : option Envio)
    (nuevo_estado : EstadoEnvioEnum) (fecha_actualizacion_envio : datetime)
    : bool * option Envio :=
  match envio with
  | None => (false, None)
  | Some envio =>
      let real :=
        if estado_envio_eqb nuevo_estado Entregado then
          match fecha_envio envio with
          | Some fecha_envio =>
              if fecha_actualizacion_envio <? fecha_envio then Some fecha_envio
              else Some fecha_actualizacion_envio
          | None => Some fecha_actualizacion_envio
          end
        else fecha_entrega_real envio in
      (true,
       Some {| env_pedido_id := env_pedido_id envio; numero_guia := numero_guia envio;
               env_costo_envio := env_costo_envio envio;
               fecha_envio := fecha_envio envio;
               fecha_entrega_estimada := fecha_entrega_estimada envio;
               fecha_entrega_real := real; estado_envio := nuevo_estado;
               env_fecha_registro := env_fecha_registro envio;
               env_fecha_actualizacion := fecha_actualizacion_envio |})
  end.

(** [update_envio]: the shipment is the [.first()] row of the order; the
    row is mutated in place. *)
Fixpoint update_envio (envios : list Envio) (pedido_id : Z)
    (estado_envio : EstadoEnvioEnum) (fecha_actual_del_pedido : datetime)
    : list Envio :=
  match envios with
  | [] => []
  | envio :: resto =>
      if env_pedido_id envio =? pedido_id then
        match update_envio_estado_y_fecha (Some envio) estado_envio
                fecha_actual_del_pedido with
        | (_, Some envio') => envio' :: resto
        | (_, None) => envio :: resto
        end
      else envio :: update_envio resto pedido_id estado_envio fecha_actual_del_pedido
  end.

(** What holds of a shipment at every moment: it is dated as it was when
    created, the estimate is 2 to 14 days later, and a delivery date, once
    set, is not before the dispatch. *)
Definition envio_coherente (e : Envio) : Prop :=
  fecha_envio e = Some (env_fecha_registro e)
  /\ (exists d, 2 <= d <= 14
                /\ fecha_entrega_estimada e = Some (env_fecha_registro e + dias d))
  /\ 5000 <= env_costo_envio e <= 20000
  /\ (forall r, fecha_entrega_real e = Some r -> env_fecha_registro e <= r)
  /\ (estado_envio e = Entregado -> is_Some (fecha_entrega_real e)).

(** One shipment per order and per guide number. *)
Definition envios_unicos (envios : list Envio) : Prop :=
  NoDup (map env_pedido_id envios) /\ NoDup (map numero_guia envios).

End Envios.

(** ** [comentarios.py] *)

Module Comentarios.

Import DetallesPedido Pedidos.

Record Comentario := {
  com_usuario_id : Z;
  com_producto_id : Z;
  com_calificacion : Z;
  com_fecha_registro : datetime;
  com_fecha_actualizacion : datetime }.

(** What one turn of the loop draws, and whether the text generator
    raises. *)
Record AzarComentario := {
  u_comentario : Q;           (* random.random() *)
  dias_post_entrega : Z;      (* random.randint(min_days, max_days) *)
  segundos_del_dia : Z;       (* random.randint(0, 24 * 60 * 60 - 1) *)
  segundos_edicion : Z;       (* random.randint(0, 3600) *)
  calificacion : Z;           (* random.randint(1, 5) *)
  error_generador : bool      (* generate_comentario_ia raises *) }.

Inductive error := DeRandint (e : excepcion) | DelGenerador | DelFlush.

Definition azar_comentario_en_rango (min_days_post_entrega max_days_post_entrega : Z)
    (a : AzarComentario) : Prop :=
  min_days_post_entrega <= dias_post_entrega a <= max_days_post_entrega
  /\ 0 <= segundos_del_dia a <= 24 * 60 * 60 - 1
  /\ 0 <= segundos_edicion a <= 3600
  /\ 1 <= calificacion a <= 5.

(** One turn of the loop over [pedido.detalles]: [inr None] is
    [continue]. *)
Definition comentario_de_detalle (t : Tienda) (usuario_id : Z)
    (fecha_registro_usuario : datetime) (fecha_entrega : datetime)
    (porcentaje_comentario : Q) (min_days_post_entrega max_days_post_entrega : Z)
    (detalle : DetallePedido) (a : AzarComentario) : error + option Comentario :=
  match db_productos (estado t) !! det_producto_id detalle with
  | None => inr None
  | Some producto_obj =>
      if Qlt_bool porcentaje_comentario (u_comentario a) then inr None
      else
        let min_fecha :=
          Z.max (Z.max fecha_entrega fecha_registro_usuario)
            (prod_fecha_registro producto_obj) in
        let fecha_registro_comentario : error + datetime :=
          if SIMULATION_END_DATE <=? min_fecha then inr SIMULATION_END_DATE
          else
            match randint min_days_post_entrega max_days_post_entrega
                    (dias_post_entrega a) with
            | inl e => inl (DeRandint e)
            | inr d =>
                let offset_dias := dias d in
                let offset_segundos := segundos (segundos_del_dia a) in
                let f := Z.min (min_fecha + offset_dias + offset_segundos)
                           SIMULATION_END_DATE in
                inr (if f <? min_fecha then min_fecha else f)
            end in
        match fecha_registro_comentario with
        | inl e => inl e
        | inr fecha_registro_comentario =>
            if SIMULATION_END_DATE <? fecha_registro_comentario then inr None
            else
              let fecha_actualizacion_comentario :=
                fecha_registro_comentario + segundos (segundos_edicion a) in
              let fecha_actualizacion_comentario :=
                if fecha_actualizacion_comentario <? fecha_registro_comentario
                then fecha_registro_comentario else fecha_actualizacion_comentario in
              let fecha_actualizacion_comentario :=
                if SIMULATION_END_DATE <? fecha_actualizacion_comentario
                then SIMULATION_END_DATE else fecha_actualizacion_comentario in
              if error_generador a then inl DelGenerador
              else
                inr (Some {| com_usuario_id := usuario_id;
                             com_producto_id := prod_id producto_obj;
                             com_calificacion := calificacion a;
                             com_fecha_registro := fecha_registro_comentario;
                             com_fecha_actualizacion := fecha_actualizacion_comentario |})
        end
  end.

(** The loop; the [n]-th line of the order draws [azar n].  An exception
    leaves the loop and the function. *)
Fixpoint comentarios_de_detalles (t : Tienda) (usuario_id : Z)
    (fecha_registro_usuario fecha_entrega : datetime) (porcentaje_comentario : Q)
    (min_days_post_entrega max_days_post_entrega : Z)
    (detalles : list DetallePedido) (n : nat) (azar : nat -> AzarComentario)
    : error + list Comentario :=
  match detalles with
  | [] => inr []
  | detalle :: resto =>
      match comentario_de_detalle t usuario_id fecha_registro_usuario fecha_entrega
              porcentaje_comentario min_days_post_entrega max_days_post_entrega
              detalle (azar n) with
      | inl e => inl e
      | inr nuevo =>
          match comentarios_de_detalles t usuario_id fecha_registro_usuario
                  fecha_entrega porcentaje_comentario min_days_post_entrega
                  max_days_post_entrega resto (S n) azar with
          | inl e => inl e
          | inr siguientes =>
              inr (match nuevo with
                   | Some c => c :: siguientes
                   | None => siguientes
                   end)
          end
      end
  end.

(** [create_comentario]: the comments written by the [db.flush()] that
    ends it; [error_flush] says that this flush raises. *)
Definition create_comentario (t : Tienda) (pedido : Pedido) (fecha_entrega : datetime)
    (porcentaje_comentario : Q) (min_days_post_entrega max_days_post_entrega : Z)
    (azar : nat -> AzarComentario) (error_flush : bool) : error + list Comentario :=
  match detalles_de pedido (estado t) with
  | [] => inr []
  | detalles =>
      match usuarios t !! ped_usuario_id pedido with
      | None => inr []
      | Some fecha_registro_usuario =>
          match comentarios_de_detalles t (ped_usuario_id pedido)
                  fecha_registro_usuario fecha_entrega porcentaje_comentario
                  min_days_post_entrega max_days_post_entrega detalles 0 azar with
          | inl e => inl e
          | inr comentarios => if error_flush then inl DelFlush else inr comentarios
          end
      end
  end.

(** The earliest coherent date of a comment on a line of an order. *)
Definition min_fecha (t : Tienda) (pedido : Pedido) (fecha_entrega : datetime)
    (c : Comentario) : option datetime :=
  match usuarios t !! ped_usuario_id pedido,
        db_productos (estado t) !! com_producto_id c with
  | Some fecha_usuario, Some producto =>
      Some (Z.max (Z.max fecha_entrega fecha_usuario) (prod_fecha_registro producto))
  | _, _ => None
  end.

(** What a comment of an order delivered on [fecha_entrega] should be. *)
Definition comentario_bien_fechado (t : Tienda) (pedido : Pedido)
    (fecha_entrega : datetime) (c : Comentario) : Prop :=
  com_usuario_id c = ped_usuario_id pedido
  /\ In (com_producto_id c) (map det_producto_id (detalles_de pedido (estado t)))
  /\ 1 <= com_calificacion c <= 5
  /\ com_fecha_registro c <= com_fecha_actualizacion c <= SIMULATION_END_DATE
  /\ com_fecha_actualizacion c <= com_fecha_registro c + segundos 3600
  /\ exists m, min_fecha t pedido fecha_entrega c = Some m
               /\ (m < SIMULATION_END_DATE -> m <= com_fecha_registro c)
               /\ (SIMULATION_END_DATE <= m -> com_fecha_registro c = SIMULATION_END_DATE).

End Comentarios.

(** ** [descuentos.py] *)

Module Descuentos.

(** The module has its own simulation window. *)
Definition SIMULATION_START_DATE : datetime := mk_datetime 2022 2 1 0 0 0.
Definition SIMULATION_END_DATE : datetime := mk_datetime 2025 5 1 0 0 0.

Definition MIN_DISCOUNT_PERCENTAGE : Z := 10.
Definition MAX_DISCOUNT_PERCENTAGE : Z := 50.
Definition MAX_DISCOUNT_DURATION_DAYS : Z := 7.
Definition MAX_DAYS_BEFORE_START_FOR_REGISTRATION : Z := 30.

(** The dates of [FECHAS_DESCUENTOS], in the order of the dictionary.  The
    keys only give the prefix of [codigo_descuento], a random string that
    is not modelled. *)
Definition FECHAS_DESCUENTOS : list datetime :=
  [
   mk_datetime 2022 2 14 0 0 0;   (* san_valentin_2022 *)
   mk_datetime 2022 3 21 0 0 0;   (* san_jose_2022 *)
   mk_datetime 2022 4 14 0 0 0;   (* semana_santa_2022 *)
   mk_datetime 2022 5 1 0 0 0;   (* dia_trabajo_2022 *)
   mk_datetime 2022 5 8 0 0 0;   (* dia_madre_2022 *)
   mk_datetime 2022 6 13 0 0 0;   (* ascension_2022 *)
   mk_datetime 2022 6 19 0 0 0;   (* dia_padre_2022 *)
   mk_datetime 2022 7 20 0 0 0;   (* independencia_2022 *)
   mk_datetime 2022 9 19 0 0 0;   (* dia_amor_y_amistad_2022 *)
   mk_datetime 2022 10 31 0 0 0;   (* halloween_2022 *)
   mk_datetime 2022 11 25 0 0 0;   (* black_friday_2022 *)
   mk_datetime 2022 11 28 0 0 0;   (* cyber_monday_2022 *)
   mk_datetime 2022 12 7 0 0 0;   (* dia_velitas_2022 *)
   mk_datetime 2022 12 24 0 0 0;   (* navidad_2022 *)
   mk_datetime 2022 12 31 0 0 0;   (* fin_ano_2022 *)
   mk_datetime 2023 1 1 0 0 0;   (* ano_nuevo_2023 *)
   mk_datetime 2023 1 9 0 0 0;   (* reyes_magos_2023 *)
   mk_datetime 2023 2 14 0 0 0;   (* san_valentin_2023 *)
   mk_datetime 2023 3 8 0 0 0;   (* dia_de_la_mujer_2023 *)
   mk_datetime 2023 3 20 0 0 0;   (* san_jose_2023 *)
   mk_datetime 2023 4 6 0 0 0;   (* semana_santa_2023 *)
   mk_datetime 2023 5 1 0 0 0;   (* dia_trabajo_2023 *)
   mk_datetime 2023 5 14 0 0 0;   (* dia_madre_2023 *)
   mk_datetime 2023 5 29 0 0 0;   (* ascension_2023 *)
   mk_datetime 2023 6 18 0 0 0;   (* dia_del_padre_2023 *)
   mk_datetime 2023 7 20 0 0 0;   (* independencia_2023 *)
   mk_datetime 2023 9 18 0 0 0;   (* dia_amor_y_amistad_2023 *)
   mk_datetime 2023 10 31 0 0 0;   (* halloween_2023 *)
   mk_datetime 2023 11 24 0 0 0;   (* black_friday_2023 *)
   mk_datetime 2023 11 27 0 0 0;   (* cyber_monday_2023 *)
   mk_datetime 2023 12 7 0 0 0;   (* dia_velitas_2023 *)
   mk_datetime 2023 12 24 0 0 0;   (* navidad_2023 *)
   mk_datetime 2023 12 31 0 0 0;   (* fin_ano_2023 *)
   mk_datetime 2024 1 1 0 0 0;   (* ano_nuevo_2024 *)
   mk_datetime 2024 1 8 0 0 0;   (* reyes_magos_2024 *)
   mk_datetime 2024 2 14 0 0 0;   (* san_valentin_2024 *)
   mk_datetime 2024 3 8 0 0 0;   (* dia_de_la_mujer_2024 *)
   mk_datetime 2024 3 18 0 0 0;   (* san_jose_2024 *)
   mk_datetime 2024 3 28 0 0 0;   (* semana_santa_2024 *)
   mk_datetime 2024 5 1 0 0 0;   (* dia_trabajo_2024 *)
   mk_datetime 2024 5 12 0 0 0;   (* dia_madre_2024 *)
   mk_datetime 2024 6 17 0 0 0;   (* ascension_2024 *)
   mk_datetime 2024 6 16 0 0 0;   (* dia_del_padre_2024 *)
   mk_datetime 2024 7 20 0 0 0;   (* independencia_2024 *)
   mk_datetime 2024 9 16 0 0 0;   (* dia_amor_y_amistad_2024 *)
   mk_datetime 2024 10 31 0 0 0;   (* halloween_2024 *)
   mk_datetime 2024 11 29 0 0 0;   (* black_friday_2024 *)
   mk_datetime 2024 12 2 0 0 0;   (* cyber_monday_2024 *)
   mk_datetime 2024 12 7 0 0 0;   (* dia_velitas_2024 *)
   mk_datetime 2024 12 24 0 0 0;   (* navidad_2024 *)
   mk_datetime 2024 12 31 0 0 0;   (* fin_ano_2024 *)
   mk_datetime 2025 1 1 0 0 0;   (* ano_nuevo_2025 *)
   mk_datetime 2025 1 6 0 0 0;   (* reyes_magos_2025 *)
   mk_datetime 2025 2 14 0 0 0;   (* san_valentin_2025 *)
   mk_datetime 2025 3 8 0 0 0;   (* dia_de_la_mujer_2025 *)
   mk_datetime 2025 3 17 0 0 0;   (* san_jose_2025 *)
   mk_datetime 2025 4 17 0 0 0;   (* semana_santa_2025 *)
   mk_datetime 2025 5 1 0 0 0   (* dia_trabajo_2025 *)
  ].

Inductive EstadoDescuentoEnum := Activo | Inactivo.

Record DescuentoNuevo := {
  dn_id : Z;
  dn_porcentaje : Z;
  dn_fecha_inicio : datetime;
  dn_fecha_fin : datetime;
  dn_estado : EstadoDescuentoEnum;
  dn_fecha_registro : datetime;
  dn_fecha_actualizacion : datetime }.

(** The draws of one call of [generate_discount_dates]. *)
Record AzarFechas := {
  dias_antes : Z;            (* random.randint(7, 14) *)
  dias_despues : Z;          (* random.randint(1, 3) *)
  segundos_inicio : Z;       (* the randint of get_random_datetime_in_range *)
  respaldo_inicio : timedelta; (* its fallback *)
  duracion_dias : Z;         (* random.randint(1, MAX_DISCOUNT_DURATION_DAYS) *)
  dias_antes_registro : Z    (* random.randint(0, 30) *) }.

Definition azar_fechas_en_rango (a : AzarFechas) : Prop :=
  7 <= dias_antes a <= 14 /\ 1 <= dias_despues a <= 3
  /\ 0 <= segundos_inicio a /\ 0 <= respaldo_inicio a
  /\ 1 <= duracion_dias a <= MAX_DISCOUNT_DURATION_DAYS
  /\ 0 <= dias_antes_registro a <= MAX_DAYS_BEFORE_START_FOR_REGISTRATION.

Definition generate_discount_dates (reference_date min_start_date max_end_date : option datetime)
    (a : AzarFechas) : excepcion + (datetime * datetime * datetime) :=
  let min_start_date := default SIMULATION_START_DATE min_start_date in
  let max_end_date := default SIMULATION_END_DATE max_end_date in
  let inicio_y_fin : excepcion + (datetime * datetime) :=
    match reference_date with
    | Some reference_date =>
        let fecha_inicio := Z.max min_start_date (reference_date - dias (dias_antes a)) in
        let fecha_fin := Z.min max_end_date (reference_date + dias (dias_despues a)) in
        inr (fecha_inicio, fecha_fin)
    | None =>
        let max_possible_start := max_end_date - dias 1 in
        if max_possible_start <? min_start_date then inr (min_start_date, max_end_date)
        else
          match get_random_datetime_in_range min_start_date max_possible_start
                  (segundos_inicio a) (respaldo_inicio a) with
          | inl e => inl e
          | inr fecha_inicio =>
              inr (fecha_inicio,
                   Z.min (fecha_inicio + dias (duracion_dias a)) max_end_date)
          end
    end in
  match inicio_y_fin with
  | inl e => inl e
  | inr (fecha_inicio, fecha_fin) =>
      let fecha_registro_tentativa := fecha_inicio - dias (dias_antes_registro a) in
      let fecha_registro := Z.max SIMULATION_START_DATE fecha_registro_tentativa in
      let fecha_registro :=
        if fecha_inicio <? fecha_registro then fecha_inicio else fecha_registro in
      let fecha_fin :=
        if fecha_fin <=? fecha_inicio then fecha_inicio + dias 1 else fecha_fin in
      inr (fecha_registro, fecha_inicio, fecha_fin)
  end.

(** What one turn of the loop of [create_descuentos] draws; [id_asignado]
    is the key the database gives the row and [error_flush] says that its
    [db.flush()] raises (the code is taken, the connection is lost). *)
Record AzarDescuento := {
  fechas : AzarFechas;
  porcentaje : Z;            (* random.randint(10, 50) *)
  id_asignado : Z;
  error_flush : bool }.

Definition azar_descuento_en_rango (a : AzarDescuento) : Prop :=
  azar_fechas_en_rango (fechas a)
  /\ MIN_DISCOUNT_PERCENTAGE <= porcentaje a <= MAX_DISCOUNT_PERCENTAGE.

(** The loop over the holidays in date order; the [n]-th holiday draws
    [azar n].  [ultima_fecha_registro] is
    assigned before the flush.  An exception inside the loop is caught and
    the loop goes on, but a flush that failed leaves the session's
    transaction rolled back ([rota]): every later [db.flush()] raises and
    appends nothing. *)
Fixpoint descuentos_de_festivos (fecha_actual : datetime) (azar : nat -> AzarDescuento)
    (festivos : list datetime) (n : nat) (ultima_fecha_registro : datetime)
    (rota : bool) : list DescuentoNuevo * bool :=
  match festivos with
  | [] => ([], rota)
  | festivo_fecha :: resto =>
      if (SIMULATION_START_DATE <=? festivo_fecha)
         && (festivo_fecha <=? SIMULATION_END_DATE)
      then
        match generate_discount_dates (Some festivo_fecha) None None
                (fechas (azar n)) with
        | inl _ =>
            descuentos_de_festivos fecha_actual azar resto (S n)
              ultima_fecha_registro rota
        | inr (fecha_registro, fecha_inicio, fecha_fin) =>
            let fecha_registro :=
              Z.max fecha_registro (ultima_fecha_registro + minutos 1) in
            let ultima_fecha_registro := fecha_registro in
            let estado := if fecha_fin <? fecha_actual then Inactivo else Activo in
            let descuento :=
              {| dn_id := id_asignado (azar n); dn_porcentaje := porcentaje (azar n);
                 dn_fecha_inicio := fecha_inicio; dn_fecha_fin := fecha_fin;
                 dn_estado := estado; dn_fecha_registro := fecha_registro;
                 dn_fecha_actualizacion := fecha_registro |} in
            if rota || error_flush (azar n) then
              descuentos_de_festivos fecha_actual azar resto (S n)
                ultima_fecha_registro true
            else
              let '(committed_descuentos, rota) :=
                descuentos_de_festivos fecha_actual azar resto (S n)
                  ultima_fecha_registro false in
              (descuento :: committed_descuentos, rota)
        end
      else
        descuentos_de_festivos fecha_actual azar resto (S n)
          ultima_fecha_registro rota
  end.

(** [create_descuentos]: [db.commit()] raises when the transaction was
    rolled back by a failed flush or when the commit itself fails
    ([error_commit]); both [except] branches return the empty list. *)
Definition create_descuentos (fecha_actual : datetime) (azar : nat -> AzarDescuento)
    (error_commit : bool) : list DescuentoNuevo :=
  let '(committed_descuentos, rota) :=
    descuentos_de_festivos fecha_actual azar (ordenar_por id FECHAS_DESCUENTOS)
      0 SIMULATION_START_DATE false in
  if rota || error_commit then [] else committed_descuentos.

Definition en_periodo (festivo_fecha : datetime) : bool :=
  (SIMULATION_START_DATE <=? festivo_fecha) && (festivo_fecha <=? SIMULATION_END_DATE).

(** The check constraints of the table and the dates a discount for one of
    the holidays [festivos] should have. *)
Definition descuento_valido_por (festivos : list datetime) (fecha_actual : datetime)
    (d : DescuentoNuevo) : Prop :=
  0 < dn_porcentaje d <= 100
  /\ MIN_DISCOUNT_PERCENTAGE <= dn_porcentaje d <= MAX_DISCOUNT_PERCENTAGE
  /\ SIMULATION_START_DATE <= dn_fecha_inicio d < dn_fecha_fin d
  /\ dn_fecha_fin d <= SIMULATION_END_DATE
  /\ SIMULATION_START_DATE < dn_fecha_registro d
  /\ dn_fecha_actualizacion d = dn_fecha_registro d
  /\ (dn_estado d = Inactivo <-> dn_fecha_fin d < fecha_actual)
  /\ exists festivo, In festivo festivos
                     /\ dn_fecha_inicio d <= festivo <= dn_fecha_fin d
                     /\ dn_fecha_fin d <= festivo + dias 3
                     /\ festivo - dias 14 <= dn_fecha_inicio d.

Definition descuento_valido : datetime -> DescuentoNuevo -> Prop :=
  descuento_valido_por FECHAS_DESCUENTOS.

(** Registered in order, at least a minute apart. *)
Definition registro_espaciado (d1 d2 : DescuentoNuevo) : Prop :=
  dn_fecha_registro d1 + minutos 1 <= dn_fecha_registro d2.

End Descuentos.

(** ** [usuarios.py]: [update_user_estado] *)

Module Usuarios.

Import DetallesPedido.

Inductive EstadoUsuarioEnum := Activo | Inactivo | Bloqueado | Eliminado | Sin_confirmar.

#[global] Instance EstadoUsuarioEnum_eq_dec : EqDecision EstadoUsuarioEnum.
Proof. solve_decision. Defined.









End Usuarios.

(** ** More of the small shop, used in the examples of the second part *)

Module Casos.

Import Ejemplo.

(** An order line for [cantidad] candles. *)
Definition linea_de_velas (cantidad : Z) : DetallePedido :=
  {| det_pedido_id := 7; det_producto_id := 1; det_cantidad := cantidad;
     det_precio_unitario := 100; det_subtotal := inject_Z cantidad * 100;
     det_fecha_registro := T1; det_fecha_actualizacion := T1 |}.

Definition azar_inventario : AzarInventario :=
  {| segundos_cota := 60; ai_random_seconds := 30; ai_respaldo := 0 |}.

(** A shop that has the candle but no inventory row for it yet. *)
Definition tienda_sin_inventario : Estado :=
  {| db_productos := {[ 1 := vela ]}; db_inventarios := ∅;
     db_detalles := []; ultimas_reposiciones := ∅ |}.

(** A shipment drawn for the pending order. *)
Definition azar_envio : Envios.AzarEnvio :=
  {| Envios.segundos_despacho := 60; Envios.dias_estimados := 3;
     Envios.costo := 8000; Envios.guia := 1234567;
     Envios.error_flush := false |}.

(** The shop once the pending order has its line of two candles. *)
Definition tienda_entregada : Pedidos.Tienda :=
  {| Pedidos.estado := con_detalles [linea_de_velas 2] tienda_inicial;
     Pedidos.usuarios := {[ 3 := T0 ]};
     Pedidos.localizaciones := [];
     Pedidos.historial_descuentos := [] |}.

Definition azar_comentario (n : nat) : Comentarios.AzarComentario :=
  {| Comentarios.u_comentario := 0; Comentarios.dias_post_entrega := 2;
     Comentarios.segundos_del_dia := 0; Comentarios.segundos_edicion := 60;
     Comentarios.calificacion := 5; Comentarios.error_generador := false |}.

(** Discounts that start 14 days before their holiday. *)
Definition azar_descuento (n : nat) : Descuentos.AzarDescuento :=
  {| Descuentos.fechas :=
       {| Descuentos.dias_antes := 14; Descuentos.dias_despues := 1;
          Descuentos.segundos_inicio := 0; Descuentos.respaldo_inicio := 0;
          Descuentos.duracion_dias := 3; Descuentos.dias_antes_registro := 0 |};
     Descuentos.porcentaje := 20; Descuentos.id_asignado := Z.of_nat n + 1;
     Descuentos.error_flush := false |}.




End Casos.

(** * Properties *)

(** ** Dates *)

Module FechasProps.

Lemma segundos_pos n : 0 < n -> 0 < segundos n.
Proof. unfold segundos, USEC_POR_SEGUNDO. lia. Qed.

Lemma segundos_mono a b : a <= b -> segundos a <= segundos b.
Proof. unfold segundos, USEC_POR_SEGUNDO. lia. Qed.

Lemma randint_ok a b r : a <= b -> randint a b r = inr r.
Proof. intros H. unfold randint. apply Z.leb_le in H. now rewrite H. Qed.

Section Secuencia.

Variable float : Type.
Variable total_seconds : timedelta -> float.
Variable float_div : float -> Z -> float.
Variable float_mul : Z -> float -> float.
Variable timedelta_de_float : float -> timedelta.

Local Abbreviation gfs :=
  (generar_fecha_secuencial float total_seconds float_div float_mul
     timedelta_de_float).

Lemma gfs_valido inicio fin N i :
  inicio <= fin -> 0 <= i < N ->
  gfs inicio fin N i =
  inr (Z.min (inicio
              + timedelta_seconds float timedelta_de_float
                  (por float float_mul i
                     (paso_segundos float total_seconds float_div inicio fin N)))
             fin).
Proof.
  intros Hr Hi. unfold generar_fecha_secuencial.
  destruct (Z.leb_spec N 0); [lia|].
  destruct (Z.leb_spec 0 i); [|lia].
  destruct (Z.ltb_spec i N); [|lia].
  destruct (Z.ltb_spec fin inicio); [lia|]. reflexivity.
Qed.


End Secuencia.

(** In exact arithmetic the clamp is idle and the offset is the exact
    quotient whenever that is a whole number of microseconds. *)
Lemma redondear_par_entero (x : Q) (k : Z) : (x == inject_Z k)%Q -> redondear_par x = k.
Proof.
  intros H. unfold redondear_par.
  assert (Hf : Qfloor x = k) by (rewrite H; apply Qfloor_Z).
  rewrite Hf.
  assert (Hc : ((x - inject_Z k) ?= 1 # 2)%Q = Lt).
  { apply -> Qlt_alt. rewrite H.
    unfold Qlt, Qminus, Qplus, Qopp, inject_Z. simpl. lia. }
  now rewrite Hc.
Qed.

Lemma generar_fecha_secuencial_exacta_divisible (inicio fin : datetime) (N i q : Z) :
  inicio <= fin -> 0 <= i < N -> N <> 1 ->
  i * (fin - inicio) = q * (N - 1) ->
  generar_fecha_secuencial_exacta inicio fin N i = inr (inicio + q).
Proof.
  intros Hr Hi HN Hq. unfold generar_fecha_secuencial_exacta.
  rewrite gfs_valido by assumption. unfold paso_segundos.
  pose proof (proj2 (Z.eqb_neq _ _) HN) as HN'. rewrite HN'. simpl.
  assert (Ht : timedelta_exacto
                 (mul_exacta i (div_exacta (total_seconds_exacto (fin - inicio)) (N - 1)))
               = q).
  { unfold timedelta_exacto. apply redondear_par_entero.
    unfold mul_exacta, div_exacta, total_seconds_exacto, USEC_POR_SEGUNDO.
    assert (Hq' : (inject_Z i * inject_Z (fin - inicio) == inject_Z q * inject_Z (N - 1))%Q)
      by (rewrite <- !inject_Z_mult, Hq; reflexivity).
    assert (Hn0 : ~ (inject_Z (N - 1) == 0)%Q).
    { intros E. unfold Qeq in E. simpl in E. lia. }
    rewrite (Qmake_Qdiv (fin - inicio) 1000000).
    change (inject_Z (Z.pos 1000000)) with (inject_Z 1000000).
    transitivity (inject_Z i * inject_Z (fin - inicio) / inject_Z (N - 1))%Q.
    - field. exact Hn0.
    - rewrite Hq'. field. exact Hn0. }
  rewrite Ht. f_equal. apply Z.min_l. nia.
Qed.

(** Off the whole microseconds the offset is the exact quotient rounded to
    the nearest microsecond, and the clamp is still idle. *)
Lemma redondear_par_casos (x : Q) :
  (redondear_par x = Qfloor x /\ (x - inject_Z (Qfloor x) <= 1 # 2)%Q)
  \/ (redondear_par x = Qfloor x + 1 /\ (1 # 2 <= x - inject_Z (Qfloor x))%Q).
Proof.
  unfold redondear_par.
  destruct ((x - inject_Z (Qfloor x) ?= 1 # 2)%Q) eqn:E.
  - apply Qeq_alt in E. destruct (Z.even (Qfloor x)); [left | right]; split; auto;
      rewrite E; apply Qle_refl.
  - apply Qlt_alt in E. left. split; [reflexivity | now apply Qlt_le_weak].
  - apply Qgt_alt in E. right. split; [reflexivity | now apply Qlt_le_weak].
Qed.

Lemma redondear_par_cerca (x : Q) :
  (Qabs (inject_Z (redondear_par x) - x) <= 1 # 2)%Q.
Proof.
  pose proof (Qfloor_le x) as Hl. pose proof (Qlt_floor x) as Hu.
  destruct (redondear_par_casos x) as [[-> H]|[-> H]]; apply Qabs_Qle_condition.
  - split.
    + apply Qle_minus_iff. apply Qle_minus_iff in H.
      setoid_replace (inject_Z (Qfloor x) - x + - - (1 # 2))%Q
        with ((1 # 2) + - (x - inject_Z (Qfloor x)))%Q using relation Qeq by ring. exact H.
    + apply Qle_trans with 0%Q; [|discriminate].
      apply Qle_minus_iff. apply Qle_minus_iff in Hl.
      setoid_replace (0 + - (inject_Z (Qfloor x) - x))%Q
        with (x + - inject_Z (Qfloor x))%Q using relation Qeq by ring. exact Hl.
  - rewrite inject_Z_plus. split.
    + apply Qle_trans with 0%Q; [discriminate|].
      apply Qlt_le_weak in Hu. rewrite inject_Z_plus in Hu.
      apply Qle_minus_iff. apply Qle_minus_iff in Hu.
      setoid_replace (inject_Z (Qfloor x) + inject_Z 1 - x + - 0)%Q
        with (inject_Z (Qfloor x) + inject_Z 1 + - x)%Q using relation Qeq by ring. exact Hu.
    + apply Qle_minus_iff. apply Qle_minus_iff in H.
      setoid_replace ((1 # 2) + - (inject_Z (Qfloor x) + inject_Z 1 - x))%Q
        with (x - inject_Z (Qfloor x) + - (1 # 2))%Q using relation Qeq by (unfold inject_Z; ring).
      exact H.
Qed.

Lemma redondear_par_cota (x : Q) (k : Z) : (x <= inject_Z k)%Q -> redondear_par x <= k.
Proof.
  intros H. pose proof (Qfloor_resp_le _ _ H) as Hf. rewrite Qfloor_Z in Hf.
  destruct (redondear_par_casos x) as [[-> _]|[-> H2]]; [assumption|].
  destruct (Z.eq_dec (Qfloor x) k) as [E|]; [|lia].
  exfalso. rewrite E in H2.
  assert (H3 : (1 # 2 <= 0)%Q).
  { eapply Qle_trans; [exact H2|]. apply Qle_minus_iff in H. apply Qle_minus_iff.
    setoid_replace (0 + - (x - inject_Z k))%Q with (inject_Z k + - x)%Q using relation Qeq by ring.
    exact H. }
  unfold Qle in H3; simpl in H3; lia.
Qed.

Lemma generar_fecha_secuencial_exacta_redondeo (inicio fin : datetime) (N i : Z) :
  inicio <= fin -> 0 <= i < N -> N <> 1 ->
  exists q,
    generar_fecha_secuencial_exacta inicio fin N i = inr (inicio + q)
    /\ inicio + q <= fin
    /\ (Qabs (inject_Z q - inject_Z (i * (fin - inicio)) / inject_Z (N - 1)) <= 1 # 2)%Q.
Proof.
  intros Hr Hi HN.
  set (x := (mul_exacta i (div_exacta (total_seconds_exacto (fin - inicio)) (N - 1))
             * inject_Z USEC_POR_SEGUNDO)%Q).
  assert (Hn0 : ~ (inject_Z (N - 1) == 0)%Q).
  { intros E. unfold Qeq in E. simpl in E. lia. }
  assert (Hx : (x == inject_Z (i * (fin - inicio)) / inject_Z (N - 1))%Q).
  { unfold x, mul_exacta, div_exacta, total_seconds_exacto, USEC_POR_SEGUNDO.
    rewrite (Qmake_Qdiv (fin - inicio) 1000000).
    change (inject_Z (Z.pos 1000000)) with (inject_Z 1000000).
    rewrite inject_Z_mult. field. exact Hn0. }
  assert (Hc : redondear_par x <= fin - inicio).
  { apply redondear_par_cota. rewrite Hx. apply Qle_shift_div_r.
    - change 0%Q with (inject_Z 0). rewrite <- Zlt_Qlt. lia.
    - rewrite <- inject_Z_mult, <- Zle_Qle. nia. }
  exists (redondear_par x). split; [|split].
  - unfold generar_fecha_secuencial_exacta.
    rewrite gfs_valido by assumption. unfold paso_segundos.
    rewrite (proj2 (Z.eqb_neq _ _) HN).
    cbn [por timedelta_seconds]. unfold timedelta_exacto. fold x.
    f_equal. apply Z.min_l. lia.
  - lia.
  - eapply Qle_trans; [|apply (redondear_par_cerca x)].
    apply Qle_lteq. right. apply Qabs_wd.
    apply Qplus_comp; [reflexivity|]. apply Qopp_comp. symmetry. exact Hx.
Qed.


Example generar_fecha_secuencial_ejemplo :
  generar_fecha_secuencial_exacta 0 (segundos 9) 4 2 = inr (segundos 6)
  /\ generar_fecha_secuencial_exacta 0 (segundos 9) 4 4 = inl ValueError
  /\ get_random_datetime_in_range (segundos 9) 0 7 0 = inr (segundos 16).
Proof. repeat split; reflexivity. Qed.

End FechasProps.

(** ** The order life cycle *)

Module CicloProps.

Import CicloDeVida.

Lemma estado_pedido_eqb_eq a b : estado_pedido_eqb a b = true <-> a = b.
Proof. destruct a, b; simpl; split; intros H; congruence. Qed.

Lemma puede_transicionar_spec origenes pedido fecha :
  puede_transicionar origenes pedido fecha = true
  <-> In (estado_pedido pedido) origenes
      /\ ped_fecha_actualizacion pedido < fecha <= SIMULATION_END_DATE.
Proof.
  unfold puede_transicionar.
  rewrite !andb_true_iff, existsb_exists, Z.ltb_lt, Z.leb_le. split.
  - intros [[[e [Hin He]] H1] H2]. apply estado_pedido_eqb_eq in He. subst. auto.
  - intros [Hin [H1 H2]]. repeat split; auto.
    exists (estado_pedido pedido). split; [assumption|]. now apply estado_pedido_eqb_eq.
Qed.

Lemma intentar_aplicada st pedido i fecha :
  puede_transicionar (origenes i) pedido fecha = true ->
  exists st', intentar st pedido i fecha
              = (true, pedido_con_estado (destino i) fecha pedido, st').
Proof.
  intros H. destruct i; simpl in *;
    unfold update_pedido_a_procesando, update_pedido_a_cancelado,
      update_pedido_a_enviado, update_pedido_a_entregado,
      update_pedido_a_reembolsado; rewrite H; eauto.
Qed.

Lemma intentar_omitida st pedido i fecha :
  puede_transicionar (origenes i) pedido fecha = false ->
  intentar st pedido i fecha = (false, pedido, st).
Proof.
  intros H. destruct i; simpl in *;
    unfold update_pedido_a_procesando, update_pedido_a_cancelado,
      update_pedido_a_enviado, update_pedido_a_entregado,
      update_pedido_a_reembolsado; now rewrite H.
Qed.

Lemma origen_destino_permitida i e : In e (origenes i) -> permitida e (destino i).
Proof.
  destruct i; simpl; intros H; repeat destruct H as [<-|H]; try constructor;
    contradiction.
Qed.

Lemma historial_valido st pedido intentos :
  traza_valida (estado_pedido pedido, ped_fecha_actualizacion pedido)
    (historial st pedido intentos).
Proof.
  revert st pedido. induction intentos as [|[i fecha] resto IH]; intros st pedido.
  - constructor.
  - simpl. destruct (puede_transicionar (origenes i) pedido fecha) eqn:Hp.
    + destruct (intentar_aplicada st pedido i fecha Hp) as [st' ->].
      apply puede_transicionar_spec in Hp as [Hin Hf]. simpl.
      constructor; [now apply origen_destino_permitida | assumption |].
      apply (IH st' (pedido_con_estado (destino i) fecha pedido)).
    + rewrite (intentar_omitida st pedido i fecha Hp). apply IH.
Qed.

(** C3. Each of the five update functions applies its transition exactly
    when the order is in a permitted source state and the proposed date is
    strictly after the order's [fecha_actualizacion] and not after
    [SIMULATION_END_DATE]; it then sets the target state and that date.
    Otherwise it returns [False] and leaves the order (and the database)
    as they were.  Hence, whatever sequence of transitions is attempted,
    the applied ones follow the state machine with strictly increasing
    dates. *)
Theorem transiciones_del_pedido :
  (forall st pedido i fecha,
      (In (estado_pedido pedido) (origenes i)
       /\ ped_fecha_actualizacion pedido < fecha <= SIMULATION_END_DATE ->
       exists st',
         intentar st pedido i fecha
         = (true, pedido_con_estado (destino i) fecha pedido, st'))
      /\ (~ (In (estado_pedido pedido) (origenes i)
             /\ ped_fecha_actualizacion pedido < fecha <= SIMULATION_END_DATE) ->
          intentar st pedido i fecha = (false, pedido, st)))
  /\ (forall st pedido intentos,
         traza_valida (estado_pedido pedido, ped_fecha_actualizacion pedido)
           (historial st pedido intentos)).
Proof.
  split.
  - intros st pedido i fecha. split.
    + intros H. apply intentar_aplicada. now apply puede_transicionar_spec.
    + intros H. apply intentar_omitida.
      destruct (puede_transicionar (origenes i) pedido fecha) eqn:Hp; [|reflexivity].
      apply puede_transicionar_spec in Hp. contradiction.
  - apply historial_valido.
Qed.

Import Ejemplo.

Example historial_de_ejemplo :
  historial tienda_inicial pedido_pendiente intentos_de_ejemplo
  = [(Procesando, T1 + minutos 30); (Enviado, T1 + dias 1)].
Proof. reflexivity. Qed.

End CicloProps.

(** ** Inventory *)

Module InventarioProps.

Lemma surjective_pairing_3 {A B C} (x : A * B * C) : x = (fst (fst x), snd (fst x), snd x).
Proof. now destruct x as [[a b] c]. Defined.

Lemma determinar_cantidad_reposicion_pos nivel ranking :
  0 < determinar_cantidad_reposicion nivel ranking.
Proof.
  unfold determinar_cantidad_reposicion.
  repeat match goal with |- context [if ?b then _ else _] => destruct b end; lia.
Qed.

Lemma calcular_cantidad_reposicion_pos st consultas producto_id :
  0 < calcular_cantidad_reposicion st consultas producto_id.
Proof.
  unfold calcular_cantidad_reposicion.
  repeat match goal with
         | |- context [match ?x with Some _ => _ | None => _ end] => destruct x
         | |- context [let '(_, _) := ?x in _] => destruct x
         end;
    first [apply determinar_cantidad_reposicion_pos | lia].
Qed.

Ltac por_casos :=
  repeat match goal with
         | |- context [match ?x with Some _ => _ | None => _ end] => destruct x
         | |- context [if ?b then _ else _] => destruct b
         end.

(** The three outcomes of [verificar_reposicion_inventario]. *)
Lemma verificar_reposicion_casos st inventario fecha env :
  (verificar_reposicion_inventario st inventario fecha env = (false, st, inventario)
   /\ (UMBRAL_REPOSICION <= cantidad_disponible inventario
       \/ exists ultima,
            ultimas_reposiciones st !! inv_producto_id inventario = Some ultima
            /\ fecha < ultima + dias PERIODO_MINIMO_REPOSICION))
  \/ (exists st' c f,
        verificar_reposicion_inventario st inventario fecha env
        = (true, st',
           inventario_con (cantidad_mano inventario + c)
             (cantidad_disponible inventario + c) f inventario)
        /\ 0 < c
        /\ cantidad_disponible inventario < UMBRAL_REPOSICION
        /\ ultimas_reposiciones st' !! inv_producto_id inventario = Some f
        /\ db_inventarios st'
           = <[inv_producto_id inventario :=
                 inventario_con (cantidad_mano inventario + c)
                   (cantidad_disponible inventario + c) f inventario]>
               (db_inventarios st)
        /\ db_detalles st' = db_detalles st).
Proof.
  unfold verificar_reposicion_inventario.
  destruct (Z.ltb_spec (cantidad_disponible inventario) UMBRAL_REPOSICION) as [Hu|Hu];
    [|left; split; [reflexivity | now left]].
  destruct (ultimas_reposiciones st !! inv_producto_id inventario) as [ultima|] eqn:Hult.
  - destruct (Z.ltb_spec fecha (ultima + dias PERIODO_MINIMO_REPOSICION)) as [Hf|Hf].
    + left. split; [reflexivity|]. right. eauto.
    + right. do 3 eexists. split; [reflexivity|].
      split; [apply calcular_cantidad_reposicion_pos|]. split; [assumption|].
      repeat split.
      * por_casos; simpl; apply lookup_insert_eq.
      * por_casos; reflexivity.
      * por_casos; reflexivity.
  - right. do 3 eexists. split; [reflexivity|].
    split; [apply calcular_cantidad_reposicion_pos|]. split; [assumption|].
    repeat split.
    * por_casos; simpl; apply lookup_insert_eq.
    * por_casos; reflexivity.
    * por_casos; reflexivity.
Qed.

(** C4. When [verificar_reposicion_inventario] restocks, the stock was
    below 12 and the date given to the inventory row is recorded for the
    product.  As long as that date stays recorded, in whatever state of
    the database, a call for the same product with an operation date
    less than 20 days after it returns [False] and changes neither the
    database nor the inventory row, whatever the stock of that row. *)
Theorem reposicion_respeta_periodo st inventario fecha env st' inventario' :
  verificar_reposicion_inventario st inventario fecha env = (true, st', inventario') ->
  cantidad_disponible inventario < UMBRAL_REPOSICION
  /\ ultimas_reposiciones st' !! inv_producto_id inventario
     = Some (inv_fecha_actualizacion inventario')
  /\ forall st2 inventario2 fecha2 env2,
       ultimas_reposiciones st2 !! inv_producto_id inventario
       = ultimas_reposiciones st' !! inv_producto_id inventario ->
       inv_producto_id inventario2 = inv_producto_id inventario ->
       fecha2 < inv_fecha_actualizacion inventario' + dias PERIODO_MINIMO_REPOSICION ->
       verificar_reposicion_inventario st2 inventario2 fecha2 env2
       = (false, st2, inventario2).
Proof.
  intros H.
  destruct (verificar_reposicion_casos st inventario fecha env)
    as [[E _]|(st1 & c & f & E & Hc & Hu & Hult & _)];
    rewrite E in H; [discriminate|].
  injection H as <- <-. simpl. repeat split; [assumption..|].
  intros st2 inventario2 fecha2 env2 Hst2 Hid Hf.
  unfold verificar_reposicion_inventario.
  destruct (cantidad_disponible inventario2 <? UMBRAL_REPOSICION); [|reflexivity].
  rewrite Hid, Hst2, Hult. apply Z.ltb_lt in Hf. now rewrite Hf.
Qed.

Import Invariantes.

(** *** Invariants kept by every inventory operation

    [P] is a property of inventory rows that survives adding a positive
    amount to both quantities, removing from both an amount the available
    stock covers, and adding to both an amount accepted by [adm] (the
    amounts given back on cancellation). *)
Section Invariante.

Variable P : Inventario -> Prop.
Variable adm : Z -> Prop.

Hypothesis P_mas : forall i c f,
  P i -> 0 < c ->
  P (inventario_con (cantidad_mano i + c) (cantidad_disponible i + c) f i).
Hypothesis P_menos : forall i c f,
  P i -> c <= cantidad_disponible i ->
  P (inventario_con (cantidad_mano i - c) (cantidad_disponible i - c) f i).
Hypothesis P_adm : forall i c f,
  P i -> adm c ->
  P (inventario_con (cantidad_mano i + c) (cantidad_disponible i + c) f i).
Hypothesis adm_pos : forall c, 0 < c -> adm c.
Hypothesis P_inicial : forall k f,
  P {| inv_producto_id := k; cantidad_mano := CANTIDAD_INICIAL;
       cantidad_disponible := CANTIDAD_INICIAL;
       inv_fecha_registro := f; inv_fecha_actualizacion := f |}.

Lemma todos_guardar_inventario i st :
  P i -> todos P st -> todos P (guardar_inventario i st).
Proof. intros Hi Hst. unfold todos. simpl. now apply map_Forall_insert_2. Qed.

Lemma todos_guardar_producto p st : todos P st -> todos P (guardar_producto p st).
Proof. intros H. exact H. Qed.

Lemma verificar_reposicion_preserva st inventario fecha env b st' inventario' :
  verificar_reposicion_inventario st inventario fecha env = (b, st', inventario') ->
  todos P st -> P inventario -> todos P st' /\ P inventario'.
Proof.
  intros E Hst Hi.
  destruct (verificar_reposicion_casos st inventario fecha env)
    as [[E' _]|(st1 & c & f & E' & Hc & _ & _ & Hinv & _)];
    rewrite E' in E; injection E as <- <- <-.
  - now split.
  - split; [|now apply P_mas]. unfold todos. rewrite Hinv.
    apply map_Forall_insert_2; [now apply P_mas | exact Hst].
Qed.

Lemma actualizar_inventario_preserva st detalle fecha env b oi st' :
  actualizar_inventario_por_pedido st detalle fecha env = (b, oi, st') ->
  todos P st -> todos P st' /\ (forall i, oi = Some i -> P i).
Proof.
  unfold actualizar_inventario_por_pedido. intros E Hst.
  destruct (db_inventarios st !! det_producto_id detalle) as [inventario|] eqn:Hl.
  - assert (Hi : P inventario) by exact (Hst _ _ Hl).
    destruct (Z.ltb_spec (cantidad_disponible inventario) (det_cantidad detalle)).
    + injection E as <- <- <-. split; [assumption|]. now intros i [= <-].
    + match type of E with
      | context [verificar_reposicion_inventario ?s ?i ?f ?e] =>
          destruct (verificar_reposicion_inventario s i f e) as [[b' st3] inv2] eqn:Ev;
          assert (Hs : todos P s)
      end.
      { por_casos; repeat apply todos_guardar_producto;
          apply todos_guardar_inventario; auto; apply P_menos; auto; lia. }
      injection E as <- <- <-.
      assert (Hi1 : P (inventario_con
                         (cantidad_mano inventario - det_cantidad detalle)
                         (cantidad_disponible inventario - det_cantidad detalle)
                         fecha inventario)) by (apply P_menos; auto; lia).
      destruct (verificar_reposicion_preserva _ _ _ _ _ _ _ Ev Hs Hi1) as [H1 H2].
      split; [assumption|]. now intros i [= <-].
  - injection E as <- <- <-. split; [assumption|]. discriminate.
Qed.

Lemma reponer_stock_preserva st producto_id cantidad fecha b oi st' :
  reponer_stock_tras_cancelacion st producto_id cantidad fecha = (b, oi, st') ->
  adm cantidad -> todos P st -> todos P st'.
Proof.
  unfold reponer_stock_tras_cancelacion. intros E Ha Hst.
  destruct (db_inventarios st !! producto_id) as [inventario|] eqn:Hl.
  - assert (Hi : P inventario) by exact (Hst _ _ Hl).
    injection E as <- <- <-.
    por_casos; repeat apply todos_guardar_producto;
      apply todos_guardar_inventario; auto.
  - now injection E as <- <- <-.
Qed.

Lemma reponer_detalles_preserva detalles fecha st :
  Forall (fun d => adm (det_cantidad d)) detalles ->
  todos P st -> todos P (reponer_detalles st detalles fecha).
Proof.
  intros Hd. revert st. induction Hd as [|d ds Hd _ IH]; intros st Hst; simpl.
  - assumption.
  - destruct (reponer_stock_tras_cancelacion st (det_producto_id d) (det_cantidad d) fecha)
      as [[b oi] st'] eqn:E.
    apply IH. eapply reponer_stock_preserva; eauto.
Qed.

Lemma reponer_detalles_db_detalles detalles fecha st :
  db_detalles (reponer_detalles st detalles fecha) = db_detalles st.
Proof.
  revert st. induction detalles as [|d ds IH]; intros st; simpl; [reflexivity|].
  unfold reponer_stock_tras_cancelacion.
  destruct (db_inventarios st !! det_producto_id d); [|apply IH].
  rewrite IH. por_casos; reflexivity.
Qed.

Lemma detalles_de_Forall (Q : DetallePedido -> Prop) pedido st :
  Forall Q (db_detalles st) -> Forall Q (detalles_de pedido st).
Proof.
  intros H. unfold detalles_de. apply List.Forall_forall. intros d Hd.
  apply list_elem_of_In, list_elem_of_filter in Hd as [_ Hd].
  rewrite List.Forall_forall in H. apply H. now apply list_elem_of_In.
Qed.

Lemma update_pedido_a_cancelado_preserva st pedido fecha b pedido' st' :
  update_pedido_a_cancelado st pedido fecha = (b, pedido', st') ->
  Forall (fun d => adm (det_cantidad d)) (db_detalles st) ->
  todos P st -> todos P st'.
Proof.
  unfold update_pedido_a_cancelado. intros E Hd Hst.
  destruct (puede_transicionar [Pendiente] pedido fecha);
    injection E as <- <- <-; [|assumption].
  apply reponer_detalles_preserva; [|assumption]. now apply detalles_de_Forall.
Qed.

Lemma simular_ciclo_de_vida_preserva st pedido a cancelado fecha pedido' st' :
  simular_ciclo_de_vida st pedido a = (cancelado, fecha, pedido', st') ->
  Forall (fun d => adm (det_cantidad d)) (db_detalles st) ->
  todos P st -> todos P st'.
Proof.
  unfold simular_ciclo_de_vida. intros E Hd Hst.
  destruct (paso_cancelacion st pedido a) as [[[c f1] p1] st1] eqn:Ec.
  destruct (paso_reembolso a _) as [f2 p2]. injection E as <- <- <- <-.
  unfold paso_cancelacion in Ec.
  destruct (update_pedido_a_cancelado st pedido
              (Z.min (ped_fecha_registro pedido + minutos (minutos_cancelacion a))
                 SIMULATION_END_DATE)) as [[ok p3] st3] eqn:Eu.
  apply update_pedido_a_cancelado_preserva in Eu; [|assumption..].
  destruct (Qlt_bool (u_cancelacion a) PORCENTAJE_CANCELACION_DETALLE);
    [destruct (ped_fecha_actualizacion pedido <? _); [destruct ok|]|];
    injection Ec as <- <- <- <-; assumption.
Qed.

Lemma descontar_detalle_preserva st cancelado fecha_creacion fecha_actual detalle env :
  todos P st ->
  todos P (descontar_detalle st cancelado fecha_creacion fecha_actual detalle env).
Proof.
  intros Hst. unfold descontar_detalle. destruct cancelado; [assumption|].
  destruct (actualizar_inventario_por_pedido st detalle fecha_creacion env)
    as [[exito oi] st1] eqn:E.
  apply actualizar_inventario_preserva in E as [H1 _]; [|assumption].
  por_casos; try apply todos_guardar_producto; assumption.
Qed.

Lemma descontar_detalles_preserva detalles st cancelado fecha_creacion fecha_actual n envs :
  todos P st ->
  todos P (descontar_detalles st cancelado fecha_creacion fecha_actual detalles n envs).
Proof.
  revert st n. induction detalles as [|d ds IH]; intros st n Hst; simpl.
  - assumption.
  - apply IH. now apply descontar_detalle_preserva.
Qed.

Lemma detalle_de_carrito_adm st pedido fecha carrito detalle :
  detalle_de_carrito st pedido fecha carrito = Some detalle ->
  adm (car_cantidad carrito) -> adm (det_cantidad detalle).
Proof.
  unfold detalle_de_carrito. intros E Ha.
  destruct (db_productos st !! car_producto_id carrito) as [producto|]; [|discriminate].
  destruct (fecha <? prod_fecha_registro producto); [discriminate|].
  destruct (db_inventarios st !! prod_id producto) as [inventario|]; [|discriminate].
  destruct (Z.leb_spec (cantidad_disponible inventario) 0); [discriminate|].
  destruct (cantidad_disponible inventario <? car_cantidad carrito);
    injection E as <-; simpl; auto.
Qed.

Lemma armar_detalles_adm st pedido fecha carritos :
  Forall (fun c => adm (car_cantidad c)) carritos ->
  Forall (fun d => adm (det_cantidad d)) (armar_detalles st pedido fecha carritos).
Proof.
  unfold armar_detalles. induction 1 as [|c cs Hc _ IH]; simpl; [constructor|].
  destruct (detalle_de_carrito st pedido fecha c) eqn:E; simpl; [|assumption].
  constructor; [|assumption]. eapply detalle_de_carrito_adm; eauto.
Qed.

Lemma create_detalles_for_pedido_preserva st pedido carritos fecha a costo pedido' st' :
  create_detalles_for_pedido st pedido carritos fecha a = (costo, pedido', st') ->
  Forall (fun c => adm (car_cantidad c)) carritos ->
  Forall (fun d => adm (det_cantidad d)) (db_detalles st) ->
  todos P st -> todos P st'.
Proof.
  unfold create_detalles_for_pedido. intros E Hc Hd Hst.
  pose proof (armar_detalles_adm st pedido fecha carritos Hc) as Hn.
  destruct (armar_detalles st pedido fecha carritos) as [|d ds] eqn:Ea.
  - now injection E as <- <- <-.
  - match type of E with
    | context [simular_ciclo_de_vida ?s ?p ?z] =>
        destruct (simular_ciclo_de_vida s p z) as [[[cancelado f] p1] st1] eqn:Es
    end.
    injection E as <- <- <-.
    apply (descontar_detalles_preserva (d :: ds)).
    eapply simular_ciclo_de_vida_preserva; [exact Es| |exact Hst].
    simpl. apply Forall_app. now split.
Qed.

Lemma inventarios_iniciales_P productos creados :
  inventarios_iniciales productos = inr creados ->
  Forall (fun i => P i /\ cantidad_mano i = CANTIDAD_INICIAL
                   /\ cantidad_disponible i = CANTIDAD_INICIAL) creados.
Proof.
  revert creados. induction productos as [|[p a] ps IH]; intros creados E; simpl in E.
  - injection E as <-. constructor.
  - destruct (nuevo_inventario_inicial p a) as [e|i] eqn:Ei; [discriminate|].
    destruct (inventarios_iniciales ps) as [e|is'] eqn:Er; [discriminate|].
    injection E as <-. constructor; [|now apply IH].
    unfold nuevo_inventario_inicial in Ei.
    match type of Ei with
    | match ?x with inl _ => _ | inr _ => _ end = _ => destruct x; [discriminate|]
    end.
    injection Ei as <-. simpl. split; [apply P_inicial | split; reflexivity].
Qed.

Lemma insertar_inventarios_todos nuevos tabla tabla' :
  insertar_inventarios nuevos tabla = Some tabla' ->
  Forall P nuevos -> map_Forall (fun _ i => P i) tabla ->
  map_Forall (fun _ i => P i) tabla'.
Proof.
  revert tabla. induction nuevos as [|i is' IH]; intros tabla E Hn Ht; simpl in E.
  - now injection E as <-.
  - destruct (tabla !! inv_producto_id i); [discriminate|].
    inversion Hn; subst. eapply IH; eauto. now apply map_Forall_insert_2.
Qed.

Lemma create_inventario_inicial_preserva st productos creados st' :
  create_inventario_inicial st productos = inr (creados, st') ->
  todos P st ->
  todos P st'
  /\ Forall (fun i => cantidad_mano i = CANTIDAD_INICIAL
                      /\ cantidad_disponible i = CANTIDAD_INICIAL) creados.
Proof.
  unfold create_inventario_inicial. intros E Hst.
  destruct (inventarios_iniciales productos) as [e|creados'] eqn:Ei; [discriminate|].
  apply inventarios_iniciales_P in Ei.
  assert (Hc : Forall (fun i => cantidad_mano i = CANTIDAD_INICIAL
                               /\ cantidad_disponible i = CANTIDAD_INICIAL) creados').
  { eapply List.Forall_impl; [|exact Ei]. simpl. tauto. }
  destruct (insertar_inventarios creados' (db_inventarios st)) as [tabla|] eqn:Et;
    injection E as <- <-; (split; [|assumption]).
  - unfold todos. simpl. eapply insertar_inventarios_todos; eauto.
    eapply List.Forall_impl; [|exact Ei]. simpl. tauto.
  - assumption.
Qed.

End Invariante.

Lemma iguales_desplazado i c f :
  iguales i ->
  iguales (inventario_con (cantidad_mano i + c) (cantidad_disponible i + c) f i).
Proof. unfold iguales. simpl. lia. Qed.

Lemma iguales_descontado i c f :
  iguales i ->
  iguales (inventario_con (cantidad_mano i - c) (cantidad_disponible i - c) f i).
Proof. unfold iguales. simpl. lia. Qed.

Lemma acotado_desplazado i c f :
  acotado i -> 0 <= c ->
  acotado (inventario_con (cantidad_mano i + c) (cantidad_disponible i + c) f i).
Proof. unfold acotado. simpl. lia. Qed.

Lemma acotado_descontado i c f :
  acotado i -> c <= cantidad_disponible i ->
  acotado (inventario_con (cantidad_mano i - c) (cantidad_disponible i - c) f i).
Proof. unfold acotado. simpl. lia. Qed.

Lemma Forall_siempre {A} (l : list A) : Forall (fun _ => True) l.
Proof. induction l; constructor; auto. Qed.

(** C10. The two stock quantities stay equal: initial creation sets both
    to 24, and the order debit, the popularity-driven restock, the restock
    after cancellation and the whole of [create_detalles_for_pedido] keep
    [cantidad_disponible = cantidad_mano] on every inventory row (and on
    the row object they return). *)
Theorem disponible_igual_a_mano :
  (forall st productos creados st',
      create_inventario_inicial st productos = inr (creados, st') ->
      Forall (fun i => cantidad_mano i = 24 /\ cantidad_disponible i = 24) creados
      /\ (todos iguales st -> todos iguales st'))
  /\ (forall st detalle fecha env b oi st',
         actualizar_inventario_por_pedido st detalle fecha env = (b, oi, st') ->
         todos iguales st ->
         todos iguales st' /\ (forall i, oi = Some i -> iguales i))
  /\ (forall st inventario fecha env b st' inventario',
         verificar_reposicion_inventario st inventario fecha env = (b, st', inventario') ->
         todos iguales st -> iguales inventario ->
         todos iguales st' /\ iguales inventario')
  /\ (forall st producto_id cantidad fecha b oi st',
         reponer_stock_tras_cancelacion st producto_id cantidad fecha = (b, oi, st') ->
         todos iguales st -> todos iguales st')
  /\ (forall st pedido carritos fecha a costo pedido' st',
         create_detalles_for_pedido st pedido carritos fecha a = (costo, pedido', st') ->
         todos iguales st -> todos iguales st').
Proof.
  pose proof iguales_desplazado as Hd. pose proof iguales_descontado as Hm.
  assert (Hmas : forall i c f, iguales i -> 0 < c ->
            iguales (inventario_con (cantidad_mano i + c) (cantidad_disponible i + c) f i))
    by auto.
  assert (Hmenos : forall i c f, iguales i -> c <= cantidad_disponible i ->
            iguales (inventario_con (cantidad_mano i - c) (cantidad_disponible i - c) f i))
    by auto.
  assert (Hadm : forall i c f, iguales i -> True ->
            iguales (inventario_con (cantidad_mano i + c) (cantidad_disponible i + c) f i))
    by auto.
  assert (Hini : forall k f,
            iguales {| inv_producto_id := k; cantidad_mano := CANTIDAD_INICIAL;
                       cantidad_disponible := CANTIDAD_INICIAL;
                       inv_fecha_registro := f; inv_fecha_actualizacion := f |})
    by reflexivity.
  split; [|split; [|split; [|split]]].
  - intros st productos creados st' H. split.
    + assert (Ht : todos (fun _ => True) st) by (intros ? ? ?; exact I).
      exact (proj2 (create_inventario_inicial_preserva (fun _ => True)
                      (fun _ _ => I) _ _ _ _ H Ht)).
    + intros Hst.
      exact (proj1 (create_inventario_inicial_preserva iguales Hini _ _ _ _ H Hst)).
  - intros st detalle fecha env b oi st' H Hst.
    eapply (actualizar_inventario_preserva iguales Hmas Hmenos); eassumption.
  - intros st inventario fecha env b st' inventario' H Hst Hi.
    eapply (verificar_reposicion_preserva iguales Hmas); eassumption.
  - intros st producto_id cantidad fecha b oi st' H Hst.
    eapply (reponer_stock_preserva iguales (fun _ => True) Hadm); eauto.
  - intros st pedido carritos fecha a costo pedido' st' H Hst.
    eapply (create_detalles_for_pedido_preserva iguales (fun _ => True)
              Hmas Hmenos Hadm); eauto using Forall_siempre.
Qed.

(** C2. [0 <= cantidad_disponible <= cantidad_mano] holds on every
    inventory row after each inventory operation that starts from rows
    satisfying it: initial creation, the order debit (with the restock it
    may trigger), the popularity-driven restock, the restock after
    cancellation of a non-negative quantity, and the whole of
    [create_detalles_for_pedido] on cart rows with positive quantities
    (the table's check constraint).  The debit is refused, with the
    database and the row unchanged, when the available stock is below
    the requested quantity. *)
Theorem stock_disponible_acotado :
  (forall st productos creados st',
      create_inventario_inicial st productos = inr (creados, st') ->
      todos acotado st -> todos acotado st' /\ Forall acotado creados)
  /\ (forall st detalle fecha env b oi st',
         actualizar_inventario_por_pedido st detalle fecha env = (b, oi, st') ->
         todos acotado st ->
         todos acotado st' /\ (forall i, oi = Some i -> acotado i))
  /\ (forall st detalle fecha env inventario,
         db_inventarios st !! det_producto_id detalle = Some inventario ->
         cantidad_disponible inventario < det_cantidad detalle ->
         actualizar_inventario_por_pedido st detalle fecha env
         = (false, Some inventario, st))
  /\ (forall st inventario fecha env b st' inventario',
         verificar_reposicion_inventario st inventario fecha env = (b, st', inventario') ->
         todos acotado st -> acotado inventario ->
         todos acotado st' /\ acotado inventario')
  /\ (forall st producto_id cantidad fecha b oi st',
         reponer_stock_tras_cancelacion st producto_id cantidad fecha = (b, oi, st') ->
         0 <= cantidad -> todos acotado st -> todos acotado st')
  /\ (forall st pedido carritos fecha a costo pedido' st',
         create_detalles_for_pedido st pedido carritos fecha a = (costo, pedido', st') ->
         Forall (fun c => 0 < car_cantidad c) carritos ->
         Forall (fun d => 0 <= det_cantidad d) (db_detalles st) ->
         todos acotado st -> todos acotado st').
Proof.
  assert (Hmas : forall i c f, acotado i -> 0 < c ->
            acotado (inventario_con (cantidad_mano i + c) (cantidad_disponible i + c) f i))
    by (intros; apply acotado_desplazado; auto; lia).
  pose proof acotado_descontado as Hmenos.
  pose proof acotado_desplazado as Hadm.
  assert (Hpos : forall c : Z, 0 < c -> 0 <= c) by (intros; lia).
  assert (Hini : forall k f,
            acotado {| inv_producto_id := k; cantidad_mano := CANTIDAD_INICIAL;
                       cantidad_disponible := CANTIDAD_INICIAL;
                       inv_fecha_registro := f; inv_fecha_actualizacion := f |})
    by (intros; unfold acotado, CANTIDAD_INICIAL; simpl; lia).
  split; [|split; [|split; [|split; [|split]]]].
  - intros st productos creados st' H Hst.
    destruct (create_inventario_inicial_preserva acotado Hini _ _ _ _ H Hst) as [H1 Hc].
    split; [assumption|].
    eapply List.Forall_impl; [|exact Hc]. intros i [H2 H3].
    unfold acotado. rewrite H2, H3. unfold CANTIDAD_INICIAL. lia.
  - intros st detalle fecha env b oi st' H Hst.
    eapply (actualizar_inventario_preserva acotado Hmas Hmenos); eassumption.
  - intros st detalle fecha env inventario Hl Hlt.
    unfold actualizar_inventario_por_pedido. rewrite Hl.
    apply Z.ltb_lt in Hlt. now rewrite Hlt.
  - intros st inventario fecha env b st' inventario' H Hst Hi.
    eapply (verificar_reposicion_preserva acotado Hmas); eassumption.
  - intros st producto_id cantidad fecha b oi st' H Hc Hst.
    eapply (reponer_stock_preserva acotado (fun c => 0 <= c) Hadm); eauto.
  - intros st pedido carritos fecha a costo pedido' st' H Hc Hd Hst.
    eapply (create_detalles_for_pedido_preserva acotado (fun c => 0 <= c)
              Hmas Hmenos Hadm Hpos); eauto.
    eapply List.Forall_impl; [|exact Hc]. simpl. intros; lia.
Qed.

(** *** The order lines [create_detalles_for_pedido] leaves in the database *)

Lemma simular_ciclo_de_vida_db_detalles st pedido a cancelado fecha pedido' st' :
  simular_ciclo_de_vida st pedido a = (cancelado, fecha, pedido', st') ->
  db_detalles st' = db_detalles st.
Proof.
  unfold simular_ciclo_de_vida. intros E.
  destruct (paso_cancelacion st pedido a) as [[[c f1] p1] st1] eqn:Ec.
  destruct (paso_reembolso a _) as [f2 p2]. injection E as <- <- <- <-.
  unfold paso_cancelacion, update_pedido_a_cancelado in Ec.
  destruct (Qlt_bool (u_cancelacion a) PORCENTAJE_CANCELACION_DETALLE);
    [destruct (ped_fecha_actualizacion pedido <? _);
     [destruct (puede_transicionar [Pendiente] pedido _)|]|];
    injection Ec as <- <- <- <-; try reflexivity.
  apply reponer_detalles_db_detalles.
Qed.

Lemma verificar_reposicion_db_detalles st inventario fecha env b st' inventario' :
  verificar_reposicion_inventario st inventario fecha env = (b, st', inventario') ->
  db_detalles st' = db_detalles st.
Proof.
  intros E.
  destruct (verificar_reposicion_casos st inventario fecha env)
    as [[E' _]|(st1 & c & f & E' & _ & _ & _ & _ & Hd)];
    rewrite E' in E; injection E as <- <- <-; [reflexivity | exact Hd].
Qed.

Lemma descontar_detalle_db_detalles st cancelado fecha_creacion fecha_actual detalle env :
  db_detalles (descontar_detalle st cancelado fecha_creacion fecha_actual detalle env)
  = db_detalles st.
Proof.
  unfold descontar_detalle, actualizar_inventario_por_pedido.
  destruct cancelado; [reflexivity|].
  destruct (db_inventarios st !! det_producto_id detalle) as [inventario|];
    [|reflexivity].
  destruct (cantidad_disponible inventario <? det_cantidad detalle); [reflexivity|].
  match goal with
  | |- context [verificar_reposicion_inventario ?s ?i ?f ?e] =>
      destruct (verificar_reposicion_inventario s i f e) as [[b st3] inv2] eqn:Ev;
      assert (Hs : db_detalles s = db_detalles st) by (por_casos; reflexivity)
  end.
  apply verificar_reposicion_db_detalles in Ev. simpl.
  transitivity (db_detalles st3); [|congruence].
  por_casos; reflexivity.
Qed.

Lemma descontar_detalles_db_detalles detalles st cancelado fecha_creacion fecha_actual n envs :
  db_detalles (descontar_detalles st cancelado fecha_creacion fecha_actual detalles n envs)
  = db_detalles st.
Proof.
  revert st n. induction detalles as [|d ds IH]; intros st n; simpl; [reflexivity|].
  rewrite IH. apply descontar_detalle_db_detalles.
Qed.

Lemma create_detalles_for_pedido_db_detalles st pedido carritos fecha a costo pedido' st' :
  create_detalles_for_pedido st pedido carritos fecha a = (costo, pedido', st') ->
  db_detalles st' = db_detalles st ++ armar_detalles st pedido fecha carritos.
Proof.
  unfold create_detalles_for_pedido. intros E.
  destruct (armar_detalles st pedido fecha carritos) as [|d ds] eqn:Ea.
  - injection E as <- <- <-. now rewrite app_nil_r.
  - match type of E with
    | context [simular_ciclo_de_vida ?s ?p ?z] =>
        destruct (simular_ciclo_de_vida s p z) as [[[cancelado f] p1] st1] eqn:Es
    end.
    injection E as <- <- <-.
    change (db_detalles
              (descontar_detalles st1 cancelado fecha f (d :: ds) 0 (reposiciones a))
            = db_detalles st ++ d :: ds).
    rewrite descontar_detalles_db_detalles.
    now rewrite (simular_ciclo_de_vida_db_detalles _ _ _ _ _ _ _ Es).
Qed.

(** With cart quantities positive, the lines added have positive
    quantities, so the precondition of the bound on the stock is itself
    kept by [create_detalles_for_pedido]. *)
Lemma create_detalles_for_pedido_cantidades st pedido carritos fecha a costo pedido' st' :
  create_detalles_for_pedido st pedido carritos fecha a = (costo, pedido', st') ->
  Forall (fun c => 0 < car_cantidad c) carritos ->
  Forall (fun d => 0 < det_cantidad d) (db_detalles st) ->
  Forall (fun d => 0 < det_cantidad d) (db_detalles st').
Proof.
  intros E Hc Hd. rewrite (create_detalles_for_pedido_db_detalles _ _ _ _ _ _ _ _ E).
  apply Forall_app. split; [assumption|].
  apply (armar_detalles_adm (fun c => 0 < c)); [|assumption].
  intros c Hpos. exact Hpos.
Qed.

(** What a simulated cancellation does to the stock, in general: for an
    order with one line, the row of the product ends with the quantity of
    the line added to both fields of its pre-order value. *)
Lemma cancelacion_suma_la_cantidad st pedido carrito fecha a d i :
  estado_pedido pedido = Pendiente ->
  Qlt_bool (u_cancelacion a) PORCENTAJE_CANCELACION_DETALLE = true ->
  ped_fecha_actualizacion pedido
  < Z.min (ped_fecha_registro pedido + minutos (minutos_cancelacion a))
      SIMULATION_END_DATE ->
  detalles_de pedido st = [] ->
  detalle_de_carrito st pedido fecha carrito = Some d ->
  db_inventarios st !! det_producto_id d = Some i ->
  inv_producto_id i = det_producto_id d ->
  0 < car_cantidad carrito ->
  db_inventarios
    (snd (create_detalles_for_pedido st pedido [carrito] fecha a))
    !! det_producto_id d
  = Some (inventario_con (cantidad_mano i + det_cantidad d)
            (cantidad_disponible i + det_cantidad d)
            (Z.min (ped_fecha_registro pedido + minutos (minutos_cancelacion a))
               SIMULATION_END_DATE) i)
  /\ 0 < det_cantidad d.
Proof.
  intros He Hu Hf Hd Hc Hi Hk Hq.
  assert (Hid : det_pedido_id d = ped_id pedido /\ 0 < det_cantidad d).
  { unfold detalle_de_carrito in Hc.
    destruct (db_productos st !! car_producto_id carrito) as [producto|]; [|discriminate].
    destruct (fecha <? prod_fecha_registro producto); [discriminate|].
    destruct (db_inventarios st !! prod_id producto) as [inventario|]; [|discriminate].
    destruct (Z.leb_spec (cantidad_disponible inventario) 0); [discriminate|].
    destruct (Z.ltb_spec (cantidad_disponible inventario) (car_cantidad carrito));
      injection Hc as <-; simpl; split; try reflexivity; lia. }
  destruct Hid as [Hid Hpos]. split; [|lia].
  unfold create_detalles_for_pedido, armar_detalles. simpl omap. rewrite Hc. simpl omap.
  cbv beta iota zeta.
  set (st1 := con_detalles (db_detalles st ++ [d]) st).
  set (fc := Z.min (ped_fecha_registro pedido + minutos (minutos_cancelacion a))
               SIMULATION_END_DATE) in *.
  assert (Hp : puede_transicionar [Pendiente] pedido fc = true).
  { apply CicloProps.puede_transicionar_spec. rewrite He. split; [now left|].
    split; [assumption | apply Z.le_min_r]. }
  assert (Hdet : detalles_de (pedido_con_estado Cancelado fc pedido) st1 = [d]).
  { unfold detalles_de in *. simpl. rewrite filter_app, Hd. simpl.
    rewrite filter_cons, decide_True by exact Hid. reflexivity. }
  assert (Es : exists f p,
             simular_ciclo_de_vida st1 pedido a
             = (true, f, p,
                reponer_detalles st1 [d] fc)).
  { unfold simular_ciclo_de_vida, paso_cancelacion, update_pedido_a_cancelado.
    rewrite Hu. fold fc. apply Z.ltb_lt in Hf. rewrite Hf, Hp, Hdet.
    destruct (paso_reembolso a _) as [f p]. eauto. }
  destruct Es as (f & p & ->). cbn [snd descontar_detalles descontar_detalle].
  cbn [reponer_detalles]. unfold reponer_stock_tras_cancelacion.
  change (db_inventarios st1) with (db_inventarios st). rewrite Hi.
  match goal with
  | |- db_inventarios ?s !! _ = _ =>
      assert (Hs : db_inventarios s
                   = <[det_producto_id d :=
                         inventario_con (cantidad_mano i + det_cantidad d)
                           (cantidad_disponible i + det_cantidad d) fc i]>
                       (db_inventarios st))
  end.
  { por_casos; simpl; now rewrite Hk. }
  rewrite Hs. apply lookup_insert_eq.
Qed.

Import Ejemplo.

(** C1 (what the code does). A pending order for 2 candles, cancelled 10
    minutes after its creation: the stock of the candle, 24 before the
    order, is 26 afterwards.  The cancellation gives back the 2 units, and
    the debit of the order, which comes after the simulated life cycle, is
    skipped for a cancelled order. *)
Theorem cancelacion_no_restaura_inventario :
  let '(_, pedido, st) :=
    create_detalles_for_pedido tienda_inicial pedido_pendiente [carrito_vela 2] T1
      (azar_ciclo (1 # 100)) in
  estado_pedido pedido = Cancelado
  /\ ped_fecha_actualizacion pedido = T1 + minutos 10
  /\ disponible_y_mano tienda_inicial 1 = Some (24, 24)
  /\ disponible_y_mano st 1 = Some (26, 26).
Proof. vm_compute. repeat split; reflexivity. Qed.

(** The same order when it is not cancelled: 22 are left. *)
Example pedido_entregado_descuenta :
  let '(_, pedido, st) :=
    create_detalles_for_pedido tienda_inicial pedido_pendiente [carrito_vela 2] T1
      (azar_ciclo (1 # 2)) in
  estado_pedido pedido = Entregado /\ disponible_y_mano st 1 = Some (22, 22).
Proof. vm_compute. repeat split; reflexivity. Qed.

Lemma reposicion_respeta_periodo_testigo :
  cantidad_disponible inventario_bajo < UMBRAL_REPOSICION
  /\ verificar_reposicion_inventario (snd (fst reposicion_hecha)) inventario_bajo
       (T1 + dias 10) (reposicion_en 1)
     = (false, snd (fst reposicion_hecha), inventario_bajo).
Proof.
  destruct (reposicion_respeta_periodo tienda_baja inventario_bajo T1 (reposicion_en 1)
              (snd (fst reposicion_hecha)) (snd reposicion_hecha))
    as (H1 & H2 & H3).
  - vm_compute. reflexivity.
  - split; [exact H1|]. apply H3; [reflexivity | reflexivity | vm_compute; reflexivity].
Defined.

Lemma stock_disponible_acotado_testigo :
  todos acotado tienda_inicial
  /\ todos acotado
       (snd (create_detalles_for_pedido tienda_inicial pedido_pendiente
               [carrito_vela 2] T1 (azar_ciclo (1 # 100)))).
Proof.
  assert (H0 : todos acotado tienda_inicial).
  { intros k i Hk. unfold tienda_inicial in Hk. cbn [db_inventarios] in Hk.
    apply lookup_singleton_Some in Hk as [_ <-]. unfold acotado. simpl. lia. }
  split; [exact H0|].
  destruct stock_disponible_acotado as (_ & _ & _ & _ & _ & H).
  eapply (H tienda_inicial pedido_pendiente [carrito_vela 2] T1 (azar_ciclo (1 # 100))).
  - apply surjective_pairing_3.
  - repeat constructor.
  - constructor.
  - exact H0.
Defined.

Lemma disponible_igual_a_mano_testigo :
  todos iguales tienda_inicial
  /\ todos iguales
       (snd (create_detalles_for_pedido tienda_inicial pedido_pendiente
               [carrito_vela 2] T1 (azar_ciclo (1 # 100)))).
Proof.
  assert (H0 : todos iguales tienda_inicial).
  { intros k i Hk. unfold tienda_inicial in Hk. cbn [db_inventarios] in Hk.
    apply lookup_singleton_Some in Hk as [_ <-]. reflexivity. }
  split; [exact H0|].
  destruct disponible_igual_a_mano as (_ & _ & _ & _ & H).
  eapply (H tienda_inicial pedido_pendiente [carrito_vela 2] T1 (azar_ciclo (1 # 100))).
  - apply surjective_pairing_3.
  - exact H0.
Defined.

End InventarioProps.

(** ** Orders *)

Module PedidosProps.

Import Pedidos.

(** *** Sessions *)








(** *** The conversion target *)





(** *** The acceptance rule *)





(** *** Discounts *)

Lemma random_choice_In {A} (l : list A) k x : random_choice l k = Some x -> In x l.
Proof.
  unfold random_choice. intros H. apply list_elem_of_In.
  eapply list_elem_of_lookup_2; eauto.
Qed.

Lemma elegir_descuento_valido t descs usuario_id fecha a d :
  elegir_descuento t descs usuario_id fecha a = Some d ->
  In d descs /\ desc_fecha_inicio d <= fecha <= desc_fecha_fin d.
Proof.
  unfold elegir_descuento. intros H.
  match type of H with
  | match ?l with [] => _ | _ :: _ => _ end = _ =>
      assert (Hin : In d l);
      [destruct l; [discriminate|];
       destruct (Qlt_bool (u_descuento a) (umbral_descuento a)); [|discriminate];
       now apply random_choice_In in H|]
  end.
  apply filter_In in Hin as [Hin _]. apply filter_In in Hin as [Hin Hv].
  apply andb_true_iff in Hv as [H1 H2]. apply Z.leb_le in H1, H2. auto.
Qed.

(** The life cycle changes the state and [fecha_actualizacion] of an
    order and nothing else: any field [campo] that [pedido_con_estado]
    leaves alone is the same afterwards. *)
Section CamposDelPedido.

Context {A : Type} (campo : Pedido -> A).
Hypothesis campo_estable : forall e f p, campo (pedido_con_estado e f p) = campo p.

Lemma avanzar_campo update fecha_propuesta fecha_actual pedido :
  (forall p f, campo (snd (update p f)) = campo p) ->
  campo (snd (avanzar update fecha_propuesta fecha_actual pedido)) = campo pedido.
Proof.
  intros Hu. unfold avanzar.
  destruct (fecha_actual <? fecha_propuesta); [|reflexivity].
  specialize (Hu pedido fecha_propuesta).
  destruct (update pedido fecha_propuesta) as [[] p']; exact Hu.
Qed.

Lemma update_campo :
  (forall p f, campo (snd (update_pedido_a_procesando p f)) = campo p)
  /\ (forall p f, campo (snd (update_pedido_a_enviado p f)) = campo p)
  /\ (forall p f, campo (snd (update_pedido_a_entregado p f)) = campo p)
  /\ (forall p f, campo (snd (update_pedido_a_reembolsado p f)) = campo p).
Proof.
  unfold update_pedido_a_procesando, update_pedido_a_enviado,
    update_pedido_a_entregado, update_pedido_a_reembolsado.
  repeat split; intros p f; destruct (puede_transicionar _ p f); simpl; auto.
Qed.

Lemma simular_ciclo_de_vida_campo st pedido a cancelado fecha pedido' st' :
  simular_ciclo_de_vida st pedido a = (cancelado, fecha, pedido', st') ->
  campo pedido' = campo pedido.
Proof.
  destruct update_campo as (Hp & He & Hn & Hr).
  unfold simular_ciclo_de_vida. intros E.
  destruct (paso_cancelacion st pedido a) as [[[c f1] p1] st1] eqn:Ec.
  assert (H1 : campo p1 = campo pedido).
  { unfold paso_cancelacion, update_pedido_a_cancelado in Ec.
    destruct (Qlt_bool (u_cancelacion a) PORCENTAJE_CANCELACION_DETALLE);
      [destruct (ped_fecha_actualizacion pedido <? _);
       [destruct (puede_transicionar [Pendiente] pedido _)|]|];
      injection Ec as <- <- <- <-; auto. }
  assert (H2 : forall x, campo (snd (paso_procesando c a x)) = campo (snd x)).
  { intros [f p]. unfold paso_procesando.
    destruct (negb c && _); [now apply avanzar_campo | reflexivity]. }
  assert (H3 : forall x, campo (snd (paso_enviado a x)) = campo (snd x)).
  { intros [f p]. unfold paso_enviado.
    destruct (estado_pedido_eqb _ _); [now apply avanzar_campo | reflexivity]. }
  assert (H4 : forall x, campo (snd (paso_entregado a x)) = campo (snd x)).
  { intros [f p]. unfold paso_entregado.
    destruct (estado_pedido_eqb _ _); [now apply avanzar_campo | reflexivity]. }
  assert (H5 : forall x, campo (snd (paso_reembolso a x)) = campo (snd x)).
  { intros [f p]. unfold paso_reembolso.
    destruct (_ || _); [now apply avanzar_campo | reflexivity]. }
  match type of E with
  | context [paso_reembolso a ?x] =>
      specialize (H5 x); destruct (paso_reembolso a x) as [f2 p2]
  end.
  injection E as <- <- <- <-.
  rewrite H4, H3, H2 in H5. simpl in H5. congruence.
Qed.

Lemma create_detalles_for_pedido_campo st pedido carritos fecha a costo pedido' st' :
  create_detalles_for_pedido st pedido carritos fecha a = (costo, pedido', st') ->
  campo pedido' = campo pedido.
Proof.
  unfold create_detalles_for_pedido. intros E.
  destruct (armar_detalles st pedido fecha carritos) as [|d ds].
  - now injection E as <- <- <-.
  - match type of E with
    | context [simular_ciclo_de_vida ?s ?p ?z] =>
        destruct (simular_ciclo_de_vida s p z) as [[[cancelado f] p1] st1] eqn:Es
    end.
    injection E as <- <- <-.
    eapply simular_ciclo_de_vida_campo; eauto.
Qed.

End CamposDelPedido.

Lemma rollback_historial t e : historial_descuentos (rollback t e) = historial_descuentos t.
Proof. reflexivity. Qed.

Lemma create_localizacion_historial t u fu fmax fmin a l t' :
  create_localizacion_for_user t u fu fmax fmin a = Some (l, t') ->
  historial_descuentos t' = historial_descuentos t.
Proof.
  unfold create_localizacion_for_user. intros E.
  repeat match type of E with
         | (if ?b then _ else _) = _ => destruct b; try discriminate
         | match ?x with inl _ => _ | inr _ => _ end = _ => destruct x; try discriminate
         end.
  now injection E as <- <-.
Qed.

Lemma intentar_pedido_descuento t descs grupo a r t' :
  intentar_pedido t descs grupo a = (r, t') ->
  (forall h, In h (historial_descuentos t) -> In h (historial_descuentos t'))
  /\ (forall r', r = Some r' -> descuento_en_vigor descs t' r').
Proof.
  unfold intentar_pedido. intros E.
  assert (Hnada : forall t0 : Tienda,
             historial_descuentos t0 = historial_descuentos t ->
             (None, t0) = (r, t') ->
             (forall h, In h (historial_descuentos t) -> In h (historial_descuentos t'))
             /\ (forall r', r = Some r' -> descuento_en_vigor descs t' r')).
  { intros t0 H0 [= <- <-]. rewrite H0. split; [auto | discriminate]. }
  destruct grupo as [|primer_carrito resto]; [now apply (Hnada t)|].
  destruct (last (primer_carrito :: resto)) as [ultimo_carrito|];
    [|now apply (Hnada t)].
  destruct (usuarios t !! car_usuario_id primer_carrito) as [fu|];
    [|now apply (Hnada t)].
  match type of E with
  | (if ?b then _ else _) = _ => destruct b; [now apply (Hnada t)|]
  end.
  match type of E with
  | match ?x with Some _ => _ | None => _ end = _ =>
      destruct x as [[loc t1]|] eqn:El; [|now apply (Hnada t)]
  end.
  apply create_localizacion_historial in El.
  match type of E with
  | (if ?b then _ else _) = _ => destruct b; [now apply (Hnada t)|]
  end.
  match type of E with
  | match ?x with inl _ => _ | inr _ => _ end = _ =>
      destruct x as [e|fecha] eqn:Ef; [now apply (Hnada t)|]
  end.
  destruct (error_envio a); [now apply (Hnada t)|].
  match type of E with
  | context [create_detalles_for_pedido ?s ?p ?g ?f ?z] =>
      destruct (create_detalles_for_pedido s p g f z) as [[costo p1] e1] eqn:Ed
  end.
  pose proof (create_detalles_for_pedido_campo ped_usuario_id
                (fun _ _ _ => eq_refl) _ _ _ _ _ _ _ _ Ed) as Eu.
  apply (create_detalles_for_pedido_campo ped_fecha_registro
           (fun _ _ _ => eq_refl)) in Ed.
  simpl in Ed, Eu.
  destruct (Qeq_bool costo 0); [now apply (Hnada (rollback t e1))|].
  destruct (error_commit a); [now apply (Hnada (rollback t e1))|].
  injection E as <- <-. simpl. rewrite El.
  destruct (elegir_descuento t1 descs (car_usuario_id primer_carrito) fecha a)
    as [d|] eqn:Ee.
  - split.
    + intros h Hh. apply in_or_app. now left.
    + intros r' [= <-] d' [= <-]. simpl.
      apply elegir_descuento_valido in Ee as [Hin Hv].
      repeat split; try assumption; try lia.
      * apply in_or_app. right. left. unfold fila_historial. simpl.
        now rewrite Eu, Ed.
      * eexists. reflexivity.
  - split; [auto|]. intros r' [= <-] d'. discriminate.
Qed.

Lemma descuento_en_vigor_mono descs t t' r :
  (forall h, In h (historial_descuentos t) -> In h (historial_descuentos t')) ->
  descuento_en_vigor descs t r -> descuento_en_vigor descs t' r.
Proof.
  intros Hm H d Hd. destruct (H d Hd) as (H1 & H2 & H3 & H4). auto.
Qed.

Lemma bucle_sesiones_descuentos descs total objetivo azar sesiones :
  forall n k creados t l s t',
    bucle_sesiones descs total objetivo azar sesiones n k creados t = (l, s, t') ->
    Forall (descuento_en_vigor descs t) creados ->
    Forall (descuento_en_vigor descs t') l.
Proof.
  induction sesiones as [|g resto IH]; intros n k creados t l s t' E Hc; simpl in E.
  - now injection E as <- <- <-.
  - destruct (objetivo - Z.of_nat (length creados) <=? 0);
      [now injection E as <- <- <-|].
    destruct (azar n) as [u a].
    match type of E with
    | context [Qlt_bool ?p u] => destruct (Qlt_bool p u)
    end.
    + destruct (bucle_sesiones descs total objetivo azar resto (S n) (k + 1) creados t)
        as [[l1 s1] t1] eqn:Eb.
      injection E as <- <- <-. eapply IH; eauto.
    + destruct (intentar_pedido t descs g a) as [r t1] eqn:Ei.
      apply intentar_pedido_descuento in Ei as [Hm Hr].
      assert (Hc1 : Forall (descuento_en_vigor descs t1) creados).
      { eapply List.Forall_impl; [|exact Hc]. intros r0. now apply descuento_en_vigor_mono. }
      destruct r as [r|].
      * destruct (bucle_sesiones descs total objetivo azar resto (S n) (k + 1)
                    (creados ++ [r]) t1) as [[l1 s1] t2] eqn:Eb.
        injection E as <- <- <-. eapply IH; eauto.
        apply Forall_app. split; [assumption|]. constructor; [|constructor]. now apply Hr.
      * destruct (bucle_sesiones descs total objetivo azar resto (S n) (k + 1)
                    creados t1) as [[l1 s1] t2] eqn:Eb.
        injection E as <- <- <-. eapply IH; eauto.
Qed.

(** C5. Every order [create_pedidos] creates with a discount attached has
    its [fecha_registro] inside the validity window
    [[fecha_inicio, fecha_fin]] of that discount; the discount is one of
    those offered, its use is recorded in [historial_descuentos] with the
    order's user and date, and its amount is taken off the total. *)
Theorem descuento_vigente_en_fecha_del_pedido t descs carritos pct azar creados sucesos t' :
  create_pedidos t descs carritos pct azar = (creados, sucesos, t') ->
  forall r d,
    In r creados -> descuento_aplicado r = Some d ->
    desc_fecha_inicio d <= ped_fecha_registro (pedido r) <= desc_fecha_fin d
    /\ In d descs
    /\ In (fila_historial r d) (historial_descuentos t')
    /\ exists costo_envio : Z,
         ped_costo_total (pedido r)
         = (bruto r - bruto r * (desc_porcentaje d / 100) + inject_Z costo_envio)%Q.
Proof.
  unfold create_pedidos. intros E r d Hr Hd.
  destruct carritos as [|c cs].
  - injection E as <- <- <-. destruct Hr.
  - apply bucle_sesiones_descuentos in E; [|constructor].
    rewrite List.Forall_forall in E.
    destruct (E r Hr d Hd) as (H1 & H2 & H3 & H4). auto.
Qed.

Import Ejemplo.



Lemma descuento_vigente_en_fecha_del_pedido_testigo :
  desc_fecha_inicio promocion
  <= ped_fecha_registro (pedido pedido_con_descuento)
  <= desc_fecha_fin promocion.
Proof.
  assert (Hin : In pedido_con_descuento (fst (fst corrida)))
    by (vm_compute; left; reflexivity).
  assert (Hd : descuento_aplicado pedido_con_descuento = Some promocion)
    by (vm_compute; reflexivity).
  exact (proj1 (descuento_vigente_en_fecha_del_pedido tienda_con_clientes [promocion]
                  tres_carritos (4 # 10) azar_sesiones
                  (fst (fst corrida)) (snd (fst corrida)) (snd corrida)
                  (InventarioProps.surjective_pairing_3 corrida)
                  pedido_con_descuento promocion Hin Hd)).
Defined.

End PedidosProps.

(** ** Products *)

Module ProductosProps.

Import Productos.

Lemma StronglySorted_snoc (l : list Z) (x : Z) :
  StronglySorted Z.lt l -> Forall (fun y => y < x) l ->
  StronglySorted Z.lt (l ++ [x]).
Proof.
  induction 1 as [|y l Hs IH Hy]; intros Hx; simpl.
  - repeat constructor.
  - inversion Hx; subst. constructor; [now apply IH|].
    apply Forall_app. split; [assumption|]. now repeat constructor.
Qed.

Lemma reloj_snoc ultima l p :
  reloj ultima l -> ultima < prod_fecha_registro p ->
  reloj (prod_fecha_registro p) (l ++ [p]).
Proof.
  intros [Hs Hu] Hlt. split.
  - unfold fechas_crecientes. rewrite map_app. simpl. apply StronglySorted_snoc.
    + exact Hs.
    + apply List.Forall_map. eapply List.Forall_impl; [|exact Hu]. simpl. lia.
  - apply Forall_app. split.
    + eapply List.Forall_impl; [|exact Hu]. simpl. lia.
    + repeat constructor. lia.
Qed.

(** Where the next registration date falls. *)
Lemma fecha_de_registro_cotas proveedor i ultima limite a f :
  azar_en_rango a ->
  fecha_de_registro proveedor i ultima limite a = Some f ->
  ultima < f
  /\ f < limite
  /\ prov_fecha_registro proveedor <= f
  /\ (i = 0%nat -> prov_fecha_registro proveedor < f).
Proof.
  intros (Hh & Hm & Hd & Hho & Hmi & Hs & Ha). unfold fecha_de_registro.
  set (fmin := match i with
               | O => prov_fecha_registro proveedor
                      + (horas (horas_proveedor a) + minutos (minutos_proveedor a))
               | S _ => prov_fecha_registro proveedor
               end).
  assert (Hf : prov_fecha_registro proveedor <= fmin
               /\ (i = 0%nat -> prov_fecha_registro proveedor < fmin)).
  { subst fmin. destruct i; unfold horas, minutos, segundos, USEC_POR_SEGUNDO;
      split; try lia; discriminate. }
  destruct ((dias_inc a =? 0) && (horas_inc a =? 0) && (minutos_inc a =? 0));
    unfold dias, horas, minutos, segundos, USEC_POR_SEGUNDO;
    repeat match goal with
           | |- context [if ?x <=? ?y then _ else _] => destruct (Z.leb_spec x y)
           end;
    intros [= <-]; lia.
Qed.

(** The log only grows. *)
Lemma productos_de_proveedor_avisos proveedor limite azar pendientes :
  forall i ultima creados avisos det ultima' creados' avisos' x,
    productos_de_proveedor proveedor limite azar pendientes i ultima creados avisos
    = (det, ultima', creados', avisos') ->
    In x avisos -> In x avisos'.
Proof.
  induction pendientes as [|k IH]; intros i ultima creados avisos det u' c' av' x E Hx;
    simpl in E.
  - now injection E as <- <- <- <-.
  - destruct (fecha_de_registro proveedor i ultima limite (azar i)) as [f|].
    + destruct (error_bd (azar i)); eapply IH; eauto.
      apply in_or_app. now left.
    + injection E as <- <- <- <-. apply in_or_app. now left.
Qed.

(** The inner loop keeps the clock. *)
Lemma productos_de_proveedor_reloj proveedor limite azar :
  (forall i, azar_en_rango (azar i)) ->
  forall pendientes i ultima creados avisos det ultima' creados' avisos',
    productos_de_proveedor proveedor limite azar pendientes i ultima creados avisos
    = (det, ultima', creados', avisos') ->
    reloj ultima creados -> reloj ultima' creados'.
Proof.
  intros Hr. induction pendientes as [|k IH];
    intros i ultima creados avisos det u' c' av' E Hc; simpl in E.
  - now injection E as <- <- <- <-.
  - destruct (fecha_de_registro proveedor i ultima limite (azar i)) as [f|] eqn:Ef.
    + apply fecha_de_registro_cotas in Ef as (Hlt & _); [|apply Hr].
      destruct (error_bd (azar i)); [now apply (IH _ _ _ _ _ _ _ _ E)|].
      apply (IH _ _ _ _ _ _ _ _ E).
      now apply (reloj_snoc ultima creados (nuevo_producto proveedor f limite (azar i))).
    + now injection E as <- <- <- <-.
Qed.

(** When no creation raises, the products of a supplier come strictly
    after its registration: the first by its own delay, the others because
    the clock has already passed the first. *)
Lemma productos_de_proveedor_posteriores proveedor limite azar (Q : Producto -> Prop) :
  (forall i, azar_en_rango (azar i)) ->
  (forall f a, prov_fecha_registro proveedor < f ->
               Q (nuevo_producto proveedor f limite a)) ->
  forall pendientes i ultima creados avisos det ultima' creados' avisos',
    productos_de_proveedor proveedor limite azar pendientes i ultima creados avisos
    = (det, ultima', creados', avisos') ->
    ~ In ErrorAlCrear avisos' ->
    (i = 0%nat \/ prov_fecha_registro proveedor < ultima) ->
    Forall Q creados -> Forall Q creados'.
Proof.
  intros Hr HQ. induction pendientes as [|k IH];
    intros i ultima creados avisos det u' c' av' E He Hi Hc; simpl in E.
  - now injection E as <- <- <- <-.
  - destruct (fecha_de_registro proveedor i ultima limite (azar i)) as [f|] eqn:Ef.
    + apply fecha_de_registro_cotas in Ef as (Hlt & _ & _ & H0); [|apply Hr].
      destruct (error_bd (azar i)).
      * exfalso. apply He.
        eapply productos_de_proveedor_avisos; [exact E|].
        apply in_or_app. right. now left.
      * assert (Hf : prov_fecha_registro proveedor < f) by (destruct Hi; [auto | lia]).
        apply (IH _ _ _ _ _ _ _ _ E He); [now right|].
        apply Forall_app. split; [assumption|]. repeat constructor. now apply HQ.
    + now injection E as <- <- <- <-.
Qed.

(** When neither the ceiling nor an error interferes, every planned
    product of the supplier is created. *)
Lemma productos_de_proveedor_cuenta proveedor limite azar :
  forall pendientes i ultima creados avisos det ultima' creados' avisos',
    productos_de_proveedor proveedor limite azar pendientes i ultima creados avisos
    = (det, ultima', creados', avisos') ->
    ~ In ErrorAlCrear avisos' -> ~ In Detenida avisos' ->
    det = false /\ length creados' = (length creados + pendientes)%nat.
Proof.
  induction pendientes as [|k IH];
    intros i ultima creados avisos det u' c' av' E He Hd; simpl in E.
  - injection E as <- <- <- <-. split; [reflexivity | lia].
  - destruct (fecha_de_registro proveedor i ultima limite (azar i)) as [f|] eqn:Ef.
    + destruct (error_bd (azar i)).
      * exfalso. apply He.
        eapply productos_de_proveedor_avisos; [exact E|].
        apply in_or_app. right. now left.
      * destruct (IH _ _ _ _ _ _ _ _ E He Hd) as [H1 H2]. split; [assumption|].
        rewrite H2, length_app. simpl. lia.
    + injection E as <- <- <- <-. exfalso. apply Hd. apply in_or_app. right. now left.
Qed.

Lemma productos_de_proveedores_avisos m limite azar proveedores :
  forall j ultima creados avisos creados' avisos' x,
    productos_de_proveedores m limite azar proveedores j ultima creados avisos
    = (creados', avisos') ->
    In x avisos -> In x avisos'.
Proof.
  induction proveedores as [|pr resto IH];
    intros j ultima creados avisos c' av' x E Hx; simpl in E.
  - now injection E as <- <-.
  - destruct (default 0 (m !! prov_id pr) =? 0); [eapply IH; eauto|].
    match type of E with
    | (if ?b then _ else _) = _ => destruct b
    end.
    + eapply IH; eauto. apply in_or_app. now left.
    + match type of E with
      | context [productos_de_proveedor ?a1 ?a2 ?a3 ?a4 ?a5 ?a6 ?a7 ?a8] =>
          destruct (productos_de_proveedor a1 a2 a3 a4 a5 a6 a7 a8)
            as [[[det u1] c1] av1] eqn:Ei
      end.
      pose proof (productos_de_proveedor_avisos _ _ _ _ _ _ _ _ _ _ _ _ x Ei Hx).
      destruct det; [now injection E as <- <- | eapply IH; eauto].
Qed.

Lemma productos_de_proveedores_reloj m limite azar :
  (forall j i, azar_en_rango (azar j i)) ->
  forall proveedores j ultima creados avisos creados' avisos',
    productos_de_proveedores m limite azar proveedores j ultima creados avisos
    = (creados', avisos') ->
    reloj ultima creados -> fechas_crecientes creados'.
Proof.
  intros Hr. induction proveedores as [|pr resto IH];
    intros j ultima creados avisos c' av' E Hc; simpl in E.
  - injection E as <- <-. apply Hc.
  - destruct (default 0 (m !! prov_id pr) =? 0); [eapply IH; eauto|].
    match type of E with
    | (if ?b then _ else _) = _ => destruct b
    end; [eapply IH; eauto|].
    match type of E with
    | context [productos_de_proveedor ?a1 ?a2 ?a3 ?a4 ?a5 ?a6 ?a7 ?a8] =>
        destruct (productos_de_proveedor a1 a2 a3 a4 a5 a6 a7 a8)
          as [[[det u1] c1] av1] eqn:Ei
    end.
    apply productos_de_proveedor_reloj in Ei; [|apply Hr | assumption].
    destruct det; [injection E as <- <-; apply Ei | eapply IH; eauto].
Qed.

Lemma productos_de_proveedores_posteriores m limite azar (Q : Producto -> Prop) :
  (forall j i, azar_en_rango (azar j i)) ->
  forall proveedores j ultima creados avisos creados' avisos',
    productos_de_proveedores m limite azar proveedores j ultima creados avisos
    = (creados', avisos') ->
    ~ In ErrorAlCrear avisos' ->
    (forall pr f a, In pr proveedores -> prov_fecha_registro pr < f ->
                    Q (nuevo_producto pr f limite a)) ->
    Forall Q creados -> Forall Q creados'.
Proof.
  intros Hr. induction proveedores as [|pr resto IH];
    intros j ultima creados avisos c' av' E He HQ Hc; simpl in E.
  - now injection E as <- <-.
  - assert (HQ' : forall pr' f a, In pr' resto -> prov_fecha_registro pr' < f ->
                                  Q (nuevo_producto pr' f limite a))
      by (intros; apply HQ; [now right | assumption]).
    destruct (default 0 (m !! prov_id pr) =? 0); [eapply IH; eauto|].
    match type of E with
    | (if ?b then _ else _) = _ => destruct b
    end; [eapply IH; eauto|].
    match type of E with
    | context [productos_de_proveedor ?a1 ?a2 ?a3 ?a4 ?a5 ?a6 ?a7 ?a8] =>
        destruct (productos_de_proveedor a1 a2 a3 a4 a5 a6 a7 a8)
          as [[[det u1] c1] av1] eqn:Ei
    end.
    assert (He1 : ~ In ErrorAlCrear av1).
    { intros Hin. apply He. destruct det; [now injection E as <- <-|].
      eapply productos_de_proveedores_avisos; eauto. }
    assert (Hc1 : Forall Q c1).
    { eapply (productos_de_proveedor_posteriores pr limite (azar j) Q); eauto.
      intros f a Hf. apply HQ; [now left | assumption]. }
    destruct det; [now injection E as <- <- | eapply IH; eauto].
Qed.

Lemma insertar_por_In {A} (clave : A -> Z) x y l :
  In x (insertar_por clave y l) -> x = y \/ In x l.
Proof.
  induction l as [|z l IH]; simpl.
  - intros [<-|[]]. now left.
  - destruct (clave z <=? clave y); simpl; intros [<-|H]; auto.
    destruct (IH H); auto.
Qed.

Lemma ordenar_por_In {A} (clave : A -> Z) x l : In x (ordenar_por clave l) -> In x l.
Proof.
  unfold ordenar_por.
  assert (H : forall acc, In x (foldl (fun acc y => insertar_por clave y acc) acc l) ->
                          In x acc \/ In x l).
  { induction l as [|y l IH]; intros acc Hin; simpl in *; [now left|].
    destruct (IH _ Hin) as [H|H]; [|now right; right].
    apply insertar_por_In in H as [->|H]; auto. }
  intros Hin. destruct (H [] Hin) as [[]|]; assumption.
Qed.

(** *** One supplier gets the whole count *)

Lemma int_de_Q_proporcion_entera (d c : Z) :
  0 < d -> int_de_Q (inject_Z d / inject_Z d * inject_Z c) = c.
Proof.
  intros Hd. destruct d as [|p|p]; try lia.
  unfold int_de_Q, Qdiv, Qmult, Qinv, inject_Z. cbn [Qnum Qden].
  rewrite ?Pos.mul_1_r, ?Pos.mul_1_l, ?Z.mul_1_r.
  rewrite Z.mul_comm. apply Z.quot_mul. discriminate.
Qed.

Lemma suma_valores_singleton k v : suma_valores {[k := v]} = v.
Proof. unfold suma_valores. rewrite map_fold_singleton. lia. Qed.

Lemma distribuir_productos_un_proveedor count proveedor :
  1 <= count ->
  distribuir_productos count [proveedor] = {[prov_id proveedor := count]}.
Proof.
  intros Hc. unfold distribuir_productos. simpl length. simpl foldl.
  change (Z.of_nat 1) with 1.
  destruct (Z.leb_spec 1 count) as [_|]; [|lia].
  rewrite !insert_empty, map_fmap_singleton.
  assert (Hd : 0 < dias_disponibles proveedor) by (unfold dias_disponibles; lia).
  rewrite !suma_valores_singleton.
  destruct (Z.ltb_spec 0 (count - 1)) as [H1|H1].
  - destruct (Z.ltb_spec 0 (dias_disponibles proveedor)) as [_|]; [|lia].
    rewrite map_fold_singleton. unfold incrementar, asignacion_exacta.
    rewrite !lookup_singleton_eq. simpl default.
    rewrite int_de_Q_proporcion_entera by assumption.
    rewrite insert_singleton_eq, suma_valores_singleton.
    replace (1 + (count - 1)) with count by lia.
    rewrite Z.sub_diag. simpl. rewrite suma_valores_singleton, Z.sub_diag. reflexivity.
  - assert (count = 1) by lia. subst count.
    rewrite suma_valores_singleton. reflexivity.
Qed.

(** C7 (amended). In every run of [create_productos] with the draws in
    their ranges, [fecha_registro] is strictly increasing across the
    created products in creation order.  In every run in which no product
    creation raised, each created product was registered strictly after its
    supplier.  With one supplier registered at [T0] and [count = 3], when
    the date ceiling is not reached and no creation raised, exactly 3
    products are created, all registered strictly after [T0]. *)
Theorem reloj_global_de_productos count proveedores ahora azar creados avisos :
  create_productos count proveedores ahora azar = (creados, avisos) ->
  (forall j i, azar_en_rango (azar j i)) ->
  fechas_crecientes creados
  /\ (~ In ErrorAlCrear avisos ->
      Forall (posterior_a_su_proveedor proveedores) creados)
  /\ (forall proveedor,
        proveedores = [proveedor] -> count = 3 ->
        ~ In SinVentana avisos -> ~ In Detenida avisos -> ~ In ErrorAlCrear avisos ->
        length creados = 3%nat
        /\ Forall (fun p => prov_fecha_registro proveedor < prod_fecha_registro p)
             creados).
Proof.
  intros E Hr. unfold create_productos in E. split; [|split].
  - destruct (ordenar_por prov_fecha_registro proveedores) as [|primero resto].
    + injection E as <- <-. constructor.
    + eapply productos_de_proveedores_reloj; eauto. split; constructor.
  - intros He.
    destruct (ordenar_por prov_fecha_registro proveedores) as [|primero resto] eqn:Eo.
    + injection E as <- <-. constructor.
    + eapply productos_de_proveedores_posteriores; eauto.
      intros pr f a Hpr Hf. exists pr. repeat split; auto.
      rewrite <- Eo in Hpr. now apply ordenar_por_In in Hpr.
  - intros proveedor -> -> Hs Hd He.
    change (ordenar_por prov_fecha_registro [proveedor]) with [proveedor] in E.
    cbv beta iota zeta in E.
    rewrite distribuir_productos_un_proveedor in E by lia.
    cbn -[productos_de_proveedor Z.min Z.max Z.leb horas segundos] in E.
    rewrite lookup_singleton_eq in E.
    cbn -[productos_de_proveedor Z.min Z.max Z.leb horas segundos] in E.
    match type of E with
    | (if ?b then _ else _) = _ => destruct b
    end.
    { injection E as <- <-. exfalso. apply Hs. now left. }
    match type of E with
    | context [productos_de_proveedor ?a1 ?a2 ?a3 ?a4 ?a5 ?a6 ?a7 ?a8] =>
        destruct (productos_de_proveedor a1 a2 a3 a4 a5 a6 a7 a8)
          as [[[det u1] c1] av1] eqn:Ei
    end.
    assert (E' : (c1, av1) = (creados, avisos)) by (destruct det; exact E).
    injection E' as <- <-.
    destruct (productos_de_proveedor_cuenta _ _ _ _ _ _ _ _ _ _ _ _ Ei He Hd) as [_ Hl].
    split; [exact Hl|].
    eapply (productos_de_proveedor_posteriores proveedor _ _
              (fun p => prov_fecha_registro proveedor < prod_fecha_registro p));
      eauto.
Qed.

Import Ejemplo.

Lemma surjective_pairing_2 {A B} (x : A * B) : x = (fst x, snd x).
Proof. now destruct x. Defined.

Lemma reloj_global_de_productos_testigo :
  fechas_crecientes (fst (create_productos 3 [proveedor_a] ahora sin_errores))
  /\ length (fst (create_productos 3 [proveedor_a] ahora sin_errores)) = 3%nat
  /\ Forall (fun p => prov_fecha_registro proveedor_a < prod_fecha_registro p)
       (fst (create_productos 3 [proveedor_a] ahora sin_errores)).
Proof.
  destruct (reloj_global_de_productos 3 [proveedor_a] ahora sin_errores
              (fst (create_productos 3 [proveedor_a] ahora sin_errores))
              (snd (create_productos 3 [proveedor_a] ahora sin_errores))
              (surjective_pairing_2 _)) as (H1 & _ & H3).
  - intros j i. unfold azar_en_rango. simpl. lia.
  - split; [exact H1|].
    apply (H3 proveedor_a); try reflexivity; vm_compute; intuition discriminate.
Defined.

(** C7 (as stated) fails when the creation of a product raises: the second
    supplier's first product is lost, the clock stays behind the
    supplier's registration, and its next product is registered at the very
    date of the supplier.  And a single supplier with [count = 3] whose
    first product fails ends with 2 products, the ceiling not being
    reached. *)
Lemma producto_en_la_fecha_de_su_proveedor :
  (forall j i, azar_en_rango (falla_el_primero_de_b j i))
  /\ ~ Forall (posterior_a_su_proveedor [proveedor_a; proveedor_b])
        (fst (create_productos 4 [proveedor_a; proveedor_b] ahora
                falla_el_primero_de_b))
  /\ (length (fst (create_productos 3 [proveedor_a] ahora falla_el_primero)) = 2%nat
      /\ snd (create_productos 3 [proveedor_a] ahora falla_el_primero)
         = [ErrorAlCrear]).
Proof.
  split; [|split].
  - intros j i. unfold azar_en_rango, falla_el_primero_de_b. simpl. lia.
  - intros H.
    assert (E : fst (create_productos 4 [proveedor_a; proveedor_b] ahora
                       falla_el_primero_de_b) !! 2%nat
                = Some (nuevo_producto proveedor_b (prov_fecha_registro proveedor_b)
                          (Z.min Fechas.PRODUCTOS_END_DATE_LIMIT ahora)
                          (azar_producto false)))
      by (vm_compute; reflexivity).
    rewrite List.Forall_forall in H.
    destruct (H _ (proj1 (list_elem_of_In _ _) (list_elem_of_lookup_2 _ _ _ E)))
      as (pr & Hin & Hid & Hlt).
    simpl in Hin. destruct Hin as [<-|[<-|[]]].
    + discriminate Hid.
    + simpl in Hlt. lia.
  - split; vm_compute; reflexivity.
Qed.

End ProductosProps.

(** ** Stock: restock amounts, validation, debit and return *)

Module ExistenciasProps.

Import Existencias InventarioProps.

Lemma Qle_bool_false x y : Qle_bool x y = false -> (y < x)%Q.
Proof.
  intros H. apply Qnot_le_lt. intros Hle. apply Qle_bool_iff in Hle. congruence.
Qed.

Lemma determinar_cantidad_reposicion_rango n r :
  12 <= determinar_cantidad_reposicion n r <= 108.
Proof.
  unfold determinar_cantidad_reposicion.
  repeat match goal with |- context [if ?b then _ else _] => destruct b end; lia.
Qed.

(** X1. [determinar_cantidad_reposicion] gives between 12 and 108 units; a
    product of a higher popularity tier gets strictly more than any product
    of a lower tier, whatever their ranks; and within a tier a better rank
    (counted from 1) never gets less. *)
Theorem determinar_cantidad_reposicion_escalonada (n1 n2 : Q) (r1 r2 : Z) :
  12 <= determinar_cantidad_reposicion n1 r1 <= 108
  /\ ((n2 < 4)%Q /\ (4 <= n1)%Q \/ (n2 < 8)%Q /\ (8 <= n1)%Q ->
      determinar_cantidad_reposicion n2 r2 < determinar_cantidad_reposicion n1 r1)
  /\ (1 <= r1 <= r2 ->
      determinar_cantidad_reposicion n1 r2 <= determinar_cantidad_reposicion n1 r1).
Proof.
  split; [apply determinar_cantidad_reposicion_rango|].
  unfold determinar_cantidad_reposicion. split.
  - intros H.
    destruct (Qle_bool 8 n1) eqn:H81; destruct (Qle_bool 4 n1) eqn:H41;
      destruct (Qle_bool 8 n2) eqn:H82; destruct (Qle_bool 4 n2) eqn:H42;
      try apply Qle_bool_iff in H81; try apply Qle_bool_iff in H41;
      try apply Qle_bool_iff in H82; try apply Qle_bool_iff in H42;
      try apply Qle_bool_false in H81; try apply Qle_bool_false in H41;
      try apply Qle_bool_false in H82; try apply Qle_bool_false in H42;
      try (exfalso; destruct H as [[Ha Hb]|[Ha Hb]];
           unfold Qle, Qlt in *; simpl in *; lia);
      repeat match goal with |- context [if ?b then _ else _] => destruct b end; lia.
  - intros H.
    destruct (Z.eqb_spec r1 1); destruct (Z.eqb_spec r2 1);
      destruct (Z.leb_spec r1 4); destruct (Z.leb_spec r2 4);
      destruct (Z.leb_spec r1 3); destruct (Z.leb_spec r2 3);
      try lia;
      repeat match goal with |- context [if ?b then _ else _] => destruct b end; lia.
Qed.

Lemma insertar_desc_por_In {A} (clave : A -> Q) x y l :
  In y (insertar_desc_por clave x l) -> y = x \/ In y l.
Proof.
  induction l as [|z l IH]; simpl.
  - intros [<-|[]]. now left.
  - destruct (Qle_bool (clave x) (clave z)); simpl.
    + intros [<-|H]; [right; now left|]. destruct (IH H); auto.
    + intros [<-|H]; auto.
Qed.

Lemma ordenar_desc_por_In {A} (clave : A -> Q) x l :
  In x (ordenar_desc_por clave l) -> In x l.
Proof.
  unfold ordenar_desc_por.
  assert (G : forall acc, In x (foldl (fun acc y => insertar_desc_por clave y acc) acc l) ->
                          In x acc \/ In x l).
  { induction l as [|y l IH]; intros acc H; simpl in *; [now left|].
    destruct (IH _ H) as [H1|H1]; [|now right; right].
    destruct (insertar_desc_por_In _ _ _ _ H1) as [->|]; auto. }
  intros H. destruct (G [] H) as [[]|]; assumption.
Qed.

Lemma buscar_en_grupo_ausente producto_id idx grupo :
  (forall x, In x grupo -> prod_id (fst x) <> producto_id) ->
  buscar_en_grupo producto_id idx grupo = None.
Proof.
  revert idx. induction grupo as [|[p q] g IH]; intros idx H; simpl; [reflexivity|].
  destruct (Z.eqb_spec (prod_id p) producto_id) as [E|_].
  - exfalso. apply (H (p, q)); [now left | exact E].
  - apply IH. intros x Hx. apply H. now right.
Qed.

Lemma buscar_en_grupo_filtrado producto_id (f : Producto * Q -> bool) l :
  (forall x, In x l -> prod_id (fst x) <> producto_id) ->
  buscar_en_grupo producto_id 0 (ordenar_desc_por snd (List.filter f l)) = None.
Proof.
  intros H. apply buscar_en_grupo_ausente. intros x Hx.
  apply ordenar_desc_por_In, List.filter_In in Hx as [Hx _]. now apply H.
Qed.

(** A product that is not in the table, or is there but inactive, is in
    none of the three popularity groups. *)
Lemma calcular_cantidad_reposicion_ausente st consultas producto_id :
  claves_de_productos st ->
  (forall p, db_productos st !! producto_id = Some p -> prod_estado p = Inactivo) ->
  calcular_cantidad_reposicion st consultas producto_id = 24.
Proof.
  intros Hk Hp. unfold calcular_cantidad_reposicion.
  assert (H : forall x,
             In x (map (fun p => (p, calcular_popularidad (consultas (prod_id p))))
                     (List.filter es_activo (map_to_list (db_productos st)).*2)) ->
             prod_id (fst x) <> producto_id).
  { intros x Hx. apply List.in_map_iff in Hx as (p & <- & Hin). simpl.
    apply List.filter_In in Hin as [Hin Hact].
    apply list_elem_of_In, list_elem_of_fmap in Hin as ([k p'] & -> & Hin).
    apply elem_of_map_to_list in Hin. simpl in *.
    intros E. rewrite (Hk _ _ Hin) in E. subst k.
    specialize (Hp _ Hin). unfold es_activo in Hact. rewrite Hp in Hact. discriminate. }
  rewrite !buscar_en_grupo_filtrado by exact H. reflexivity.
Qed.

(** X2. [calcular_cantidad_reposicion] answers between 12 and 108 units, and
    exactly 24 for a product that is missing or inactive, whatever the
    sales, comments and carts say. *)
Theorem calcular_cantidad_reposicion_de_inactivo st consultas producto_id :
  claves_de_productos st ->
  12 <= calcular_cantidad_reposicion st consultas producto_id <= 108
  /\ ((forall p, db_productos st !! producto_id = Some p -> prod_estado p = Inactivo) ->
      calcular_cantidad_reposicion st consultas producto_id = 24).
Proof.
  intros Hk. split; [|now apply calcular_cantidad_reposicion_ausente].
  unfold calcular_cantidad_reposicion.
  repeat match goal with
         | |- context [match ?x with Some _ => _ | None => _ end] => destruct x
         | |- context [let '(_, _) := ?x in _] => destruct x
         end;
    first [apply determinar_cantidad_reposicion_rango | lia].
Qed.

(** When the stock is below the threshold and no restock of the product
    was recorded in the last 20 days, [verificar_reposicion_inventario]
    restocks: it adds the amount of [calcular_cantidad_reposicion] to both
    quantities, moves the row's update date strictly forward, records that
    date and leaves the product active. *)
Lemma verificar_reposicion_repone st inventario fecha env :
  cantidad_disponible inventario < UMBRAL_REPOSICION ->
  (forall u, ultimas_reposiciones st !! inv_producto_id inventario = Some u ->
             u + dias PERIODO_MINIMO_REPOSICION <= fecha) ->
  exists st' f,
    verificar_reposicion_inventario st inventario fecha env
    = (true, st',
       inventario_con
         (cantidad_mano inventario
          + calcular_cantidad_reposicion st (consultas env) (inv_producto_id inventario))
         (cantidad_disponible inventario
          + calcular_cantidad_reposicion st (consultas env) (inv_producto_id inventario))
         f inventario)
    /\ inv_fecha_actualizacion inventario < f
    /\ ultimas_reposiciones st' !! inv_producto_id inventario = Some f
    /\ db_inventarios st'
       = <[inv_producto_id inventario :=
             inventario_con
               (cantidad_mano inventario
                + calcular_cantidad_reposicion st (consultas env)
                    (inv_producto_id inventario))
               (cantidad_disponible inventario
                + calcular_cantidad_reposicion st (consultas env)
                    (inv_producto_id inventario))
               f inventario]> (db_inventarios st)
    /\ (forall p, db_productos st !! inv_producto_id inventario = Some p ->
        prod_id p = inv_producto_id inventario ->
        exists p', db_productos st' !! inv_producto_id inventario = Some p'
                   /\ prod_estado p' = Activo /\ prod_id p' = prod_id p).
Proof.
  intros Hu Hult. unfold verificar_reposicion_inventario.
  apply Z.ltb_lt in Hu. rewrite Hu.
  assert (He : match ultimas_reposiciones st !! inv_producto_id inventario with
               | Some ultima_reposicion =>
                   fecha <? ultima_reposicion + dias PERIODO_MINIMO_REPOSICION
               | None => false
               end = false).
  { destruct (ultimas_reposiciones st !! inv_producto_id inventario) as [u|];
      [|reflexivity]. apply Z.ltb_ge. now apply Hult. }
  rewrite He. cbv zeta.
  set (c := calcular_cantidad_reposicion st (consultas env) (inv_producto_id inventario)).
  set (fr := if PRODUCTOS_END_DATE_LIMIT <? fecha + dias (dias_reposicion env)
             then PRODUCTOS_END_DATE_LIMIT else fecha + dias (dias_reposicion env)).
  set (f := if fr <=? inv_fecha_actualizacion inventario
            then inv_fecha_actualizacion inventario
                 + segundos MIN_SECONDS_AFTER_PREVIOUS_UPDATE
            else fr).
  assert (Hf : inv_fecha_actualizacion inventario < f).
  { unfold f. destruct (Z.leb_spec fr (inv_fecha_actualizacion inventario));
      [unfold segundos, MIN_SECONDS_AFTER_PREVIOUS_UPDATE, USEC_POR_SEGUNDO; lia | lia]. }
  eexists _, f. split; [reflexivity|]. split; [exact Hf|].
  cbn [inv_producto_id inventario_con guardar_inventario con_inventarios
       con_ultimas_reposiciones db_productos ultimas_reposiciones db_inventarios].
  repeat split.
  - por_casos; cbn; apply lookup_insert_eq.
  - por_casos; reflexivity.
  - intros p Hp Hid. rewrite Hp.
    destruct (prod_estado p) eqn:Ep; cbn.
    + exists p. repeat split; assumption.
    + eexists. split.
      { unfold guardar_producto, producto_con_estado; cbn. rewrite Hid.
        apply lookup_insert_eq. }
      split; [reflexivity | cbn; congruence].
Qed.

(** X3. An order line that takes the whole stock of a product leaves it
    restocked with exactly 24 units and active again, provided no restock
    of the product was recorded in the last 20 days: the product is marked
    inactive before the restock amount is computed, and an inactive product
    has no popularity rank. *)
Theorem pedido_que_agota_repone_24 st d fecha env i p :
  claves_de_productos st ->
  db_inventarios st !! det_producto_id d = Some i ->
  inv_producto_id i = det_producto_id d ->
  db_productos st !! det_producto_id d = Some p ->
  det_cantidad d = cantidad_disponible i ->
  (forall u, ultimas_reposiciones st !! det_producto_id d = Some u ->
             u + dias PERIODO_MINIMO_REPOSICION <= fecha) ->
  exists i' st',
    actualizar_inventario_por_pedido st d fecha env = (true, Some i', st')
    /\ cantidad_disponible i' = 24
    /\ cantidad_mano i' = cantidad_mano i - det_cantidad d + 24
    /\ fecha < inv_fecha_actualizacion i'
    /\ db_inventarios st' !! det_producto_id d = Some i'
    /\ ultimas_reposiciones st' !! det_producto_id d = Some (inv_fecha_actualizacion i')
    /\ exists p', db_productos st' !! det_producto_id d = Some p'
                  /\ prod_estado p' = Activo.
Proof.
  intros Hk Hi Hid Hp Hq Hult. unfold actualizar_inventario_por_pedido.
  rewrite Hi. cbv zeta.
  destruct (Z.ltb_spec (cantidad_disponible i) (det_cantidad d)) as [|_]; [lia|].
  set (i1 := inventario_con (cantidad_mano i - det_cantidad d)
               (cantidad_disponible i - det_cantidad d) fecha i).
  assert (H0 : (cantidad_disponible i1 =? 0) = true) by (apply Z.eqb_eq; simpl; lia).
  rewrite H0.
  set (st1 := guardar_inventario i1 st).
  change (db_productos st1) with (db_productos st). rewrite Hp.
  set (st2 := if negb (estado_producto_eqb (prod_estado p) Inactivo)
              then guardar_producto (producto_con_estado Inactivo fecha p) st1
              else st1).
  assert (Hp2 : exists p2, db_productos st2 !! det_producto_id d = Some p2
                           /\ prod_estado p2 = Inactivo).
  { unfold st2. destruct (prod_estado p) eqn:Ep; cbn.
    - eexists. rewrite (Hk _ _ Hp). split; [apply lookup_insert_eq | reflexivity].
    - exists p. split; assumption. }
  assert (Hk2 : claves_de_productos st2).
  { unfold st2. destruct (prod_estado p); cbn; [|exact Hk].
    intros k q. cbn. rewrite (Hk _ _ Hp).
    destruct (decide (k = det_producto_id d)) as [->|Hne].
    - rewrite lookup_insert_eq. intros [= <-]. cbn. now apply Hk.
    - rewrite lookup_insert_ne by congruence. apply Hk. }
  assert (Hu2 : ultimas_reposiciones st2 = ultimas_reposiciones st).
  { unfold st2. destruct (negb _); reflexivity. }
  assert (Hi2 : db_inventarios st2 = <[det_producto_id d := i1]> (db_inventarios st)).
  { unfold st2. destruct (negb _); cbn; now rewrite Hid. }
  assert (Hid1 : inv_producto_id i1 = det_producto_id d) by exact Hid.
  destruct Hp2 as (p2 & Hp2 & Ep2).
  destruct (verificar_reposicion_repone st2 i1 fecha env)
    as (st3 & f & E & Hf & Hu3 & Hi3 & Hp3).
  { cbn. unfold UMBRAL_REPOSICION. lia. }
  { intros u. rewrite Hu2, Hid1. apply Hult. }
  rewrite Hid1 in E, Hu3, Hi3, Hp3.
  rewrite calcular_cantidad_reposicion_ausente in E, Hi3.
  2,4: exact Hk2.
  2,3: intros q Hq'; rewrite Hp2 in Hq'; now injection Hq' as <-.
  rewrite E. eexists _, st3. split; [reflexivity|].
  cbn. repeat split.
  - lia.
  - cbn in Hf. exact Hf.
  - rewrite Hi3. apply lookup_insert_eq.
  - exact Hu3.
  - destruct (Hp3 _ Hp2 (Hk2 _ _ Hp2)) as (p' & H1 & H2 & _). eauto.
Qed.

(** X4. A quantity accepted by [validar_disponibilidad_producto] is always
    debited by [actualizar_inventario_por_pedido], and the stock left is at
    least what [obtener_cantidad_disponible] reported minus the quantity. *)
Theorem validar_disponibilidad_garantiza_descuento st d fecha env :
  validar_disponibilidad_producto st (det_producto_id d) (det_cantidad d) = true ->
  exists i' st',
    actualizar_inventario_por_pedido st d fecha env = (true, Some i', st')
    /\ obtener_cantidad_disponible st (det_producto_id d) - det_cantidad d
       <= cantidad_disponible i'.
Proof.
  unfold validar_disponibilidad_producto, obtener_cantidad_disponible,
    actualizar_inventario_por_pedido.
  destruct (db_productos st !! det_producto_id d) as [p|]; [|discriminate].
  destruct (negb _); [discriminate|].
  destruct (db_inventarios st !! det_producto_id d) as [i|]; [|discriminate].
  destruct (cantidad_disponible i <? det_cantidad d); [discriminate|]. intros _.
  cbv zeta.
  match goal with
  | |- context [verificar_reposicion_inventario ?s ?j ?f ?e] =>
      destruct (verificar_reposicion_casos s j f e)
        as [[E _]|(st3 & c & f3 & E & Hc & _)]; rewrite E
  end.
  - eexists _, _. split; [reflexivity|]. simpl. lia.
  - eexists _, _. split; [reflexivity|]. simpl. lia.
Qed.

(** X5. Debit and return cancel out.  When the debit of a line leaves at least
    12 units, giving the same quantity back with
    [reponer_stock_tras_cancelacion] restores both quantities of the row;
    products, recorded restock dates and order lines are as before. *)
Theorem descuento_y_devolucion st d fecha fecha2 env i :
  db_inventarios st !! det_producto_id d = Some i ->
  inv_producto_id i = det_producto_id d ->
  UMBRAL_REPOSICION <= cantidad_disponible i - det_cantidad d ->
  0 <= det_cantidad d ->
  exists i1 st1 i2 st2,
    actualizar_inventario_por_pedido st d fecha env = (true, Some i1, st1)
    /\ reponer_stock_tras_cancelacion st1 (det_producto_id d) (det_cantidad d) fecha2
       = (true, Some i2, st2)
    /\ i2 = inventario_con (cantidad_mano i) (cantidad_disponible i) fecha2 i
    /\ db_inventarios st2 = <[det_producto_id d := i2]> (db_inventarios st)
    /\ db_productos st2 = db_productos st
    /\ ultimas_reposiciones st2 = ultimas_reposiciones st
    /\ db_detalles st2 = db_detalles st.
Proof.
  intros Hi Hid Hu Hq. unfold UMBRAL_REPOSICION in Hu.
  unfold actualizar_inventario_por_pedido. rewrite Hi. cbv zeta.
  destruct (Z.ltb_spec (cantidad_disponible i) (det_cantidad d)) as [|_]; [lia|].
  set (i1 := inventario_con (cantidad_mano i - det_cantidad d)
               (cantidad_disponible i - det_cantidad d) fecha i).
  assert (H0 : (cantidad_disponible i1 =? 0) = false) by (apply Z.eqb_neq; simpl; lia).
  rewrite H0.
  assert (Ev : verificar_reposicion_inventario (guardar_inventario i1 st) i1 fecha env
               = (false, guardar_inventario i1 st, i1)).
  { unfold verificar_reposicion_inventario.
    assert (H1 : (cantidad_disponible i1 <? UMBRAL_REPOSICION) = false)
      by (apply Z.ltb_ge; unfold UMBRAL_REPOSICION; simpl; lia).
    now rewrite H1. }
  rewrite Ev. exists i1, (guardar_inventario i1 st).
  assert (Hl : db_inventarios (guardar_inventario i1 st) !! det_producto_id d = Some i1).
  { unfold guardar_inventario. cbn [db_inventarios con_inventarios].
    change (inv_producto_id i1) with (inv_producto_id i).
    rewrite Hid. apply lookup_insert_eq. }
  unfold reponer_stock_tras_cancelacion. rewrite Hl. cbv zeta.
  assert (H2 : (cantidad_disponible i1 <=? 0) = false)
    by (apply Z.leb_gt; simpl; lia).
  rewrite H2. cbn [andb].
  eexists _, _. split; [reflexivity|]. split; [reflexivity|].
  assert (Hi2 : inventario_con (cantidad_mano i1 + det_cantidad d)
                  (cantidad_disponible i1 + det_cantidad d) fecha2 i1
                = inventario_con (cantidad_mano i) (cantidad_disponible i) fecha2 i).
  { unfold inventario_con. cbn. f_equal; lia. }
  rewrite Hi2. split; [reflexivity|]. split; [|repeat split].
  unfold guardar_inventario. cbn [db_inventarios con_inventarios inv_producto_id
                                  inventario_con].
  change (inv_producto_id i1) with (inv_producto_id i).
  rewrite Hid. apply insert_insert_eq.
Qed.

Lemma nuevo_inventario_inicial_fila p a :
  azar_inventario_en_rango a ->
  exists i, nuevo_inventario_inicial p a = inr i /\ inventario_inicial_de (p, a) i.
Proof.
  intros [Hc Hr]. unfold nuevo_inventario_inicial. cbv zeta.
  set (sup := Z.min (prod_fecha_registro p + segundos (segundos_cota a))
                PRODUCTOS_END_DATE_LIMIT).
  assert (Hs : sup <= prod_fecha_registro p + segundos 300).
  { unfold sup, segundos, USEC_POR_SEGUNDO. lia. }
  destruct (Z.ltb_spec sup (prod_fecha_registro p)) as [Hlt|Hge].
  - eexists. split; [reflexivity|]. unfold inventario_inicial_de. cbn.
    unfold segundos, USEC_POR_SEGUNDO. repeat split; lia.
  - unfold get_random_datetime_in_range.
    destruct (Z.leb_spec sup (prod_fecha_registro p)) as [Hle|Hgt].
    + unfold randint. cbn. eexists. split; [reflexivity|].
      unfold inventario_inicial_de. cbn.
      unfold segundos, USEC_POR_SEGUNDO in *. repeat split; lia.
    + assert (H0 : 0 <= (sup - prod_fecha_registro p) / USEC_POR_SEGUNDO)
        by (apply Z.div_pos; unfold USEC_POR_SEGUNDO; lia).
      rewrite FechasProps.randint_ok by exact H0.
      eexists. split; [reflexivity|]. unfold inventario_inicial_de. cbn.
      unfold segundos, USEC_POR_SEGUNDO in *. repeat split; lia.
Qed.

Lemma inventarios_iniciales_filas productos :
  Forall (fun pa => azar_inventario_en_rango (snd pa)) productos ->
  exists creados,
    inventarios_iniciales productos = inr creados
    /\ Forall2 inventario_inicial_de productos creados.
Proof.
  induction 1 as [|[p a] ps Ha _ (creados & E & IH)]; simpl.
  - exists []. split; [reflexivity | constructor].
  - destruct (nuevo_inventario_inicial_fila p a Ha) as (i & Ei & Hi).
    rewrite Ei, E. exists (i :: creados). split; [reflexivity|]. now constructor.
Qed.

Lemma insertar_inventarios_resultado nuevos tabla tabla' :
  insertar_inventarios nuevos tabla = Some tabla' ->
  (forall i, In i nuevos -> tabla' !! inv_producto_id i = Some i)
  /\ (forall k v, tabla !! k = Some v -> tabla' !! k = Some v).
Proof.
  revert tabla. induction nuevos as [|i ns IH]; intros tabla E; simpl in E.
  - injection E as <-. split; [intros i [] | auto].
  - destruct (tabla !! inv_producto_id i) eqn:Hl; [discriminate|].
    destruct (IH _ E) as [H1 H2]. split.
    + intros j [<-|Hj]; [|now apply H1]. apply H2, lookup_insert_eq.
    + intros k v Hk. apply H2. rewrite lookup_insert_ne; [exact Hk|].
      intros <-. congruence.
Qed.

Lemma insertar_inventarios_nuevos nuevos tabla :
  NoDup (map inv_producto_id nuevos) ->
  (forall i, In i nuevos -> tabla !! inv_producto_id i = None) ->
  exists tabla', insertar_inventarios nuevos tabla = Some tabla'.
Proof.
  revert tabla. induction nuevos as [|i ns IH]; intros tabla Hnd Hf; simpl.
  - eauto.
  - rewrite (Hf i) by now left. apply NoDup_cons in Hnd as [Hni Hnd].
    apply IH; [exact Hnd|]. intros j Hj. rewrite lookup_insert_ne.
    + apply Hf. now right.
    + intros E. apply Hni. rewrite E. apply list_elem_of_In, List.in_map, Hj.
Qed.

(** X6. With the draws in their ranges [create_inventario_inicial] never
    raises and returns one row per product, in order: 24 units on hand and
    available, registered between the product's registration and 300
    seconds later, and not updated since.  Rows already in the table are
    never touched; when the products are distinct and have no row yet,
    every returned row is in the table. *)
Theorem create_inventario_inicial_filas st productos :
  Forall (fun pa => azar_inventario_en_rango (snd pa)) productos ->
  exists creados st',
    create_inventario_inicial st productos = inr (creados, st')
    /\ Forall2 inventario_inicial_de productos creados
    /\ (forall k v, db_inventarios st !! k = Some v -> db_inventarios st' !! k = Some v)
    /\ (NoDup (map (fun pa => prod_id (fst pa)) productos) ->
        (forall pa, In pa productos -> db_inventarios st !! prod_id (fst pa) = None) ->
        forall i, In i creados -> db_inventarios st' !! inv_producto_id i = Some i).
Proof.
  intros Ha. destruct (inventarios_iniciales_filas productos Ha) as (creados & E & Hf).
  unfold create_inventario_inicial. rewrite E.
  assert (Hids : map inv_producto_id creados = map (fun pa => prod_id (fst pa)) productos).
  { clear E Ha. induction Hf as [|pa i ps cs [Hi _] _ IH]; simpl; [reflexivity|].
    now rewrite Hi, IH. }
  destruct (insertar_inventarios creados (db_inventarios st)) as [tabla|] eqn:Et.
  - destruct (insertar_inventarios_resultado _ _ _ Et) as [H1 H2].
    eexists _, _. split; [reflexivity|]. split; [exact Hf|]. split; [exact H2|].
    intros _ _. exact H1.
  - eexists _, _. split; [reflexivity|]. split; [exact Hf|]. split; [auto|].
    intros Hnd Hfresh. exfalso.
    destruct (insertar_inventarios_nuevos creados (db_inventarios st)) as [t Ht].
    + now rewrite Hids.
    + intros i Hi.
      assert (Hin : In (inv_producto_id i) (map (fun pa => prod_id (fst pa)) productos))
        by (rewrite <- Hids; now apply List.in_map).
      apply List.in_map_iff in Hin as (pa & <- & Hpa). now apply Hfresh.
    + congruence.
Qed.

Import Ejemplo Casos.

Lemma claves_de_tienda (inventarios : gmap Z Inventario) detalles reposiciones :
  claves_de_productos
    {| db_productos := {[ 1 := vela ]}; db_inventarios := inventarios;
       db_detalles := detalles; ultimas_reposiciones := reposiciones |}.
Proof.
  intros k p H. cbn in H. apply lookup_singleton_Some in H as [<- <-]. reflexivity.
Defined.

Lemma calcular_cantidad_reposicion_de_inactivo_testigo :
  calcular_cantidad_reposicion tienda_inicial sin_consultas 2 = 24.
Proof.
  apply (calcular_cantidad_reposicion_de_inactivo tienda_inicial sin_consultas 2).
  - apply claves_de_tienda.
  - intros p H. vm_compute in H. discriminate.
Defined.

Lemma pedido_que_agota_repone_24_testigo :
  exists i' st',
    actualizar_inventario_por_pedido tienda_baja (linea_de_velas 5) T1 (reposicion_en 1)
    = (true, Some i', st')
    /\ cantidad_disponible i' = 24 /\ cantidad_mano i' = 24.
Proof.
  destruct (pedido_que_agota_repone_24 tienda_baja (linea_de_velas 5) T1
              (reposicion_en 1) inventario_bajo vela)
    as (i' & st' & E & H1 & H2 & _).
  - apply claves_de_tienda.
  - reflexivity.
  - reflexivity.
  - reflexivity.
  - reflexivity.
  - intros u H. vm_compute in H. discriminate.
  - exists i', st'. split; [exact E|]. split; [exact H1|]. rewrite H2. reflexivity.
Defined.

Lemma validar_disponibilidad_garantiza_descuento_testigo :
  exists i' st',
    actualizar_inventario_por_pedido tienda_inicial (linea_de_velas 2) T1 (reposicion_en 1)
    = (true, Some i', st')
    /\ 22 <= cantidad_disponible i'.
Proof.
  destruct (validar_disponibilidad_garantiza_descuento tienda_inicial (linea_de_velas 2)
              T1 (reposicion_en 1))
    as (i' & st' & E & H).
  - reflexivity.
  - exists i', st'. split; [exact E | exact H].
Defined.

Lemma descuento_y_devolucion_testigo :
  exists i1 st1 i2 st2,
    actualizar_inventario_por_pedido tienda_inicial (linea_de_velas 2) T1 (reposicion_en 1)
    = (true, Some i1, st1)
    /\ reponer_stock_tras_cancelacion st1 1 2 (T1 + minutos 10) = (true, Some i2, st2)
    /\ cantidad_disponible i2 = 24 /\ cantidad_mano i2 = 24.
Proof.
  destruct (descuento_y_devolucion tienda_inicial (linea_de_velas 2) T1 (T1 + minutos 10)
              (reposicion_en 1) inventario_vela)
    as (i1 & st1 & i2 & st2 & E1 & E2 & H & _).
  - reflexivity.
  - reflexivity.
  - vm_compute. discriminate.
  - vm_compute. discriminate.
  - exists i1, st1, i2, st2. split; [exact E1|]. split; [exact E2|].
    rewrite H. split; reflexivity.
Defined.

Lemma create_inventario_inicial_filas_testigo :
  exists creados st',
    create_inventario_inicial tienda_sin_inventario [(vela, azar_inventario)]
    = inr (creados, st')
    /\ Forall2 inventario_inicial_de [(vela, azar_inventario)] creados.
Proof.
  destruct (create_inventario_inicial_filas tienda_sin_inventario
              [(vela, azar_inventario)])
    as (creados & st' & E & H & _).
  - constructor; [|constructor]. split; vm_compute; split; discriminate.
  - exists creados, st'. split; [exact E | exact H].
Defined.

End ExistenciasProps.

(** ** Dates: [get_random_datetime] and the next update date *)

Module UtilsDatetimeProps.

Import UtilsDatetime.

Section ZonaHoraria.

Variable timestamp : datetime -> Z.
Variable fromtimestamp : Z -> datetime.

(** X7. [generate_subsequent_update_datetime] raises [ValueError] when the
    least delta (the given one, or 1 if that is not positive) exceeds the
    greatest.  Otherwise it returns the previous date plus one second plus
    the delta drawn, cut at the ceiling (the override, or the end of the
    simulation): strictly after the previous date whenever that is before
    the ceiling, and the ceiling itself, hence not later, when it is not. *)
Theorem generate_subsequent_update_datetime_posterior
    (previous min_delta max_delta : Z) (max_date_override : option datetime) (draw : Z) :
  let piso := if 0 <? min_delta then min_delta else 1 in
  let tope := default SIMULATION_END_DATE max_date_override in
  (max_delta < piso ->
   generate_subsequent_update_datetime timestamp fromtimestamp previous min_delta
     max_delta max_date_override draw = inl ValueError)
  /\ (piso <= draw <= max_delta ->
      generate_subsequent_update_datetime timestamp fromtimestamp previous min_delta
        max_delta max_date_override draw
      = inr (Z.min (previous + segundos (1 + draw)) tope)
      /\ (previous < tope ->
          previous < Z.min (previous + segundos (1 + draw)) tope <= tope)
      /\ (tope <= previous -> Z.min (previous + segundos (1 + draw)) tope = tope)).
Proof.
  intros piso tope.
  unfold generate_subsequent_update_datetime, get_random_datetime.
  fold piso. cbn [default]. fold tope.
  rewrite bool_decide_eq_false_2 by discriminate. rewrite andb_false_r.
  unfold randint. split.
  - intros H. destruct (Z.leb_spec piso max_delta); [lia | reflexivity].
  - intros H. destruct (Z.leb_spec piso max_delta); [|lia].
    assert (Hp : 1 <= piso) by (unfold piso; destruct (Z.ltb_spec 0 min_delta); lia).
    unfold segundos, USEC_POR_SEGUNDO, id. repeat split; try (f_equal; lia); lia.
Qed.

(** The date of the refund step of the order life cycle is the general
    function at its default deltas, 60 and 7200 seconds. *)
Lemma generate_subsequent_update_datetime_por_defecto (previous draw : Z) :
  generate_subsequent_update_datetime timestamp fromtimestamp previous 60 (3600 * 2)
    None draw
  = inr (Fechas.generate_subsequent_update_datetime previous draw).
Proof.
  unfold generate_subsequent_update_datetime, get_random_datetime,
    Fechas.generate_subsequent_update_datetime, get_random_datetime_con_base.
  cbn [default]. rewrite bool_decide_eq_false_2 by discriminate.
  rewrite andb_false_r. reflexivity.
Qed.

(** X8. [get_random_datetime] with a base date and a draw within the deltas
    never returns a date after [max_date]; the date is at or after
    [min_date] when the bounds are in order, and is [max_date] itself when
    they are inverted.  Without a base date and with inverted bounds the
    date is [min_date] plus the seconds drawn, cut at the end of the
    simulation. *)
Theorem get_random_datetime_cotas (min_date : datetime) (max_date : option datetime)
    (base : option datetime) (min_delta max_delta draw : Z) :
  let tope := default SIMULATION_END_DATE max_date in
  (forall b, base = Some b -> min_delta <= draw <= max_delta ->
     exists r,
       get_random_datetime timestamp fromtimestamp min_date max_date base min_delta
         max_delta draw = inr r
       /\ r <= tope
       /\ (min_date <= tope -> min_date <= r)
       /\ (0 <= draw -> min_date <= tope -> Z.min (b + segundos draw) tope <= r)
       /\ (tope < min_date -> r = tope))
  /\ (base = None -> tope < min_date -> 1 <= draw ->
      get_random_datetime timestamp fromtimestamp min_date max_date base min_delta
        max_delta draw
      = inr (Z.min (min_date + segundos draw) SIMULATION_END_DATE)
      /\ (min_date < SIMULATION_END_DATE ->
          min_date < Z.min (min_date + segundos draw) SIMULATION_END_DATE)).
Proof.
  intros tope. unfold get_random_datetime. fold tope. split.
  - intros b -> Hd. rewrite bool_decide_eq_false_2 by discriminate.
    rewrite andb_false_r. rewrite FechasProps.randint_ok by lia.
    eexists. split; [reflexivity|]. unfold segundos, USEC_POR_SEGUNDO.
    repeat split; lia.
  - intros -> Ht Hd. rewrite bool_decide_eq_true_2 by reflexivity.
    apply Z.ltb_lt in Ht. rewrite Ht. cbn [andb].
    rewrite FechasProps.randint_ok
      by (destruct (Z.ltb_spec 0 max_delta); lia).
    split; [reflexivity|]. unfold segundos, USEC_POR_SEGUNDO. lia.
Qed.

End ZonaHoraria.

End UtilsDatetimeProps.

(** ** The simulated life cycle of an order *)

Module SimulacionProps.

Import Sorteos.






Import Ejemplo.



End SimulacionProps.

(** ** Purchase sessions *)

Module SesionesProps.

Import DetallesPedido Pedidos Sesiones Existencias.

Lemma insertar_por_perm {A} (clave : A -> Z) x l : insertar_por clave x l ≡ₚ x :: l.
Proof.
  induction l as [|y l IH]; simpl; [reflexivity|].
  destruct (clave y <=? clave x); [|reflexivity].
  rewrite IH. apply perm_swap.
Qed.

Lemma ordenar_por_perm {A} (clave : A -> Z) l : ordenar_por clave l ≡ₚ l.
Proof.
  unfold ordenar_por.
  assert (H : forall acc, foldl (fun acc x => insertar_por clave x acc) acc l ≡ₚ l ++ acc).
  { induction l as [|x l IH]; intros acc; simpl; [reflexivity|].
    rewrite IH, insertar_por_perm. symmetry. apply Permutation_middle. }
  rewrite H. now rewrite app_nil_r.
Qed.

Lemma insertar_por_ordenada {A} (clave : A -> Z) x l :
  Sorted (fun a b => clave a <= clave b) l ->
  Sorted (fun a b => clave a <= clave b) (insertar_por clave x l).
Proof.
  induction 1 as [|y l Hs IH Hhd]; simpl.
  - repeat constructor.
  - destruct (Z.leb_spec (clave y) (clave x)).
    + constructor; [exact IH|]. destruct l as [|z l]; simpl.
      * now constructor.
      * destruct (clave z <=? clave x); constructor;
          [inversion Hhd; assumption | assumption].
    + constructor; [now constructor|]. constructor. lia.
Qed.

Lemma ordenar_por_ordenada {A} (clave : A -> Z) l :
  Sorted (fun a b => clave a <= clave b) (ordenar_por clave l).
Proof.
  unfold ordenar_por.
  assert (H : forall acc,
             Sorted (fun a b => clave a <= clave b) acc ->
             Sorted (fun a b => clave a <= clave b)
               (foldl (fun acc x => insertar_por clave x acc) acc l)).
  { induction l as [|x l IH]; intros acc Ha; simpl; [assumption|].
    apply IH. now apply insertar_por_ordenada. }
  apply H. constructor.
Qed.

Lemma Sorted_sufijo {A} (R : A -> A -> Prop) g l : Sorted R (g ++ l) -> Sorted R l.
Proof.
  induction g as [|x g IH]; simpl; [auto|]. intros H. apply IH.
  now apply Sorted_inv in H as [H _].
Qed.

Lemma Sorted_ultimo {A} (R : A -> A -> Prop) g u c l :
  Sorted R (g ++ c :: l) -> last g = Some u -> R u c.
Proof.
  induction g as [|x g IH]; simpl; [discriminate|]. intros H Hl.
  apply Sorted_inv in H as [Hs Hh]. destruct g as [|y g].
  - injection Hl as <-. simpl in Hh. now inversion Hh.
  - apply IH; [exact Hs | exact Hl].
Qed.

Lemma Sorted_snoc {A} (R : A -> A -> Prop) g c :
  Sorted R g -> (forall u, last g = Some u -> R u c) -> Sorted R (g ++ [c]).
Proof.
  induction g as [|x g IH]; simpl; intros Hs Hl.
  - repeat constructor.
  - apply Sorted_inv in Hs as [Hs Hh]. constructor.
    + apply IH; [exact Hs|]. intros u Hu. apply Hl. destruct g; [discriminate | exact Hu].
    + destruct g as [|y g]; simpl.
      * constructor. now apply Hl.
      * inversion Hh; subst. now constructor.
Qed.

Lemma last_Some_no_vacia {A} (g : list A) u : last g = Some u -> g <> [].
Proof. intros H ->. discriminate. Qed.

Lemma partir_en_sesiones_paso g c resto :
  partir_en_sesiones g (c :: resto)
  = let '(cerradas, grupo_actual) :=
      match last g with
      | None => ([], [c])
      | Some ultimo_carrito =>
          if car_fecha_actualizacion c - car_fecha_actualizacion ultimo_carrito
             <=? minutos 15
          then ([], g ++ [c]) else ([g], [c])
      end in
    match resto with
    | [] => cerradas ++ [grupo_actual]
    | _ :: _ => cerradas ++ partir_en_sesiones grupo_actual resto
    end.
Proof. reflexivity. Qed.

(** The split of one user's rows, taken in date order, cuts the list into
    consecutive pieces, none empty, each piece a chain of rows at most 15
    minutes apart. *)
Lemma partir_en_sesiones_trozos resto :
  forall g c,
    Sorted (fun a b => car_fecha_actualizacion a <= car_fecha_actualizacion b)
      (g ++ c :: resto) ->
    Sorted seguidos g ->
    concat (partir_en_sesiones g (c :: resto)) = g ++ c :: resto
    /\ Forall (fun s => s <> [] /\ Sorted seguidos s) (partir_en_sesiones g (c :: resto)).
Proof.
  induction resto as [|c' resto IH]; intros g c Hs Hg; rewrite partir_en_sesiones_paso.
  - destruct (last g) as [u|] eqn:Hl.
    + destruct (Z.leb_spec (car_fecha_actualizacion c - car_fecha_actualizacion u)
                  (minutos 15)) as [Hle|Hgt]; simpl.
      * rewrite ?app_nil_r. split; [reflexivity|]. repeat constructor.
        -- intros E. destruct g; discriminate.
        -- apply Sorted_snoc; [exact Hg|]. intros u' Hu'.
           rewrite Hl in Hu'. injection Hu' as <-.
           pose proof (Sorted_ultimo _ _ _ _ _ Hs Hl) as Ho. simpl in Ho.
           unfold seguidos. lia.
      * rewrite ?app_nil_r. split; [reflexivity|].
        repeat constructor; try discriminate; try assumption.
        eapply last_Some_no_vacia; eauto.
    + apply last_None in Hl as ->. simpl.
      split; [reflexivity|]. repeat constructor. discriminate.
  - destruct (last g) as [u|] eqn:Hl.
    + destruct (Z.leb_spec (car_fecha_actualizacion c - car_fecha_actualizacion u)
                  (minutos 15)) as [Hle|Hgt].
      * rewrite app_nil_l.
        destruct (IH (g ++ [c]) c') as [H1 H2].
        -- now rewrite <- app_assoc.
        -- apply Sorted_snoc; [exact Hg|]. intros u' Hu'.
           rewrite Hl in Hu'. injection Hu' as <-.
           pose proof (Sorted_ultimo _ _ _ _ _ Hs Hl) as Ho. simpl in Ho.
           unfold seguidos. lia.
        -- split; [|exact H2]. rewrite H1. now rewrite <- app_assoc.
      * destruct (IH [c] c') as [H1 H2].
        -- apply (Sorted_sufijo _ g). exact Hs.
        -- repeat constructor.
        -- split.
           ++ rewrite concat_app, H1. simpl. now rewrite app_nil_r.
           ++ constructor; [|exact H2]. split; [|exact Hg].
              eapply last_Some_no_vacia; eauto.
    + apply last_None in Hl as ->. rewrite app_nil_l.
      destruct (IH [c] c') as [H1 H2]; [exact Hs | repeat constructor |].
      split; [exact H1 | exact H2].
Qed.

Lemma partir_en_sesiones_de_ordenados l :
  Sorted (fun a b => car_fecha_actualizacion a <= car_fecha_actualizacion b) l ->
  concat (partir_en_sesiones [] l) = l
  /\ Forall (fun s => s <> [] /\ Sorted seguidos s) (partir_en_sesiones [] l).
Proof.
  destruct l as [|c resto]; intros H.
  - split; [reflexivity | constructor].
  - apply (partir_en_sesiones_trozos resto [] c); [exact H | constructor].
Qed.

(** The dictionary by user holds every row once, each under its user. *)
Lemma anotar_carrito_reparto c d :
  Forall (fun g => Forall (fun x => car_usuario_id x = fst g) (snd g)) d ->
  concat (map snd (anotar_carrito c d)) ≡ₚ c :: concat (map snd d)
  /\ Forall (fun g => Forall (fun x => car_usuario_id x = fst g) (snd g))
       (anotar_carrito c d).
Proof.
  induction d as [|[u cs] d IH]; intros H; simpl.
  - split; [reflexivity|]. repeat constructor.
  - inversion H as [|? ? Hcs Hd]; subst. simpl in Hcs.
    destruct (Z.eqb_spec u (car_usuario_id c)) as [->|Hne]; simpl.
    + split.
      * rewrite <- app_assoc. simpl.
        rewrite <- Permutation_middle. reflexivity.
      * constructor; [|exact Hd]. simpl. apply Forall_app. split; [exact Hcs|].
        repeat constructor.
    + destruct (IH Hd) as [H1 H2]. split.
      * rewrite H1. symmetry. apply Permutation_middle.
      * constructor; assumption.
Qed.

Lemma agrupar_por_usuario_reparto carritos :
  concat (map snd (agrupar_por_usuario carritos)) ≡ₚ carritos
  /\ Forall (fun g => Forall (fun x => car_usuario_id x = fst g) (snd g))
       (agrupar_por_usuario carritos).
Proof.
  unfold agrupar_por_usuario.
  assert (H : forall l d,
             Forall (fun g => Forall (fun x => car_usuario_id x = fst g) (snd g)) d ->
             concat (map snd (foldl (fun d c => anotar_carrito c d) d l))
             ≡ₚ l ++ concat (map snd d)
             /\ Forall (fun g => Forall (fun x => car_usuario_id x = fst g) (snd g))
                  (foldl (fun d c => anotar_carrito c d) d l)).
  { induction l as [|c l IH]; intros d Hd; simpl; [now split|].
    destruct (anotar_carrito_reparto c d Hd) as [H1 H2].
    destruct (IH _ H2) as [H3 H4]. split; [|exact H4].
    rewrite H3, H1. symmetry. apply Permutation_middle. }
  destruct (H carritos [] ltac:(constructor)) as [H1 H2].
  split; [|exact H2]. rewrite H1. simpl. now rewrite app_nil_r.
Qed.

Lemma concat_perm {A} (l l' : list (list A)) : l ≡ₚ l' -> concat l ≡ₚ concat l'.
Proof.
  induction 1 as [|x l l' _ IH|x y l|l1 l2 l3 _ IH1 _ IH2]; simpl.
  - reflexivity.
  - now rewrite IH.
  - rewrite !app_assoc. f_equiv. apply Permutation_app_comm.
  - now rewrite IH1.
Qed.

(** The sessions of all users, before the final sort by date. *)
Lemma sesiones_por_usuario grupos :
  Forall (fun g => Forall (fun x => car_usuario_id x = fst g) (snd g)) grupos ->
  concat (concat (map (fun '(_, carritos_usuario) =>
                         partir_en_sesiones []
                           (ordenar_por car_fecha_actualizacion carritos_usuario))
                    grupos))
  ≡ₚ concat (map snd grupos)
  /\ Forall sesion_bien_formada
       (concat (map (fun '(_, carritos_usuario) =>
                       partir_en_sesiones []
                         (ordenar_por car_fecha_actualizacion carritos_usuario))
                  grupos)).
Proof.
  induction 1 as [|[u cs] grupos Hu _ [IH1 IH2]]; simpl.
  - split; [reflexivity | constructor].
  - destruct (partir_en_sesiones_de_ordenados (ordenar_por car_fecha_actualizacion cs))
      as [H1 H2]; [apply ordenar_por_ordenada|].
    split.
    + rewrite concat_app, H1, IH1. f_equiv. apply ordenar_por_perm.
    + apply Forall_app. split; [|exact IH2].
      rewrite List.Forall_forall in H2 |- *. intros s Hs.
      destruct (H2 s Hs) as [Hne Hsg]. split; [exact Hne|]. split; [|exact Hsg].
      exists u. rewrite List.Forall_forall. intros c Hc.
      assert (Hin : In c (ordenar_por car_fecha_actualizacion cs)).
      { rewrite <- H1. apply in_concat. eauto. }
      apply (Permutation_in _ (ordenar_por_perm _ _)) in Hin.
      simpl in Hu. rewrite List.Forall_forall in Hu. now apply Hu.
Qed.

Lemma sesiones_compra_reparto carritos :
  concat (sesiones_compra carritos) ≡ₚ carritos
  /\ Forall sesion_bien_formada (sesiones_compra carritos).
Proof.
  unfold sesiones_compra.
  destruct (agrupar_por_usuario_reparto (ordenar_por car_fecha_actualizacion carritos))
    as [H1 H2].
  destruct (sesiones_por_usuario _ H2) as [H3 H4].
  split.
  - rewrite (concat_perm _ _ (ordenar_por_perm _ _)), H3, H1. apply ordenar_por_perm.
  - eapply Permutation_Forall; [|exact H4]. symmetry. apply ordenar_por_perm.
Qed.

(** X11. [sesiones_compra] cuts the cart rows into sessions without losing or
    repeating a row; every session has at least one row, a single user and
    consecutive rows at most 15 minutes apart in date order; and the
    sessions come out ordered by the date of their latest row. *)
Theorem sesiones_compra_particion carritos :
  concat (sesiones_compra carritos) ≡ₚ carritos
  /\ Forall sesion_bien_formada (sesiones_compra carritos)
  /\ Sorted (fun s1 s2 => fecha_maxima s1 <= fecha_maxima s2)
       (sesiones_compra carritos).
Proof.
  destruct (sesiones_compra_reparto carritos) as [H1 H2].
  split; [exact H1|]. split; [exact H2|].
  unfold sesiones_compra. apply ordenar_por_ordenada.
Qed.

Lemma NoDup_en_concat {A} (s : list A) (ss : list (list A)) :
  In s ss -> NoDup (concat ss) -> NoDup s.
Proof.
  intros Hin Hnd. apply in_split in Hin as (l1 & l2 & ->).
  rewrite concat_app in Hnd. simpl in Hnd.
  apply NoDup_app in Hnd as (_ & _ & Hnd). now apply NoDup_app in Hnd as (Hnd & _).
Qed.

Lemma NoDup_map_concat {A B} (f : A -> B) (s : list A) (ss : list (list A)) :
  In s ss -> NoDup (map f (concat ss)) -> NoDup (map f s).
Proof.
  intros Hin Hnd. apply (NoDup_en_concat _ (map (map f) ss)).
  - now apply List.in_map.
  - now rewrite <- concat_map.
Qed.

Lemma NoDup_de_un_usuario u (s : list Carrito) :
  Forall (fun c => car_usuario_id c = u) s ->
  NoDup (map (fun c => (car_usuario_id c, car_producto_id c)) s) ->
  NoDup (map car_producto_id s).
Proof.
  induction 1 as [|c s Hc Hs IH]; simpl; intros Hnd; [constructor|].
  apply NoDup_cons in Hnd as [Hno Hnd]. apply NoDup_cons. split; [|now apply IH].
  intros Hin. apply Hno. apply list_elem_of_In in Hin. apply list_elem_of_In.
  apply List.in_map_iff in Hin as (c' & E & Hc').
  apply List.in_map_iff. exists c'. split; [|exact Hc'].
  rewrite List.Forall_forall in Hs. rewrite (Hs c' Hc'), Hc, E. reflexivity.
Qed.

Lemma armar_detalles_productos st pedido fecha s :
  claves_de_productos st ->
  forall d, In d (armar_detalles st pedido fecha s) ->
    det_pedido_id d = ped_id pedido
    /\ exists c, In c s /\ det_producto_id d = car_producto_id c.
Proof.
  intros Hk d Hin. unfold armar_detalles in Hin.
  apply list_elem_of_In, list_elem_of_omap in Hin as (c & Hc & E).
  apply list_elem_of_In in Hc. unfold detalle_de_carrito in E.
  destruct (db_productos st !! car_producto_id c) as [p|] eqn:Hp; [|discriminate].
  destruct (fecha <? prod_fecha_registro p); [discriminate|].
  destruct (db_inventarios st !! prod_id p) as [i|]; [|discriminate].
  destruct (cantidad_disponible i <=? 0); [discriminate|].
  injection E as <-. cbn. split; [reflexivity|]. exists c. split; [exact Hc|].
  now apply Hk.
Qed.

Lemma armar_detalles_sin_repetir st pedido fecha s :
  claves_de_productos st ->
  NoDup (map car_producto_id s) ->
  NoDup (map det_producto_id (armar_detalles st pedido fecha s)).
Proof.
  intros Hk. induction s as [|c s IH]; simpl; intros Hnd; [constructor|].
  apply NoDup_cons in Hnd as [Hno Hnd]. specialize (IH Hnd).
  unfold armar_detalles in *. simpl.
  destruct (detalle_de_carrito st pedido fecha c) as [d|] eqn:E; [|exact IH].
  simpl. apply NoDup_cons. split; [|exact IH].
  intros Hin. apply Hno. apply list_elem_of_In in Hin. apply list_elem_of_In.
  apply List.in_map_iff in Hin as (d' & E' & Hd').
  destruct (armar_detalles_productos st pedido fecha s Hk d' Hd') as (_ & c' & Hc' & E2).
  destruct (armar_detalles_productos st pedido fecha [c] Hk d) as (_ & c0 & Hc0 & E3).
  { unfold armar_detalles. simpl. rewrite E. now left. }
  destruct Hc0 as [<-|[]].
  rewrite <- E3, <- E', E2. now apply List.in_map.
Qed.

(** X12. While the cart table keeps its unique key (one row per user and
    product), no session holds two rows of one product, so the lines
    [create_detalles_for_pedido] builds from a session all belong to the
    order and name pairwise different products: flushing them cannot break
    the unique key (order, product) of the order lines. *)
Theorem lineas_de_sesion_sin_repetir st pedido fecha carritos s :
  claves_de_productos st ->
  uq_usuario_producto carritos ->
  In s (sesiones_compra carritos) ->
  NoDup (map car_producto_id s)
  /\ uq_pedido_producto (armar_detalles st pedido fecha s)
  /\ Forall (fun d => det_pedido_id d = ped_id pedido
                      /\ In (det_producto_id d) (map car_producto_id s))
       (armar_detalles st pedido fecha s).
Proof.
  intros Hk Huq Hin. destruct (sesiones_compra_reparto carritos) as [Hp Hbf].
  assert (Hs : NoDup (map car_producto_id s)).
  { rewrite List.Forall_forall in Hbf. destruct (Hbf s Hin) as (_ & [u Hu] & _).
    apply (NoDup_de_un_usuario u); [exact Hu|].
    apply (NoDup_map_concat _ _ _ Hin).
    unfold uq_usuario_producto in Huq. now rewrite Hp. }
  assert (Hd : NoDup (map det_producto_id (armar_detalles st pedido fecha s)))
    by now apply armar_detalles_sin_repetir.
  assert (Hf : Forall (fun d => det_pedido_id d = ped_id pedido
                                /\ In (det_producto_id d) (map car_producto_id s))
                 (armar_detalles st pedido fecha s)).
  { rewrite List.Forall_forall. intros d Hdin.
    destruct (armar_detalles_productos st pedido fecha s Hk d Hdin) as (H1 & c & Hc & E).
    split; [exact H1|]. rewrite E. now apply List.in_map. }
  split; [exact Hs|]. split; [|exact Hf].
  unfold uq_pedido_producto.
  assert (E : map (fun d => (det_pedido_id d, det_producto_id d))
                (armar_detalles st pedido fecha s)
              = map (fun x => (ped_id pedido, x))
                  (map det_producto_id (armar_detalles st pedido fecha s))).
  { rewrite List.map_map. apply List.map_ext_in. intros d Hdin.
    rewrite List.Forall_forall in Hf. now rewrite (proj1 (Hf d Hdin)). }
  rewrite E. apply (NoDup_fmap_2 (fun x => (ped_id pedido, x))). exact Hd.
Qed.

(** *** The main loop: outcomes and orders *)





(** *** Discounts are used once *)

Lemma descuento_no_usado t usuario_id d :
  descuento_usado t usuario_id d = false ->
  ~ In (usuario_id, desc_id d) (usos (historial_descuentos t)).
Proof.
  unfold descuento_usado, usos. intros H Hin.
  apply List.in_map_iff in Hin as (h & Eh & Hh). injection Eh as E1 E2.
  assert (Ht : existsb (fun h => (hist_usuario_id h =? usuario_id)
                                 && (hist_descuento_id h =? desc_id d))
                 (historial_descuentos t) = true).
  { apply existsb_exists. exists h. split; [exact Hh|].
    rewrite E1, E2, !Z.eqb_refl. reflexivity. }
  congruence.
Qed.

Lemma elegir_descuento_no_usado t descs usuario_id fecha a d :
  elegir_descuento t descs usuario_id fecha a = Some d ->
  ~ In (usuario_id, desc_id d) (usos (historial_descuentos t)).
Proof.
  unfold elegir_descuento. intros H. apply descuento_no_usado.
  match type of H with
  | match ?l with [] => _ | _ :: _ => _ end = _ =>
      assert (Hin : In d l);
      [destruct l; [discriminate|];
       destruct (Qlt_bool (u_descuento a) (umbral_descuento a)); [|discriminate];
       now apply PedidosProps.random_choice_In in H|]
  end.
  apply List.filter_In in Hin as [_ Hn]. now apply negb_true_iff in Hn.
Qed.

Lemma intentar_pedido_usos t descs grupo a r t' :
  intentar_pedido t descs grupo a = (r, t') ->
  NoDup (usos (historial_descuentos t)) -> NoDup (usos (historial_descuentos t')).
Proof.
  unfold intentar_pedido. intros E Hnd.
  assert (Hnada : forall t0 : Tienda,
             historial_descuentos t0 = historial_descuentos t ->
             (None, t0) = (r, t') -> NoDup (usos (historial_descuentos t'))).
  { intros t0 H0 [= <- <-]. now rewrite H0. }
  destruct grupo as [|primer_carrito resto]; [now apply (Hnada t)|].
  destruct (last (primer_carrito :: resto)) as [ultimo_carrito|];
    [|now apply (Hnada t)].
  destruct (usuarios t !! car_usuario_id primer_carrito) as [fu|];
    [|now apply (Hnada t)].
  match type of E with
  | (if ?b then _ else _) = _ => destruct b; [now apply (Hnada t)|]
  end.
  match type of E with
  | match ?x with Some _ => _ | None => _ end = _ =>
      destruct x as [[loc t1]|] eqn:El; [|now apply (Hnada t)]
  end.
  apply PedidosProps.create_localizacion_historial in El.
  match type of E with
  | (if ?b then _ else _) = _ => destruct b; [now apply (Hnada t)|]
  end.
  match type of E with
  | match ?x with inl _ => _ | inr _ => _ end = _ =>
      destruct x as [e|fecha] eqn:Ef; [now apply (Hnada t)|]
  end.
  destruct (error_envio a); [now apply (Hnada t)|].
  match type of E with
  | context [create_detalles_for_pedido ?s ?p ?g ?f ?z] =>
      destruct (create_detalles_for_pedido s p g f z) as [[costo p1] e1] eqn:Ed
  end.
  destruct (Qeq_bool costo 0); [now apply (Hnada (rollback t e1))|].
  destruct (error_commit a); [now apply (Hnada (rollback t e1))|].
  injection E as <- <-. simpl.
  destruct (elegir_descuento t1 descs (car_usuario_id primer_carrito) fecha a)
    as [d|] eqn:Ee.
  - apply elegir_descuento_no_usado in Ee. rewrite El in Ee |- *.
    unfold usos in *. rewrite map_app. simpl.
    apply NoDup_app. split; [exact Hnd|]. split.
    + intros x Hx Hx'. apply list_elem_of_In in Hx.
      apply list_elem_of_In in Hx'. destruct Hx' as [<-|[]]. contradiction.
    + apply NoDup_singleton.
  - now rewrite El.
Qed.

Lemma bucle_sesiones_usos descs total objetivo azar sesiones :
  forall n k creados t l s t',
    bucle_sesiones descs total objetivo azar sesiones n k creados t = (l, s, t') ->
    NoDup (usos (historial_descuentos t)) -> NoDup (usos (historial_descuentos t')).
Proof.
  induction sesiones as [|g resto IH]; intros n k creados t l s t' E Hnd; simpl in E.
  - now injection E as <- <- <-.
  - destruct (objetivo - Z.of_nat (length creados) <=? 0);
      [now injection E as <- <- <-|].
    destruct (azar n) as [u a].
    match type of E with
    | context [Qlt_bool ?p u] => destruct (Qlt_bool p u)
    end.
    + destruct (bucle_sesiones descs total objetivo azar resto (S n) (k + 1) creados t)
        as [[l1 s1] t1] eqn:Eb.
      injection E as <- <- <-. eapply IH; eauto.
    + destruct (intentar_pedido t descs g a) as [r t1] eqn:Ei.
      apply intentar_pedido_usos in Ei; [|exact Hnd].
      destruct r as [r|].
      * destruct (bucle_sesiones descs total objetivo azar resto (S n) (k + 1)
                    (creados ++ [r]) t1) as [[l1 s1] t2] eqn:Eb.
        injection E as <- <- <-. eapply IH; eauto.
      * destruct (bucle_sesiones descs total objetivo azar resto (S n) (k + 1)
                    creados t1) as [[l1 s1] t2] eqn:Eb.
        injection E as <- <- <-. eapply IH; eauto.
Qed.

(** X14. No user uses a discount twice: if the recorded uses hold no pair
    (user, discount) twice before [create_pedidos], they hold none twice
    after it, whatever the draws. *)
Theorem descuento_una_vez_por_usuario t descs carritos pct azar :
  NoDup (usos (historial_descuentos t)) ->
  NoDup (usos (historial_descuentos (snd (create_pedidos t descs carritos pct azar)))).
Proof.
  intros Hnd. unfold create_pedidos. destruct carritos as [|c cs]; [exact Hnd|].
  match goal with
  | |- context [bucle_sesiones ?d ?tot ?o ?z ?s ?n ?k ?cr ?t0] =>
      destruct (bucle_sesiones d tot o z s n k cr t0) as [[l s'] t1] eqn:E
  end.
  simpl. eapply bucle_sesiones_usos; eauto.
Qed.

Import Ejemplo.

Lemma descuento_una_vez_por_usuario_testigo :
  NoDup (usos (historial_descuentos (snd corrida))).
Proof.
  apply (descuento_una_vez_por_usuario tienda_con_clientes [promocion] tres_carritos
           (4 # 10) azar_sesiones).
  constructor.
Defined.


Lemma lineas_de_sesion_sin_repetir_testigo :
  uq_pedido_producto (armar_detalles tienda_inicial pedido_pendiente T1 [carrito_de 3 60]).
Proof.
  refine (proj1 (proj2 (lineas_de_sesion_sin_repetir tienda_inicial pedido_pendiente T1
                          tres_carritos [carrito_de 3 60] _ _ _))).
  - exact (ExistenciasProps.claves_de_tienda _ _ _).
  - apply (bool_decide_unpack _). vm_compute. exact I.
  - vm_compute. auto.
Defined.

End SesionesProps.

(** ** Delivery locations and created orders *)

Module PedidosCreadosProps.

Import Pedidos PedidosDeSesion.

(** [get_random_datetime_in_range] always answers [min_date] plus the
    seconds drawn: both [randint] ranges are non-empty, so the fallback is
    never taken. *)
Lemma get_random_datetime_in_range_valor min_date max_date r respaldo :
  get_random_datetime_in_range min_date max_date r respaldo
  = inr (min_date + segundos r).
Proof.
  unfold get_random_datetime_in_range.
  destruct (Z.leb_spec max_date min_date).
  - now rewrite FechasProps.randint_ok by lia.
  - rewrite FechasProps.randint_ok; [reflexivity|].
    apply Z.div_pos; unfold USEC_POR_SEGUNDO; lia.
Qed.

Lemma ultima_localizacion_cota t usuario_id f :
  ultima_localizacion t usuario_id = Some f ->
  forall l, In l (localizaciones t) -> loc_usuario_id l = usuario_id ->
            loc_fecha_registro l <= f.
Proof.
  unfold ultima_localizacion. intros H l Hl Hu.
  assert (Hin : In l (List.filter (fun l => loc_usuario_id l =? usuario_id)
                        (localizaciones t))).
  { apply List.filter_In. split; [exact Hl|]. now apply Z.eqb_eq. }
  destruct (List.filter _ _) as [|l0 ls]; [discriminate|]. injection H as <-.
  assert (G : forall ls m, (loc_fecha_registro l <= m \/ In l ls) ->
                loc_fecha_registro l
                <= foldl (fun m l' => Z.max m (loc_fecha_registro l')) m ls).
  { clear. induction ls as [|x ls IH]; intros m [H|H]; simpl.
    - exact H.
    - destruct H.
    - apply IH. left. lia.
    - apply IH. destruct H as [<-|H]; [left; lia | now right]. }
  apply G. destruct Hin as [<-|Hin]; [left; lia | now right].
Qed.

Lemma ultima_localizacion_ninguna t usuario_id :
  ultima_localizacion t usuario_id = None ->
  forall l, In l (localizaciones t) -> loc_usuario_id l <> usuario_id.
Proof.
  unfold ultima_localizacion. intros H l Hl Hu.
  assert (Hin : In l (List.filter (fun l => loc_usuario_id l =? usuario_id)
                        (localizaciones t))).
  { apply List.filter_In. split; [exact Hl|]. now apply Z.eqb_eq. }
  destruct (List.filter _ _); [destruct Hin | discriminate].
Qed.

(** X15. A location created by [create_localizacion_for_user] belongs to the
    user, is appended to the table and touches nothing else, and is dated
    strictly after every earlier location of that user; it is dated at or
    after [fecha_minima] when one is given, and otherwise at least one day
    after the user's registration. *)
Theorem create_localizacion_posterior t usuario_id fecha_usuario max_allowable_date
    fecha_minima a l t' :
  0 <= al_random_seconds a ->
  create_localizacion_for_user t usuario_id fecha_usuario max_allowable_date
    fecha_minima a = Some (l, t') ->
  loc_usuario_id l = usuario_id
  /\ t' = con_localizaciones (localizaciones t ++ [l]) t
  /\ (forall l0, In l0 (localizaciones t) -> loc_usuario_id l0 = usuario_id ->
                 loc_fecha_registro l0 < loc_fecha_registro l)
  /\ match fecha_minima with
     | Some m => m <= loc_fecha_registro l
     | None => fecha_usuario + dias 1 <= loc_fecha_registro l
     end.
Proof.
  intros Hr. unfold create_localizacion_for_user. cbv zeta.
  rewrite get_random_datetime_in_range_valor.
  match goal with
  | |- context [max_allowable_date <? ?m] => set (minimo := m)
  end.
  destruct (max_allowable_date <? minimo); [discriminate|].
  destruct (al_error a); [discriminate|]. intros [= <- <-]. cbn.
  assert (Hs : 0 <= segundos (al_random_seconds a))
    by (unfold segundos, USEC_POR_SEGUNDO; lia).
  split; [reflexivity|]. split; [reflexivity|].
  destruct (ultima_localizacion t usuario_id) as [f|] eqn:Hu.
  - pose proof (ultima_localizacion_cota _ _ _ Hu) as Hc.
    assert (Hm : f < minimo
                 /\ match fecha_minima with
                    | Some m => m <= minimo
                    | None => fecha_usuario + dias 1 <= minimo
                    end).
    { unfold minimo. destruct fecha_minima as [m|].
      - destruct (Z.leb_spec m f); unfold segundos, USEC_POR_SEGUNDO; lia.
      - unfold dias, horas, minutos, segundos, USEC_POR_SEGUNDO. lia. }
    destruct Hm as [Hm1 Hm2]. split.
    + intros l0 Hl0 Hu0. specialize (Hc l0 Hl0 Hu0). lia.
    + destruct fecha_minima; lia.
  - pose proof (ultima_localizacion_ninguna _ _ Hu) as Hc. split.
    + intros l0 Hl0 Hu0. now destruct (Hc l0 Hl0).
    + unfold minimo. destruct fecha_minima; lia.
Qed.

Lemma create_localizacion_minima t usuario_id fecha_usuario maxima m a l t' :
  0 <= al_random_seconds a ->
  create_localizacion_for_user t usuario_id fecha_usuario maxima (Some m) a
  = Some (l, t') ->
  m <= loc_fecha_registro l /\ usuarios t' = usuarios t.
Proof.
  intros Hr. unfold create_localizacion_for_user. cbv zeta.
  rewrite get_random_datetime_in_range_valor.
  match goal with
  | |- context [maxima <? ?x] => set (minimo := x)
  end.
  destruct (maxima <? minimo); [discriminate|].
  destruct (al_error a); [discriminate|]. intros [= <- <-]. cbn.
  split; [|reflexivity].
  assert (Hm : m <= minimo).
  { unfold minimo. destruct (ultima_localizacion t usuario_id) as [f|]; [|lia].
    destruct (Z.leb_spec m f); unfold segundos, USEC_POR_SEGUNDO; lia. }
  unfold segundos, USEC_POR_SEGUNDO. lia.
Qed.

Lemma intentar_pedido_coherente t descs grupo a r t' :
  segundos_no_negativos a ->
  intentar_pedido t descs grupo a = (r, t') ->
  usuarios t' = usuarios t
  /\ (forall r', r = Some r' -> pedido_de_sesion (usuarios t) grupo a r').
Proof.
  intros [Hr1 Hr2]. unfold intentar_pedido. intros E.
  assert (Hnada : forall t0 : Tienda,
             usuarios t0 = usuarios t ->
             (None, t0) = (r, t') ->
             usuarios t' = usuarios t
             /\ (forall r', r = Some r' -> pedido_de_sesion (usuarios t) grupo a r')).
  { intros t0 H0 [= <- <-]. split; [exact H0 | discriminate]. }
  destruct grupo as [|primer_carrito resto]; [now apply (Hnada t)|].
  destruct (last (primer_carrito :: resto)) as [ultimo_carrito|] eqn:Hl;
    [|now apply (Hnada t)].
  destruct (usuarios t !! car_usuario_id primer_carrito) as [fu|] eqn:Hu;
    [|now apply (Hnada t)].
  match type of E with
  | (if ?b then _ else _) = _ => destruct b; [now apply (Hnada t)|]
  end.
  match type of E with
  | match ?x with Some _ => _ | None => _ end = _ =>
      destruct x as [[loc t1]|] eqn:El; [|now apply (Hnada t)]
  end.
  apply create_localizacion_minima in El as [Hloc Hus]; [|exact Hr1].
  match type of E with
  | (if ?b then _ else _) = _ => destruct b; [now apply (Hnada t)|]
  end.
  rewrite get_random_datetime_in_range_valor in E.
  destruct (error_envio a); [now apply (Hnada t)|].
  match type of E with
  | context [create_detalles_for_pedido ?s ?p ?g ?f ?z] =>
      destruct (create_detalles_for_pedido s p g f z) as [[costo p1] e1] eqn:Ed
  end.
  pose proof (PedidosProps.create_detalles_for_pedido_campo ped_usuario_id
                (fun _ _ _ => eq_refl) _ _ _ _ _ _ _ _ Ed) as Eu.
  apply (PedidosProps.create_detalles_for_pedido_campo ped_fecha_registro
           (fun _ _ _ => eq_refl)) in Ed.
  simpl in Ed, Eu.
  destruct (Qeq_bool costo 0) eqn:Hq; [now apply (Hnada (rollback t e1))|].
  destruct (error_commit a); [now apply (Hnada (rollback t e1))|].
  injection E as <- <-. split; [exact Hus|].
  intros r' [= <-]. exists primer_carrito, ultimo_carrito. cbn.
  rewrite Eu, Ed. clear Hnada.
  repeat split;
    first [ exact Hl
          | now rewrite Hu
          | unfold minutos, segundos, USEC_POR_SEGUNDO in *; lia
          | now apply Qeq_bool_neq
          | destruct (elegir_descuento _ _ _ _ _); reflexivity ].
Qed.

Lemma bucle_sesiones_coherente descs total objetivo azar todas registrados sesiones :
  (forall n, segundos_no_negativos (snd (azar n))) ->
  (forall g, In g sesiones -> In g todas) ->
  forall n k creados t l s t',
    bucle_sesiones descs total objetivo azar sesiones n k creados t = (l, s, t') ->
    usuarios t = registrados ->
    Forall (fun r => exists g m, In g todas
                                 /\ pedido_de_sesion registrados g (snd (azar m)) r)
      creados ->
    Forall (fun r => exists g m, In g todas
                                 /\ pedido_de_sesion registrados g (snd (azar m)) r) l.
Proof.
  intros Ha. induction sesiones as [|g resto IH];
    intros Hs n k creados t l s t' E Ht Hc; simpl in E.
  - now injection E as <- <- <-.
  - assert (Hs' : forall g', In g' resto -> In g' todas)
      by (intros g' Hg'; apply Hs; now right).
    destruct (objetivo - Z.of_nat (length creados) <=? 0);
      [now injection E as <- <- <-|].
    pose proof (Ha n) as Han.
    destruct (azar n) as [u a] eqn:Ea.
    match type of E with
    | context [Qlt_bool ?p u] => destruct (Qlt_bool p u)
    end.
    + destruct (bucle_sesiones descs total objetivo azar resto (S n) (k + 1) creados t)
        as [[l1 s1] t1] eqn:Eb.
      injection E as <- <- <-. eapply IH; eauto.
    + destruct (intentar_pedido t descs g a) as [r t1] eqn:Ei.
      apply intentar_pedido_coherente in Ei as [Hu Hr]; [|exact Han].
      rewrite Ht in Hu, Hr.
      destruct r as [r|].
      * destruct (bucle_sesiones descs total objetivo azar resto (S n) (k + 1)
                    (creados ++ [r]) t1) as [[l1 s1] t2] eqn:Eb.
        injection E as <- <- <-. eapply IH; eauto.
        apply Forall_app. split; [assumption|]. constructor; [|constructor].
        exists g, n. split; [apply Hs; now left|]. rewrite Ea. now apply Hr.
      * destruct (bucle_sesiones descs total objetivo azar resto (S n) (k + 1)
                    creados t1) as [[l1 s1] t2] eqn:Eb.
        injection E as <- <- <-. eapply IH; eauto.
Qed.

(** X16. Every order returned by [create_pedidos] was made for one of the
    sessions of [sesiones_compra]: it belongs to the registered user of
    that session, was registered at least two minutes after the session's
    last cart row, has lines worth something, and its total is the gross
    total less the discount plus the shipping cost.  Its update date is
    its registration date plus the seconds drawn at the end,
    whatever dates the simulated life cycle went through. *)
Theorem pedidos_creados_coherentes t descs carritos pct azar :
  (forall n, segundos_no_negativos (snd (azar n))) ->
  Forall (fun r => exists g m,
                     In g (sesiones_compra carritos)
                     /\ pedido_de_sesion (usuarios t) g (snd (azar m)) r)
    (fst (fst (create_pedidos t descs carritos pct azar))).
Proof.
  intros Ha. unfold create_pedidos. destruct carritos as [|c cs]; [constructor|].
  match goal with
  | |- context [bucle_sesiones ?d ?tot ?o ?z ?s ?n ?k ?cr ?t0] =>
      destruct (bucle_sesiones d tot o z s n k cr t0) as [[l s'] t1] eqn:E
  end.
  simpl. eapply bucle_sesiones_coherente; eauto.
Qed.

Import Ejemplo.

Lemma create_localizacion_posterior_testigo :
  exists l t',
    create_localizacion_for_user tienda_con_clientes 3 T0 (T1 + minutos 3)
      (Some (T1 + minutos 1)) (localizacion azar_pedido) = Some (l, t')
    /\ T1 + minutos 1 <= loc_fecha_registro l.
Proof.
  eexists _, _. split; [reflexivity|].
  refine (proj2 (proj2 (proj2
            (create_localizacion_posterior tienda_con_clientes 3 T0 (T1 + minutos 3)
               (Some (T1 + minutos 1)) (localizacion azar_pedido) _ _ _ _)))).
  - vm_compute. discriminate.
  - reflexivity.
Defined.

Lemma pedidos_creados_coherentes_testigo :
  Forall (fun r => exists g m,
                     In g (sesiones_compra tres_carritos)
                     /\ pedido_de_sesion (usuarios tienda_con_clientes) g
                          (snd (azar_sesiones m)) r)
    (fst (fst corrida)).
Proof.
  apply (pedidos_creados_coherentes tienda_con_clientes [promocion] tres_carritos
           (4 # 10) azar_sesiones).
  intros n. split; vm_compute; discriminate.
Defined.

End PedidosCreadosProps.

(** ** Products: the planned distribution and the dates of what is created *)

Module DistribucionProps.

Import Productos.

Lemma suma_valores_insert_nuevo k v (m : gmap Z Z) :
  m !! k = None -> suma_valores (<[k := v]> m) = v + suma_valores m.
Proof.
  intros H. unfold suma_valores.
  rewrite map_fold_insert_L; [reflexivity | intros; lia | exact H].
Qed.

Lemma suma_valores_insert k v (m : gmap Z Z) :
  suma_valores (<[k := v]> m) = suma_valores m - default 0 (m !! k) + v.
Proof.
  destruct (m !! k) as [w|] eqn:H; simpl.
  - rewrite <- (insert_delete_id m k w H) at 2.
    rewrite <- (insert_delete_eq m k v).
    rewrite !suma_valores_insert_nuevo by apply lookup_delete_eq. lia.
  - rewrite suma_valores_insert_nuevo by exact H. lia.
Qed.

Lemma suma_valores_incrementar k d m :
  suma_valores (incrementar k d m) = suma_valores m + d.
Proof. unfold incrementar. rewrite suma_valores_insert. lia. Qed.

Lemma lookup_ciclico {A} (l : list A) (i : nat) :
  l <> [] -> is_Some (l !! (i `mod` length l)%nat).
Proof.
  intros H. apply lookup_lt_is_Some_2. apply Nat.mod_upper_bound.
  destruct l; [congruence | discriminate].
Qed.

Lemma repartir_ciclico_suma l veces :
  l <> [] ->
  forall i m, suma_valores (repartir_ciclico l veces i m)
              = suma_valores m + Z.of_nat veces.
Proof.
  intros Hl. induction veces as [|v IH]; intros i m; simpl; [lia|].
  destruct (lookup_ciclico l i Hl) as [p Hp]. rewrite Hp, IH, suma_valores_incrementar.
  lia.
Qed.

Lemma ordenar_desc_por_length {A} (clave : A -> Q) (l : list A) :
  length (ordenar_desc_por clave l) = length l.
Proof.
  unfold ordenar_desc_por.
  assert (Hi : forall x acc, length (insertar_desc_por clave x acc) = S (length acc)).
  { intros x acc. induction acc as [|y acc IH]; simpl; [reflexivity|].
    destruct (Qle_bool (clave x) (clave y)); simpl; now rewrite ?IH. }
  assert (H : forall acc, length (foldl (fun acc x => insertar_desc_por clave x acc) acc l)
                          = (length acc + length l)%nat).
  { induction l as [|x l IH]; intros acc; simpl; [lia|]. rewrite IH, Hi. lia. }
  now rewrite H.
Qed.

Lemma quitar_sobrantes_suma l count veces :
  l <> [] ->
  forall i m, suma_valores (quitar_sobrantes l count veces i m)
              = suma_valores m - Z.of_nat veces.
Proof.
  intros Hl. induction veces as [|v IH]; intros i m; simpl; [lia|].
  set (por_carga := ordenar_desc_por (fun p => inject_Z (default 0 (m !! prov_id p))) l).
  assert (Hp : is_Some (por_carga !! (i `mod` length l)%nat)).
  { apply lookup_lt_is_Some_2. unfold por_carga. rewrite ordenar_desc_por_length.
    apply Nat.mod_upper_bound. destruct l; [congruence | discriminate]. }
  destruct Hp as [p Hp]. rewrite Hp.
  destruct l as [|primero resto]; [congruence|].
  rewrite IH.
  match goal with
  | |- context [if ?b then incrementar ?k1 _ _ else incrementar ?k2 _ _] =>
      destruct b; rewrite suma_valores_incrementar; lia
  end.
Qed.

(** X17. The planned distribution always adds up to [count]: whatever the
    proportional step did, the final adjustment hands out or takes back
    the difference one product at a time. *)
Theorem distribuir_productos_suma count proveedores_ordenados :
  proveedores_ordenados <> [] ->
  suma_valores (distribuir_productos count proveedores_ordenados) = count.
Proof.
  intros Hl. unfold distribuir_productos. cbv zeta.
  destruct (Z.of_nat (length proveedores_ordenados) <=? count);
    match goal with
    | |- suma_valores (if 0 <? count - suma_valores ?m then _ else _) = _ =>
        generalize m
    end;
    intros m;
    destruct (Z.ltb_spec 0 (count - suma_valores m));
    try (rewrite repartir_ciclico_suma by exact Hl; lia);
    destruct (Z.ltb_spec (count - suma_valores m) 0);
    try (rewrite quitar_sobrantes_suma by exact Hl; lia);
    lia.
Qed.

Lemma nuevo_producto_fechas proveedor f limite a :
  f < limite ->
  prod_estado (nuevo_producto proveedor f limite a) = Activo
  /\ prod_proveedor_id (nuevo_producto proveedor f limite a) = prov_id proveedor
  /\ prod_fecha_registro (nuevo_producto proveedor f limite a) = f
  /\ f < prod_fecha_actualizacion (nuevo_producto proveedor f limite a)
     < limite + segundos 1.
Proof.
  intros Hf. unfold nuevo_producto. cbn.
  repeat split;
    repeat match goal with
           | |- context [if ?x <=? ?y then _ else _] => destruct (Z.leb_spec x y)
           end;
    unfold segundos, USEC_POR_SEGUNDO in *; lia.
Qed.

Lemma fecha_de_registro_bajo_limite proveedor i ultima limite a f :
  fecha_de_registro proveedor i ultima limite a = Some f -> f < limite.
Proof.
  unfold fecha_de_registro. cbv zeta.
  repeat match goal with
         | |- context [if ?x <=? ?y then _ else _] => destruct (Z.leb_spec x y)
         end;
    intros [= <-]; lia.
Qed.

Lemma productos_de_proveedor_forma proveedor limite azar (Q : Producto -> Prop) :
  (forall f a, f < limite -> Q (nuevo_producto proveedor f limite a)) ->
  forall pendientes i ultima creados avisos det ultima' creados' avisos',
    productos_de_proveedor proveedor limite azar pendientes i ultima creados avisos
    = (det, ultima', creados', avisos') ->
    Forall Q creados -> Forall Q creados'.
Proof.
  intros HQ. induction pendientes as [|k IH];
    intros i ultima creados avisos det u' c' av' E Hc; simpl in E.
  - now injection E as <- <- <- <-.
  - destruct (fecha_de_registro proveedor i ultima limite (azar i)) as [f|] eqn:Ef.
    + apply fecha_de_registro_bajo_limite in Ef.
      destruct (error_bd (azar i)); [eapply IH; eauto|].
      apply (IH _ _ _ _ _ _ _ _ E).
      apply Forall_app. split; [assumption|]. repeat constructor. now apply HQ.
    + now injection E as <- <- <- <-.
Qed.

Lemma productos_de_proveedores_forma m limite azar (Q : Producto -> Prop) :
  forall proveedores j ultima creados avisos creados' avisos',
    productos_de_proveedores m limite azar proveedores j ultima creados avisos
    = (creados', avisos') ->
    (forall pr f a, In pr proveedores -> f < limite ->
                    Q (nuevo_producto pr f limite a)) ->
    Forall Q creados -> Forall Q creados'.
Proof.
  induction proveedores as [|pr resto IH];
    intros j ultima creados avisos c' av' E HQ Hc; simpl in E.
  - now injection E as <- <-.
  - assert (HQ' : forall pr' f a, In pr' resto -> f < limite ->
                                  Q (nuevo_producto pr' f limite a))
      by (intros; apply HQ; [now right | assumption]).
    destruct (default 0 (m !! prov_id pr) =? 0); [eapply IH; eauto|].
    match type of E with
    | (if ?b then _ else _) = _ => destruct b
    end; [eapply IH; eauto|].
    match type of E with
    | context [productos_de_proveedor ?a1 ?a2 ?a3 ?a4 ?a5 ?a6 ?a7 ?a8] =>
        destruct (productos_de_proveedor a1 a2 a3 a4 a5 a6 a7 a8)
          as [[[det u1] c1] av1] eqn:Ei
    end.
    assert (Hc1 : Forall Q c1).
    { eapply (productos_de_proveedor_forma pr limite (azar j) Q); eauto.
      intros f a Hf. apply HQ; [now left | assumption]. }
    destruct det; [now injection E as <- <- | eapply IH; eauto].
Qed.

(** X18. Whatever the draws and whatever fails, every product returned by
    [create_productos] is active, belongs to one of the suppliers given,
    is registered before the ceiling [min(PRODUCTOS_END_DATE_LIMIT, now)],
    and is updated strictly after its registration and less than a second
    past the ceiling. *)
Theorem productos_creados_bajo_el_limite count proveedores ahora azar :
  Forall (fun p =>
            prod_estado p = Activo
            /\ (exists pr, In pr proveedores /\ prod_proveedor_id p = prov_id pr)
            /\ prod_fecha_registro p < Z.min Fechas.PRODUCTOS_END_DATE_LIMIT ahora
            /\ prod_fecha_registro p < prod_fecha_actualizacion p
               < Z.min Fechas.PRODUCTOS_END_DATE_LIMIT ahora + segundos 1)
    (fst (create_productos count proveedores ahora azar)).
Proof.
  unfold create_productos.
  destruct (ordenar_por prov_fecha_registro proveedores) as [|primero resto] eqn:Eo;
    [constructor|].
  match goal with
  | |- context [productos_de_proveedores ?m ?lim ?z ?l ?j ?u ?c ?av] =>
      destruct (productos_de_proveedores m lim z l j u c av) as [creados avisos] eqn:E
  end.
  simpl. eapply productos_de_proveedores_forma; [exact E| |constructor].
  intros pr f a Hpr Hf.
  destruct (nuevo_producto_fechas pr f _ a Hf) as (H1 & H2 & H3 & H4).
  rewrite H3. split; [exact H1|]. split; [|split; [exact Hf | exact H4]].
  exists pr. split; [|exact H2].
  apply (ProductosProps.ordenar_por_In prov_fecha_registro). now rewrite Eo.
Qed.

Import Ejemplo.

Lemma distribuir_productos_suma_testigo :
  suma_valores (distribuir_productos 7 [proveedor_a; proveedor_b]) = 7.
Proof.
  apply (distribuir_productos_suma 7 [proveedor_a; proveedor_b]). discriminate.
Defined.

End DistribucionProps.

(** ** Shipments *)

Module EnviosProps.

Import Envios.

Lemma update_envio_estado_y_fecha_coherente e estado f :
  envio_coherente e ->
  exists e', update_envio_estado_y_fecha (Some e) estado f = (true, Some e')
             /\ envio_coherente e'
             /\ env_pedido_id e' = env_pedido_id e /\ numero_guia e' = numero_guia e
             /\ estado_envio e' = estado /\ env_fecha_actualizacion e' = f.
Proof.
  intros (H1 & H2 & H3 & H4 & H5). unfold update_envio_estado_y_fecha.
  eexists. split; [reflexivity|]. cbn. split; [|repeat split].
  unfold envio_coherente. cbn. rewrite H1. repeat split; try assumption; try lia.
  - destruct estado; cbn; try exact H4;
      destruct (Z.ltb_spec f (env_fecha_registro e)); intros r [= <-]; lia.
  - intros ->. cbn. destruct (f <? env_fecha_registro e); eauto.
Qed.

Lemma update_envio_tabla envios pedido_id estado f :
  Forall envio_coherente envios ->
  Forall envio_coherente (update_envio envios pedido_id estado f)
  /\ map env_pedido_id (update_envio envios pedido_id estado f)
     = map env_pedido_id envios
  /\ map numero_guia (update_envio envios pedido_id estado f) = map numero_guia envios
  /\ (In pedido_id (map env_pedido_id envios) ->
      exists e, In e (update_envio envios pedido_id estado f)
                /\ env_pedido_id e = pedido_id
                /\ estado_envio e = estado /\ env_fecha_actualizacion e = f).
Proof.
  induction 1 as [|e envios He Htl (IH1 & IH2 & IH3 & IH4)]; cbn [update_envio map].
  - repeat split; [constructor | intros []].
  - destruct (Z.eqb_spec (env_pedido_id e) pedido_id) as [E|Hne].
    + destruct (update_envio_estado_y_fecha_coherente e estado f He)
        as (e' & -> & Hc & Hp & Hg & Hs & Hf).
      simpl. rewrite Hp, Hg. repeat split.
      * constructor; assumption.
      * intros _. exists e'. repeat split; try assumption; [now left | congruence].
    + simpl. rewrite IH2, IH3. repeat split.
      * constructor; assumption.
      * intros [E|Hin]; [congruence|].
        destruct (IH4 Hin) as (e' & H1 & H2). exists e'. split; [now right | exact H2].
Qed.

Lemma update_envio_salta envios pedido_id estado f resto :
  ~ In pedido_id (map env_pedido_id envios) ->
  update_envio (envios ++ resto) pedido_id estado f
  = envios ++ update_envio resto pedido_id estado f.
Proof.
  induction envios as [|x l IH]; intros Hno; [reflexivity|]. simpl in *.
  destruct (Z.eqb_spec (env_pedido_id x) pedido_id) as [E|_].
  - exfalso. apply Hno. now left.
  - f_equal. apply IH. intros Hin. apply Hno. now right.
Qed.

(** X19. A shipment made by [create_envio_for_pedido] with the draws in range is
    pending, dispatched 30 to 120 seconds after the order and well formed;
    it is refused exactly when the order already has a shipment, the guide
    number is taken or a flush fails for another reason, so the table never
    holds two shipments of one order or one guide number.  Any update of the shipment of an order by
    [update_envio] keeps every row well formed (a delivery date is never
    before the dispatch) and keeps orders and guide numbers.  The first
    update of the new shipment changes that row only: it takes the state
    and the update date given, and its delivery date is set exactly when
    the state is [Entregado], to the later of the update date and the
    dispatch. *)
Theorem envios_coherentes envios pedido_id fecha_pedido usuario_id a :
  azar_envio_en_rango a ->
  Forall envio_coherente envios -> envios_unicos envios ->
  (create_envio_for_pedido envios pedido_id fecha_pedido usuario_id a = None
   <-> In pedido_id (map env_pedido_id envios) \/ In (guia a) (map numero_guia envios)
       \/ error_flush a = true)
  /\ (forall e h envios',
        create_envio_for_pedido envios pedido_id fecha_pedido usuario_id a
        = Some (e, h, envios') ->
        envios' = envios ++ [e]
        /\ estado_envio e = Pendiente /\ env_pedido_id e = pedido_id
        /\ fecha_pedido + segundos 30 <= env_fecha_registro e
           <= fecha_pedido + segundos 120
        /\ hme_costo_envio h = env_costo_envio e /\ 0 <= hme_costo_envio h
        /\ Forall envio_coherente envios' /\ envios_unicos envios'
        /\ (forall estado f,
              exists e',
                update_envio envios' pedido_id estado f = envios ++ [e']
                /\ estado_envio e' = estado /\ env_fecha_actualizacion e' = f
                /\ fecha_entrega_real e'
                   = if estado_envio_eqb estado Entregado
                     then Some (Z.max f (env_fecha_registro e)) else None)
        /\ forall actualizaciones : list (EstadoEnvioEnum * datetime),
             let final :=
               foldl (fun tabla x => update_envio tabla pedido_id (fst x) (snd x))
                 envios' actualizaciones in
             Forall envio_coherente final /\ envios_unicos final
             /\ length final = length envios').
Proof.
  intros (Hs & Hd & Hc & Hg) Hco [Hu1 Hu2]. unfold create_envio_for_pedido. cbv zeta.
  destruct (existsb _ envios) eqn:Hex.
  - split; [|discriminate]. split; [|reflexivity]. intros _.
    apply existsb_exists in Hex as (e & He & Hor).
    apply orb_true_iff in Hor as [H|H]; apply Z.eqb_eq in H; [left | right; left];
      rewrite <- H; now apply List.in_map.
  - simpl orb. destruct (error_flush a) eqn:Hflush.
    { split; [|discriminate]. split; [|reflexivity]. intros _. right. now right. }
    assert (Hno : ~ In pedido_id (map env_pedido_id envios)
                  /\ ~ In (guia a) (map numero_guia envios)).
    { split; intros Hin; apply List.in_map_iff in Hin as (e & He & Hin);
        assert (Ht : existsb (fun e => (env_pedido_id e =? pedido_id)
                                       || (numero_guia e =? guia a)) envios = true)
          by (apply existsb_exists; exists e; split; [exact Hin|];
              rewrite He, Z.eqb_refl; auto using orb_true_r);
        congruence. }
    destruct Hno as [Hn1 Hn2]. split.
    { split; [discriminate | intros [H|[H|H]]; [contradiction | contradiction | discriminate]]. }
    intros e h envios' [= <- <- <-]. cbn.
    assert (Hnuevo : envio_coherente
                       {| env_pedido_id := pedido_id; numero_guia := guia a;
                          env_costo_envio := costo a;
                          fecha_envio := Some (fecha_pedido + segundos (segundos_despacho a));
                          fecha_entrega_estimada :=
                            Some (fecha_pedido + segundos (segundos_despacho a)
                                  + dias (dias_estimados a));
                          fecha_entrega_real := None; estado_envio := Pendiente;
                          env_fecha_registro :=
                            fecha_pedido + segundos (segundos_despacho a);
                          env_fecha_actualizacion :=
                            fecha_pedido + segundos (segundos_despacho a) |}).
    { unfold envio_coherente. cbn. repeat split; try lia; try discriminate. eauto. }
    assert (Htabla : Forall envio_coherente
                       (envios ++ [{| env_pedido_id := pedido_id; numero_guia := guia a;
                          env_costo_envio := costo a;
                          fecha_envio := Some (fecha_pedido + segundos (segundos_despacho a));
                          fecha_entrega_estimada :=
                            Some (fecha_pedido + segundos (segundos_despacho a)
                                  + dias (dias_estimados a));
                          fecha_entrega_real := None; estado_envio := Pendiente;
                          env_fecha_registro :=
                            fecha_pedido + segundos (segundos_despacho a);
                          env_fecha_actualizacion :=
                            fecha_pedido + segundos (segundos_despacho a) |}])).
    { apply Forall_app. split; [exact Hco|]. constructor; [exact Hnuevo | constructor]. }
    match goal with
    | H : Forall envio_coherente ?t |- _ =>
        match t with
        | _ ++ [_] => set (tabla := t) in *
        end
    end.
    assert (Hunicos : envios_unicos tabla).
    { unfold envios_unicos, tabla. rewrite !map_app. cbn. split.
      - apply NoDup_app. split; [exact Hu1|]. split; [|apply NoDup_singleton].
        intros x Hx Hx'. apply list_elem_of_In in Hx, Hx'.
        destruct Hx' as [<-|[]]. contradiction.
      - apply NoDup_app. split; [exact Hu2|]. split; [|apply NoDup_singleton].
        intros x Hx Hx'. apply list_elem_of_In in Hx, Hx'.
        destruct Hx' as [<-|[]]. contradiction. }
    assert (Huna : forall estado f,
              exists e',
                update_envio tabla pedido_id estado f = envios ++ [e']
                /\ estado_envio e' = estado /\ env_fecha_actualizacion e' = f
                /\ fecha_entrega_real e'
                   = if estado_envio_eqb estado Entregado
                     then Some (Z.max f (fecha_pedido + segundos (segundos_despacho a)))
                     else None).
    { intros estado f. unfold tabla. rewrite (update_envio_salta _ _ _ _ _ Hn1).
      cbn. rewrite Z.eqb_refl. eexists. split; [reflexivity|]. cbn.
      split; [reflexivity|]. split; [reflexivity|].
      destruct (estado_envio_eqb estado Entregado); [|reflexivity].
      destruct (Z.ltb_spec f (fecha_pedido + segundos (segundos_despacho a)));
        f_equal; lia. }
    repeat split; try (unfold segundos, USEC_POR_SEGUNDO; lia);
      try exact Htabla; try apply Hunicos; try exact Huna.
    all: revert Htabla Hunicos; generalize tabla; clear;
      induction actualizaciones as [|[estado f] l IH]; intros tabla Hco Hun; simpl;
      try assumption; try apply Hun; try reflexivity;
      destruct (update_envio_tabla tabla pedido_id estado f Hco) as (H1 & H2 & H3 & _);
      assert (Hun' : envios_unicos (update_envio tabla pedido_id estado f))
        by (unfold envios_unicos; rewrite H2, H3; exact Hun);
      specialize (IH _ H1 Hun');
      try exact IH; try apply IH.
    rewrite IH. rewrite <- (length_map env_pedido_id), H2. apply length_map.
Qed.

Import Ejemplo Casos.

Lemma envios_coherentes_testigo :
  create_envio_for_pedido [] 7 T1 3 azar_envio = None
  <-> In 7 (map env_pedido_id []) \/ In (guia azar_envio) (map numero_guia [])
      \/ error_flush azar_envio = true.
Proof.
  refine (proj1 (envios_coherentes [] 7 T1 3 azar_envio _ _ _)).
  - unfold azar_envio_en_rango. cbn. lia.
  - constructor.
  - split; constructor.
Defined.

End EnviosProps.

(** ** Comments *)

Module ComentariosProps.

Import DetallesPedido Pedidos Comentarios Existencias.

Lemma comentario_de_detalle_fechas t usuario_id fu fecha_entrega pct mn mx detalle a :
  mn <= mx -> azar_comentario_en_rango mn mx a -> error_generador a = false ->
  claves_de_productos (estado t) ->
  exists r,
    comentario_de_detalle t usuario_id fu fecha_entrega pct mn mx detalle a = inr r
    /\ forall c, r = Some c ->
         com_usuario_id c = usuario_id
         /\ com_producto_id c = det_producto_id detalle
         /\ 1 <= com_calificacion c <= 5
         /\ com_fecha_registro c <= com_fecha_actualizacion c <= SIMULATION_END_DATE
         /\ com_fecha_actualizacion c <= com_fecha_registro c + segundos 3600
         /\ exists producto,
              db_productos (estado t) !! det_producto_id detalle = Some producto
              /\ let m := Z.max (Z.max fecha_entrega fu) (prod_fecha_registro producto) in
                 (m < SIMULATION_END_DATE -> m <= com_fecha_registro c)
                 /\ (SIMULATION_END_DATE <= m
                     -> com_fecha_registro c = SIMULATION_END_DATE).
Proof.
  intros Hmm (Hd & Hs & He & Hc) Hg Hk. unfold comentario_de_detalle.
  destruct (db_productos (estado t) !! det_producto_id detalle) as [p|] eqn:Hp;
    [|eexists; split; [reflexivity | discriminate]].
  destruct (Qlt_bool pct (u_comentario a)); [eexists; split; [reflexivity | discriminate]|].
  cbv zeta. set (m := Z.max (Z.max fecha_entrega fu) (prod_fecha_registro p)).
  unfold randint. destruct (Z.leb_spec mn mx) as [_|]; [|lia].
  rewrite Hg.
  destruct (Z.leb_spec SIMULATION_END_DATE m) as [Hfin|Hfin].
  - rewrite Z.ltb_irrefl. eexists. split; [reflexivity|]. intros c [= <-]. cbn.
    rewrite (Hk _ _ Hp). repeat split; try lia.
    + destruct (Z.ltb_spec (SIMULATION_END_DATE + segundos (segundos_edicion a))
                  SIMULATION_END_DATE);
        destruct (Z.ltb_spec SIMULATION_END_DATE SIMULATION_END_DATE);
        try destruct (Z.ltb_spec SIMULATION_END_DATE
                        (SIMULATION_END_DATE + segundos (segundos_edicion a)));
        unfold segundos, USEC_POR_SEGUNDO in *; lia.
    + destruct (Z.ltb_spec (SIMULATION_END_DATE + segundos (segundos_edicion a))
                  SIMULATION_END_DATE);
        destruct (Z.ltb_spec SIMULATION_END_DATE SIMULATION_END_DATE);
        try destruct (Z.ltb_spec SIMULATION_END_DATE
                        (SIMULATION_END_DATE + segundos (segundos_edicion a)));
        unfold segundos, USEC_POR_SEGUNDO in *; lia.
    + destruct (Z.ltb_spec (SIMULATION_END_DATE + segundos (segundos_edicion a))
                  SIMULATION_END_DATE);
        destruct (Z.ltb_spec SIMULATION_END_DATE SIMULATION_END_DATE);
        try destruct (Z.ltb_spec SIMULATION_END_DATE
                        (SIMULATION_END_DATE + segundos (segundos_edicion a)));
        unfold segundos, USEC_POR_SEGUNDO in *; lia.
    + exists p. split; [reflexivity|]. fold m. split; lia.
  - set (f := Z.min (m + dias (dias_post_entrega a) + segundos (segundos_del_dia a))
                SIMULATION_END_DATE).
    set (frc := if f <? m then m else f).
    assert (Hfrc : m <= frc <= SIMULATION_END_DATE).
    { unfold frc, f. destruct (Z.ltb_spec
        (Z.min (m + dias (dias_post_entrega a) + segundos (segundos_del_dia a))
           SIMULATION_END_DATE) m); lia. }
    destruct (Z.ltb_spec SIMULATION_END_DATE frc) as [|_]; [lia|].
    eexists. split; [reflexivity|]. intros c [= <-]. cbn.
    rewrite (Hk _ _ Hp).
    assert (Hfa : frc <= (if SIMULATION_END_DATE <?
                              (if frc + segundos (segundos_edicion a) <? frc
                               then frc else frc + segundos (segundos_edicion a))
                          then SIMULATION_END_DATE
                          else if frc + segundos (segundos_edicion a) <? frc
                               then frc else frc + segundos (segundos_edicion a))
                         <= SIMULATION_END_DATE
                  /\ (if SIMULATION_END_DATE <?
                              (if frc + segundos (segundos_edicion a) <? frc
                               then frc else frc + segundos (segundos_edicion a))
                          then SIMULATION_END_DATE
                          else if frc + segundos (segundos_edicion a) <? frc
                               then frc else frc + segundos (segundos_edicion a))
                     <= frc + segundos 3600).
    { destruct (Z.ltb_spec (frc + segundos (segundos_edicion a)) frc);
        [destruct (Z.ltb_spec SIMULATION_END_DATE frc)
        |destruct (Z.ltb_spec SIMULATION_END_DATE (frc + segundos (segundos_edicion a)))];
        unfold segundos, USEC_POR_SEGUNDO in *; lia. }
    repeat split; try lia; try apply Hfa.
    exists p. split; [reflexivity|]. fold m. split; lia.
Qed.

Lemma comentarios_de_detalles_fechas t usuario_id fu fecha_entrega pct mn mx azar :
  mn <= mx ->
  (forall n, azar_comentario_en_rango mn mx (azar n) /\ error_generador (azar n) = false) ->
  claves_de_productos (estado t) ->
  forall detalles n,
  exists cs,
    comentarios_de_detalles t usuario_id fu fecha_entrega pct mn mx detalles n azar
    = inr cs
    /\ (length cs <= length detalles)%nat
    /\ Forall (fun c =>
         com_usuario_id c = usuario_id
         /\ In (com_producto_id c) (map det_producto_id detalles)
         /\ 1 <= com_calificacion c <= 5
         /\ com_fecha_registro c <= com_fecha_actualizacion c <= SIMULATION_END_DATE
         /\ com_fecha_actualizacion c <= com_fecha_registro c + segundos 3600
         /\ exists producto,
              db_productos (estado t) !! com_producto_id c = Some producto
              /\ let m := Z.max (Z.max fecha_entrega fu) (prod_fecha_registro producto) in
                 (m < SIMULATION_END_DATE -> m <= com_fecha_registro c)
                 /\ (SIMULATION_END_DATE <= m
                     -> com_fecha_registro c = SIMULATION_END_DATE)) cs.
Proof.
  intros Hmm Ha Hk. induction detalles as [|d resto IH]; intros n; simpl.
  - exists []. split; [reflexivity|]. split; [apply Nat.le_refl | constructor].
  - destruct (Ha n) as [Hr Hg].
    destruct (comentario_de_detalle_fechas t usuario_id fu fecha_entrega pct mn mx d
                (azar n) Hmm Hr Hg Hk) as (r & -> & Hc).
    destruct (IH (S n)) as (cs & -> & Hlen & Hcs).
    assert (Hcs' : Forall (fun c =>
         com_usuario_id c = usuario_id
         /\ In (com_producto_id c) (map det_producto_id (d :: resto))
         /\ 1 <= com_calificacion c <= 5
         /\ com_fecha_registro c <= com_fecha_actualizacion c <= SIMULATION_END_DATE
         /\ com_fecha_actualizacion c <= com_fecha_registro c + segundos 3600
         /\ exists producto,
              db_productos (estado t) !! com_producto_id c = Some producto
              /\ let m := Z.max (Z.max fecha_entrega fu) (prod_fecha_registro producto) in
                 (m < SIMULATION_END_DATE -> m <= com_fecha_registro c)
                 /\ (SIMULATION_END_DATE <= m
                     -> com_fecha_registro c = SIMULATION_END_DATE)) cs).
    { eapply Forall_impl; [exact Hcs|]. intros c (H1 & H2 & H3). simpl.
      repeat split; try assumption; try apply H3. now right. }
    eexists. split; [reflexivity|]. destruct r as [c|].
    + split; [simpl; lia|]. constructor; [|exact Hcs'].
      destruct (Hc c eq_refl) as (H1 & H2 & H3 & H4 & H5 & p & Hp & H6).
      repeat split; try assumption; try apply H4; try apply H3.
      * simpl. now left.
      * exists p. rewrite H2. split; assumption.
    + split; [simpl; lia | exact Hcs'].
Qed.

(** X20. When [min_days_post_entrega <= max_days_post_entrega], the draws are in
    their ranges, the text generator answers and the flush works,
    [create_comentario] ends without an exception and writes at most one comment per line of the
    order; each is by the order's user on a product of the order, is rated
    1 to 5, is registered no later than the end of the simulation and
    updated between its registration and one hour later, also no later
    than the end.  A comment is registered no earlier than the delivery,
    the user's registration and the product's registration when these are
    before the end of the simulation; when one of them is not, it is
    registered at the end of the simulation, before it. *)
Theorem create_comentario_fechas t pedido fecha_entrega pct mn mx azar :
  mn <= mx ->
  (forall n, azar_comentario_en_rango mn mx (azar n) /\ error_generador (azar n) = false) ->
  claves_de_productos (estado t) ->
  exists comentarios,
    create_comentario t pedido fecha_entrega pct mn mx azar false = inr comentarios
    /\ (length comentarios <= length (detalles_de pedido (estado t)))%nat
    /\ Forall (comentario_bien_fechado t pedido fecha_entrega) comentarios.
Proof.
  intros Hmm Ha Hk. unfold create_comentario.
  destruct (detalles_de pedido (estado t)) as [|d resto] eqn:Hd.
  { exists []. repeat split; [simpl; lia | constructor]. }
  destruct (usuarios t !! ped_usuario_id pedido) as [fu|] eqn:Hu.
  2:{ exists []. repeat split; [simpl; lia | constructor]. }
  destruct (comentarios_de_detalles_fechas t (ped_usuario_id pedido) fu fecha_entrega
              pct mn mx azar Hmm Ha Hk (d :: resto) 0%nat) as (cs & -> & Hlen & Hcs).
  exists cs. split; [reflexivity|]. split; [exact Hlen|].
  eapply Forall_impl; [exact Hcs|].
  intros c (H1 & H2 & H3 & H4 & H5 & p & Hp & H6 & H7).
  unfold comentario_bien_fechado, min_fecha. rewrite Hu, Hp, Hd.
  repeat split; try assumption; try apply H3; try apply H4.
  eexists. split; [reflexivity|]. split; assumption.
Qed.

Import Ejemplo Casos.

Lemma create_comentario_fechas_testigo :
  exists comentarios,
    create_comentario tienda_entregada pedido_pendiente (T1 + dias 4) (3 # 10) 1 7
      azar_comentario false = inr comentarios
    /\ (length comentarios
        <= length (detalles_de pedido_pendiente (estado tienda_entregada)))%nat
    /\ Forall (comentario_bien_fechado tienda_entregada pedido_pendiente (T1 + dias 4))
         comentarios.
Proof.
  apply (create_comentario_fechas tienda_entregada pedido_pendiente (T1 + dias 4)
           (3 # 10) 1 7 azar_comentario).
  - lia.
  - intros n. split; [unfold azar_comentario_en_rango; cbn; lia | reflexivity].
  - exact (ExistenciasProps.claves_de_tienda _ _ _).
Defined.

End ComentariosProps.

(** ** Discounts *)

Module DescuentosProps.

Import Descuentos.

Ltac en_micros :=
  unfold dias, horas, minutos, segundos, USEC_POR_SEGUNDO,
    MAX_DISCOUNT_DURATION_DAYS, MAX_DAYS_BEFORE_START_FOR_REGISTRATION,
    MIN_DISCOUNT_PERCENTAGE, MAX_DISCOUNT_PERCENTAGE in *.

Lemma get_random_datetime_in_range_desde min_date max_date r respaldo :
  0 <= r -> 0 <= respaldo ->
  exists f, get_random_datetime_in_range min_date max_date r respaldo = inr f
            /\ min_date <= f.
Proof.
  intros Hr Hp. unfold get_random_datetime_in_range, randint.
  destruct (max_date <=? min_date).
  - simpl. eexists. split; [reflexivity|]. en_micros. lia.
  - destruct (0 <=? (max_date - min_date) / USEC_POR_SEGUNDO);
      eexists; (split; [reflexivity|]); en_micros; lia.
Qed.

Lemma fechas_con_referencia h a :
  azar_fechas_en_rango a ->
  SIMULATION_START_DATE <= h <= SIMULATION_END_DATE ->
  exists r i f,
    generate_discount_dates (Some h) None None a = inr (r, i, f)
    /\ SIMULATION_START_DATE <= r <= i /\ i < f <= SIMULATION_END_DATE
    /\ i <= h <= f /\ f <= h + dias 3 /\ h - dias 14 <= i.
Proof.
  intros (Hda & Hdd & _ & _ & _ & Hdr) Hh. unfold generate_discount_dates.
  cbn [default]. cbv zeta.
  assert (Hw : SIMULATION_START_DATE < SIMULATION_END_DATE) by (vm_compute; reflexivity).
  set (i := Z.max SIMULATION_START_DATE (h - dias (dias_antes a))).
  set (f0 := Z.min SIMULATION_END_DATE (h + dias (dias_despues a))).
  assert (Hi : SIMULATION_START_DATE <= i <= h /\ h - dias 14 <= i)
    by (unfold i; en_micros; lia).
  assert (Hf : h <= f0 <= SIMULATION_END_DATE /\ f0 <= h + dias 3)
    by (unfold f0; en_micros; lia).
  assert (Hlt : i < f0).
  { unfold i, f0. en_micros. lia. }
  destruct (Z.leb_spec f0 i) as [|_]; [lia|].
  eexists _, i, f0. split; [reflexivity|].
  destruct (Z.ltb_spec i (Z.max SIMULATION_START_DATE (i - dias (dias_antes_registro a))));
    en_micros; lia.
Qed.

(** *** The loop of [create_descuentos] *)

Lemma descuentos_de_festivos_validos fecha_actual azar :
  (forall n, azar_descuento_en_rango (azar n)) ->
  forall festivos n ultima rota l r,
    SIMULATION_START_DATE <= ultima ->
    descuentos_de_festivos fecha_actual azar festivos n ultima rota = (l, r) ->
    Forall (fun d => descuento_valido_por festivos fecha_actual d
                     /\ ultima + minutos 1 <= dn_fecha_registro d) l
    /\ Sorted registro_espaciado l
    /\ (rota = true -> r = true)
    /\ ((exists k f, festivos !! k = Some f /\ en_periodo f = true
                     /\ error_flush (azar (n + k)%nat) = true) -> r = true)
    /\ (rota = false ->
        (forall k f, festivos !! k = Some f -> en_periodo f = true ->
                     error_flush (azar (n + k)%nat) = false) ->
        r = false /\ length l = length (List.filter en_periodo festivos)).
Proof.
  intros Ha. induction festivos as [|h resto IH]; intros n ultima rota l r Hu E.
  - simpl in E. injection E as <- <-. repeat split; try constructor; auto.
    intros (k & f & Hk & _). rewrite lookup_nil in Hk. discriminate.
  - assert (Hmas : forall P : DescuentoNuevo -> Prop,
               forall l0 : list DescuentoNuevo,
               Forall (fun d => descuento_valido_por resto fecha_actual d /\ P d) l0 ->
               Forall (fun d => descuento_valido_por (h :: resto) fecha_actual d /\ P d) l0).
    { intros P l0 Hl0. eapply Forall_impl; [exact Hl0|].
      intros d ((H1 & H2 & H3 & H4 & H5 & H6 & H7 & fe & Hin & H8) & HP).
      split; [|exact HP]. repeat split; try assumption; try apply H1; try apply H2;
        try apply H3; try apply H7.
      exists fe. split; [now right | exact H8]. }
    cbn [descuentos_de_festivos] in E. fold (en_periodo h) in E.
    destruct (en_periodo h) eqn:Hper.
    + apply andb_true_iff in Hper as Hper'. destruct Hper' as [Hp1 Hp2].
      apply Z.leb_le in Hp1, Hp2.
      destruct (Ha n) as [Hfe Hpo].
      destruct (fechas_con_referencia h (fechas (azar n)) Hfe (conj Hp1 Hp2))
        as (r0 & i & f & Eg & Hr0 & Hif & Hih & Hf3 & Hi14).
      rewrite Eg in E. cbv zeta in E.
      set (reg := Z.max r0 (ultima + minutos 1)) in *.
      assert (Hreg : SIMULATION_START_DATE <= reg /\ ultima + minutos 1 <= reg)
        by (unfold reg; en_micros; lia).
      destruct (rota || error_flush (azar n)) eqn:Hrota.
      * destruct (IH _ _ _ _ _ (proj1 Hreg) E) as (I1 & I2 & I3 & I4 & I5).
        specialize (I3 eq_refl). subst r.
        refine (conj _ (conj I2 (conj (fun _ => eq_refl) (conj (fun _ => eq_refl) _)))).
        -- apply Hmas. eapply Forall_impl; [exact I1|]. intros d [Hd1 Hd2].
           split; [exact Hd1|]. en_micros. lia.
        -- intros Hrf Hno. exfalso.
           apply orb_true_iff in Hrota as [Hrota|Hrota]; [congruence|].
           specialize (Hno 0%nat h eq_refl Hper). rewrite Nat.add_0_r in Hno. congruence.
      * apply orb_false_iff in Hrota as [-> Hflush].
        destruct (descuentos_de_festivos fecha_actual azar resto (S n) reg false)
          as [l' r'] eqn:E'.
        injection E as <- <-.
        destruct (IH _ _ _ _ _ (proj1 Hreg) E') as (I1 & I2 & I3 & I4 & I5).
        refine (conj _ (conj _ (conj _ (conj _ _)))).
        -- constructor.
           ++ cbn. split; [|lia]. unfold descuento_valido_por. cbn.
              split; [en_micros; lia|]. split; [en_micros; lia|].
              split; [lia|]. split; [lia|]. split; [en_micros; lia|].
              split; [reflexivity|].
              split.
              ** destruct (Z.ltb_spec f fecha_actual); split; intros; try lia;
                   try reflexivity; discriminate.
              ** exists h. split; [now left|]. lia.
           ++ apply Hmas. eapply Forall_impl; [exact I1|]. intros d [Hd1 Hd2].
              split; [exact Hd1|]. en_micros. lia.
        -- constructor; [exact I2|]. destruct l' as [|d l']; constructor.
           apply Forall_inv in I1 as [_ Hd]. unfold registro_espaciado. cbn. exact Hd.
        -- discriminate.
        -- intros (k & f' & Hk & Hpk & Hek). destruct k as [|k].
           ++ rewrite Nat.add_0_r in Hek. congruence.
           ++ apply I4. exists k, f'. simpl in Hk. rewrite Nat.add_succ_r in Hek.
              repeat split; assumption.
        -- intros _ Hno.
           assert (Hno' : forall k f', resto !! k = Some f' -> en_periodo f' = true ->
                                       error_flush (azar (S n + k)%nat) = false).
           { intros k f' Hk Hpk. specialize (Hno (S k) f' Hk Hpk).
             now rewrite Nat.add_succ_r in Hno. }
           destruct (I5 eq_refl Hno') as [-> Hlen]. split; [reflexivity|].
           simpl. fold (en_periodo h). rewrite Hper. simpl. now rewrite Hlen.
    + destruct (IH _ _ _ _ _ Hu E) as (I1 & I2 & I3 & I4 & I5).
      refine (conj (Hmas _ _ I1) (conj I2 (conj I3 (conj _ _)))).
      * intros (k & f' & Hk & Hpk & Hek). destruct k as [|k].
        -- simpl in Hk. injection Hk as <-. congruence.
        -- apply I4. exists k, f'. simpl in Hk. rewrite Nat.add_succ_r in Hek.
           repeat split; assumption.
      * intros Hrf Hno.
        assert (Hno' : forall k f', resto !! k = Some f' -> en_periodo f' = true ->
                                    error_flush (azar (S n + k)%nat) = false).
        { intros k f' Hk Hpk. specialize (Hno (S k) f' Hk Hpk).
          now rewrite Nat.add_succ_r in Hno. }
        destruct (I5 Hrf Hno') as [-> Hlen]. split; [reflexivity|].
        simpl. fold (en_periodo h). rewrite Hper. exact Hlen.
Qed.

Lemma festivos_en_periodo :
  forallb en_periodo (ordenar_por id FECHAS_DESCUENTOS) = true
  /\ length (List.filter en_periodo (ordenar_por id FECHAS_DESCUENTOS))
     = length FECHAS_DESCUENTOS
  /\ length (ordenar_por id FECHAS_DESCUENTOS) = length FECHAS_DESCUENTOS.
Proof. vm_compute. repeat split. Qed.

Lemma sin_fallos_en_el_bucle azar k f :
  (forall k, (k < length FECHAS_DESCUENTOS)%nat -> error_flush (azar k) = false) ->
  ordenar_por id FECHAS_DESCUENTOS !! k = Some f ->
  error_flush (azar (0 + k)%nat) = false.
Proof.
  intros Hno Hk. apply Hno. apply lookup_lt_Some in Hk.
  now rewrite (proj2 (proj2 festivos_en_periodo)) in Hk.
Qed.

Lemma fechas_de_san_valentin_2022 a :
  azar_fechas_en_rango a -> 13 <= dias_antes a ->
  exists f,
    generate_discount_dates (Some (mk_datetime 2022 2 14 0 0 0)) None None a
    = inr (SIMULATION_START_DATE, SIMULATION_START_DATE, f).
Proof.
  intros (Hda & Hdd & _ & _ & _ & Hdr) H13. unfold generate_discount_dates.
  cbn [default]. cbv zeta.
  assert (HS : SIMULATION_START_DATE = mk_datetime 2022 2 14 0 0 0 - dias 13)
    by (vm_compute; reflexivity).
  assert (Hi : Z.max SIMULATION_START_DATE
                 (mk_datetime 2022 2 14 0 0 0 - dias (dias_antes a))
               = SIMULATION_START_DATE) by (en_micros; lia).
  rewrite Hi.
  assert (Hr : (if SIMULATION_START_DATE
                   <? Z.max SIMULATION_START_DATE
                        (SIMULATION_START_DATE - dias (dias_antes_registro a))
                then SIMULATION_START_DATE
                else Z.max SIMULATION_START_DATE
                       (SIMULATION_START_DATE - dias (dias_antes_registro a)))
               = SIMULATION_START_DATE).
  { destruct (Z.ltb_spec SIMULATION_START_DATE
                (Z.max SIMULATION_START_DATE
                   (SIMULATION_START_DATE - dias (dias_antes_registro a))));
      [reflexivity|]. en_micros. lia. }
  rewrite Hr. eexists. reflexivity.
Qed.

(** X21. Whatever its arguments, [generate_discount_dates] returns three dates
    with the registration not after the start and the start strictly
    before the end; the registration is at most 30 days before the start
    and, when the start is inside the simulation, so is the registration;
    the start is not before [min_start_date].  Around a reference date
    inside the window, the discount starts at most 14 days before it (not
    before the window), ends at most 3 days after it and contains it; it
    ends inside the window when the window is not empty. *)
Theorem generate_discount_dates_coherentes reference_date min_start_date max_end_date a :
  azar_fechas_en_rango a ->
  exists r i f,
    generate_discount_dates reference_date min_start_date max_end_date a = inr (r, i, f)
    /\ r <= i < f
    /\ i - dias 30 <= r
    /\ (SIMULATION_START_DATE <= i -> SIMULATION_START_DATE <= r)
    /\ default SIMULATION_START_DATE min_start_date <= i
    /\ forall h,
         reference_date = Some h ->
         default SIMULATION_START_DATE min_start_date <= h
           <= default SIMULATION_END_DATE max_end_date ->
         i <= h <= f /\ h - dias 14 <= i /\ f <= h + dias 3
         /\ (default SIMULATION_START_DATE min_start_date
               < default SIMULATION_END_DATE max_end_date ->
             f <= default SIMULATION_END_DATE max_end_date).
Proof.
  intros (Hda & Hdd & Hsi & Hre & Hdu & Hdr). unfold generate_discount_dates.
  set (mn := default SIMULATION_START_DATE min_start_date).
  set (mx := default SIMULATION_END_DATE max_end_date).
  cbv zeta.
  assert (Hfin : forall i f0,
             mn <= i ->
             (forall h, reference_date = Some h -> mn <= h <= mx ->
                i <= h <= f0 /\ h - dias 14 <= i /\ f0 <= h + dias 3
                /\ (mn < mx -> i < f0 <= mx)) ->
             exists r i' f,
               inr (if i <? Z.max SIMULATION_START_DATE (i - dias (dias_antes_registro a))
                    then i
                    else Z.max SIMULATION_START_DATE (i - dias (dias_antes_registro a)),
                    i, if f0 <=? i then i + dias 1 else f0)
               = (inr (r, i', f) : excepcion + (Z * Z * Z))
               /\ r <= i' < f /\ i' - dias 30 <= r
               /\ (SIMULATION_START_DATE <= i' -> SIMULATION_START_DATE <= r)
               /\ mn <= i'
               /\ forall h, reference_date = Some h -> mn <= h <= mx ->
                    i' <= h <= f /\ h - dias 14 <= i' /\ f <= h + dias 3
                    /\ (mn < mx -> f <= mx)).
  { intros i f0 Hmn Href. eexists _, i, _. split; [reflexivity|].
    split; [|split; [|split; [|split]]].
    - destruct (Z.ltb_spec i (Z.max SIMULATION_START_DATE
                                (i - dias (dias_antes_registro a))));
        destruct (Z.leb_spec f0 i); en_micros; lia.
    - destruct (Z.ltb_spec i (Z.max SIMULATION_START_DATE
                                (i - dias (dias_antes_registro a))));
        en_micros; lia.
    - destruct (Z.ltb_spec i (Z.max SIMULATION_START_DATE
                                (i - dias (dias_antes_registro a))));
        en_micros; lia.
    - exact Hmn.
    - intros h Hh Hw. destruct (Href h Hh Hw) as (H1 & H2 & H3 & H4).
      destruct (Z.leb_spec f0 i); en_micros; lia. }
  destruct reference_date as [h|].
  - apply Hfin; [lia|]. intros h' [= <-] Hw. en_micros. lia.
  - destruct (Z.ltb_spec (mx - dias 1) mn).
    + apply Hfin; [lia|]. intros h' [=].
    + destruct (get_random_datetime_in_range_desde mn (mx - dias 1)
                  (segundos_inicio a) (respaldo_inicio a) Hsi Hre) as (fi & -> & Hfi).
      apply Hfin; [exact Hfi|]. intros h' [=].
Qed.

(** X22. With every draw in its range, the discounts [create_descuentos] returns
    satisfy the check constraints of the table (a percentage from 10 to 50,
    the start strictly before the end), lie inside the simulation window
    and around a holiday of the table (starting at most 14 days before it
    and ending at most 3 days after), are active exactly when they have not
    ended at the current date, and are registered in order at least one
    minute apart.  When a flush or the commit fails nothing is returned;
    otherwise there is one discount per holiday of the table. *)
Theorem create_descuentos_validos fecha_actual azar error_commit :
  (forall n, azar_descuento_en_rango (azar n)) ->
  Forall (descuento_valido fecha_actual) (create_descuentos fecha_actual azar error_commit)
  /\ Sorted registro_espaciado (create_descuentos fecha_actual azar error_commit)
  /\ ((error_commit = true
       \/ exists k, (k < length FECHAS_DESCUENTOS)%nat /\ error_flush (azar k) = true) ->
      create_descuentos fecha_actual azar error_commit = [])
  /\ (error_commit = false ->
      (forall k, (k < length FECHAS_DESCUENTOS)%nat -> error_flush (azar k) = false) ->
      length (create_descuentos fecha_actual azar error_commit)
      = length FECHAS_DESCUENTOS).
Proof.
  intros Ha. unfold create_descuentos.
  destruct (descuentos_de_festivos fecha_actual azar (ordenar_por id FECHAS_DESCUENTOS)
              0 SIMULATION_START_DATE false) as [l r] eqn:E.
  destruct (descuentos_de_festivos_validos fecha_actual azar Ha _ _ _ _ _ _
              (Z.le_refl _) E) as (I1 & I2 & _ & I4 & I5).
  destruct festivos_en_periodo as (Hper & Hlen & Hlen').
  refine (conj _ (conj _ (conj _ _))).
  - destruct (r || error_commit); [constructor|].
    eapply Forall_impl; [exact I1|].
    intros d ((H1 & H2 & H3 & H4 & H5 & H6 & H7 & fe & Hin & H8) & _).
    unfold descuento_valido. refine (conj H1 (conj H2 (conj H3 (conj H4 (conj H5
      (conj H6 (conj H7 _))))))).
    exists fe. split; [|exact H8].
    eapply Permutation_in; [apply SesionesProps.ordenar_por_perm | exact Hin].
  - destruct (r || error_commit); [constructor | exact I2].
  - intros [->|(k & Hk & Hek)]; [now rewrite orb_true_r|].
    rewrite <- Hlen' in Hk. destruct (lookup_lt_is_Some_2 _ _ Hk) as [f Hf].
    rewrite I4; [reflexivity|]. exists k, f. split; [exact Hf|]. split; [|exact Hek].
    rewrite forallb_forall in Hper. apply Hper.
    apply list_elem_of_In. eapply list_elem_of_lookup_2. exact Hf.
  - intros -> Hno.
    destruct (I5 eq_refl) as [-> Hl].
    { intros k f Hk _. now apply (sin_fallos_en_el_bucle azar k f). }
    simpl. now rewrite Hl.
Qed.

(** X23. The first discount is for San Valentin 2022.  Whenever its start is
    drawn 13 or 14 days before the holiday, the start is clamped to the
    first day of the simulation while the registration is pushed one minute
    after it: the discount is registered after it has started. *)
Theorem primer_descuento_registrado_tras_su_inicio fecha_actual azar :
  (forall n, azar_descuento_en_rango (azar n)) ->
  (forall k, (k < length FECHAS_DESCUENTOS)%nat -> error_flush (azar k) = false) ->
  13 <= dias_antes (fechas (azar 0%nat)) ->
  exists d resto,
    create_descuentos fecha_actual azar false = d :: resto
    /\ dn_fecha_inicio d = SIMULATION_START_DATE
    /\ dn_fecha_registro d = SIMULATION_START_DATE + minutos 1
    /\ dn_fecha_inicio d < dn_fecha_registro d.
Proof.
  intros Ha Hno H13. unfold create_descuentos.
  destruct (descuentos_de_festivos fecha_actual azar (ordenar_por id FECHAS_DESCUENTOS)
              0 SIMULATION_START_DATE false) as [l r] eqn:E.
  destruct (descuentos_de_festivos_validos fecha_actual azar Ha _ _ _ _ _ _
              (Z.le_refl _) E) as (_ & _ & _ & _ & I5).
  destruct (I5 eq_refl) as [-> _].
  { intros k f Hk _. now apply (sin_fallos_en_el_bucle azar k f). }
  simpl.
  assert (Hs : ordenar_por id FECHAS_DESCUENTOS
               = mk_datetime 2022 2 14 0 0 0 :: tl (ordenar_por id FECHAS_DESCUENTOS))
    by (vm_compute; reflexivity).
  rewrite Hs in E. cbn [descuentos_de_festivos] in E.
  assert (Hper : (SIMULATION_START_DATE <=? mk_datetime 2022 2 14 0 0 0)
                 && (mk_datetime 2022 2 14 0 0 0 <=? SIMULATION_END_DATE) = true)
    by (vm_compute; reflexivity).
  rewrite Hper in E.
  destruct (fechas_de_san_valentin_2022 (fechas (azar 0%nat)) (proj1 (Ha 0%nat)) H13)
    as [f Ef].
  rewrite Ef in E. cbv zeta in E.
  rewrite (Hno 0%nat) in E by (vm_compute; lia). simpl orb in E. cbv iota in E.
  destruct (descuentos_de_festivos fecha_actual azar _ 1 _ false) as [l' r'].
  injection E as <-. eexists _, l'. split; [reflexivity|]. cbn.
  assert (Hm : Z.max SIMULATION_START_DATE (SIMULATION_START_DATE + minutos 1)
               = SIMULATION_START_DATE + minutos 1) by (en_micros; lia).
  rewrite Hm. split; [reflexivity|]. split; [reflexivity|]. en_micros. lia.
Qed.

Import Ejemplo Casos.

Lemma generate_discount_dates_coherentes_testigo :
  exists r i f,
    generate_discount_dates (Some (mk_datetime 2024 12 24 0 0 0)) None None
      (fechas (azar_descuento 0)) = inr (r, i, f)
    /\ r <= i < f.
Proof.
  destruct (generate_discount_dates_coherentes (Some (mk_datetime 2024 12 24 0 0 0))
              None None (fechas (azar_descuento 0))) as (r & i & f & E & H & _).
  - unfold azar_fechas_en_rango. cbn. en_micros. lia.
  - exists r, i, f. split; assumption.
Defined.

Lemma create_descuentos_validos_testigo :
  Forall (descuento_valido ahora) (create_descuentos ahora azar_descuento false).
Proof.
  refine (proj1 (create_descuentos_validos ahora azar_descuento false _)).
  intros n. unfold azar_descuento_en_rango, azar_fechas_en_rango. cbn. en_micros. lia.
Defined.

Lemma primer_descuento_registrado_tras_su_inicio_testigo :
  exists d resto,
    create_descuentos ahora azar_descuento false = d :: resto
    /\ dn_fecha_inicio d = SIMULATION_START_DATE
    /\ dn_fecha_registro d = SIMULATION_START_DATE + minutos 1
    /\ dn_fecha_inicio d < dn_fecha_registro d.
Proof.
  apply (primer_descuento_registrado_tras_su_inicio ahora azar_descuento).
  - intros n. unfold azar_descuento_en_rango, azar_fechas_en_rango. cbn. en_micros. lia.
  - intros k _. reflexivity.
  - cbn. lia.
Defined.

End DescuentosProps.

(** ** Confirming users *)

Module UsuariosProps.

Import DetallesPedido Usuarios.









Import Ejemplo Casos.


End UsuariosProps.
